(** * CRM-AI-Agent: the conversation-to-deal handler, the reply generator
      and the channel router, embedded from [app/agent.py],
      [app/meta_router.py], [app/models.py] and [app/main.py]. *)

From Stdlib Require Import List ZArith NArith Bool Lia String Ascii.
Import ListNotations.

Set Implicit Arguments.
Set Warnings "-register-all".

Local Open Scope N_scope.
Local Open Scope list_scope.

(** ** Python strings

    A Python [str] is a sequence of Unicode code points; it is kept here as
    the list of its code points, so that U+2019 is one element (and not the
    three bytes of its UTF-8 form). *)

Definition codepoint := N.
Definition pystr := list codepoint.

(** An ASCII literal of the source, as a [pystr]. *)
Definition lit (s : string) : pystr :=
  map N_of_ascii (list_ascii_of_string s).

Notation "'py' s" := (lit s%string) (at level 9, s at level 0, only parsing).

Definition pystr_eqb (a b : pystr) : bool :=
  if list_eq_dec N.eq_dec a b then true else false.

(** Truthiness of a [str]: the empty string is falsy. *)
Definition str_truthy (s : pystr) : bool :=
  match s with [] => false | _ :: _ => true end.

(** [k in s] for two strings: [k] occurs in [s] as a contiguous run. *)
Fixpoint starts_with (k s : pystr) : bool :=
  match k, s with
  | [], _ => true
  | _ :: _, [] => false
  | a :: k', b :: s' => N.eqb a b && starts_with k' s'
  end.

Fixpoint str_in (k s : pystr) : bool :=
  starts_with k s ||
  match s with
  | [] => false
  | _ :: s' => str_in k s'
  end.

(** ** [app/agent.py]: [_sanitize_ascii] *)

Module Agent.

(** [str.replace(old, new)] where [old] is a single code point. *)
Definition replace (old : codepoint) (new : pystr) (text : pystr) : pystr :=
  flat_map (fun c => if N.eqb c old then new else [c]) text.

(** [text.encode("ascii", errors="ignore").decode("ascii", errors="ignore")]:
    every code point outside 0..127 is dropped. *)
Definition is_ascii (c : codepoint) : bool := N.ltb c 128.

Definition encode_ascii_ignore (text : pystr) : pystr := filter is_ascii text.

(** The class [\s] of [re] on a [str] pattern, which is also the set that
    [str.strip()] removes: the code points for which [str.isspace] holds. *)
Definition isspace (c : codepoint) : bool :=
  (N.leb 9 c && N.leb c 13) || (N.leb 28 c && N.leb c 32)
  || N.eqb c 133 || N.eqb c 160 || N.eqb c 5760
  || (N.leb 8192 c && N.leb c 8202)
  || N.eqb c 8232 || N.eqb c 8233 || N.eqb c 8239 || N.eqb c 8287
  || N.eqb c 12288.

Definition SPACE : codepoint := 32.

(** [re.sub(r"\s+", " ", text)]: scanning from the left, every maximal run of
    whitespace is replaced by one space.  [in_run] tells that the previous
    code point belonged to the run being replaced. *)
Fixpoint sub_ws (in_run : bool) (text : pystr) : pystr :=
  match text with
  | [] => []
  | c :: rest =>
      if isspace c
      then (if in_run then sub_ws true rest else SPACE :: sub_ws true rest)
      else c :: sub_ws false rest
  end.

Definition re_sub_spaces (text : pystr) : pystr := sub_ws false text.

(** [str.strip()]: leading, then trailing whitespace removed. *)
Fixpoint lstrip (text : pystr) : pystr :=
  match text with
  | [] => []
  | c :: rest => if isspace c then lstrip rest else text
  end.

Fixpoint rstrip (text : pystr) : pystr :=
  match text with
  | [] => []
  | c :: rest =>
      match rstrip rest with
      | [] => if isspace c then [] else [c]
      | kept => c :: kept
      end
  end.

Definition strip (text : pystr) : pystr := rstrip (lstrip text).

Definition RSQUO : codepoint := 8217.  (* U+2019 *)
Definition LSQUO : codepoint := 8216.  (* U+2018 *)
Definition LDQUO : codepoint := 8220.  (* U+201C *)
Definition RDQUO : codepoint := 8221.  (* U+201D *)
Definition EMDASH : codepoint := 8212. (* U+2014 *)
Definition ENDASH : codepoint := 8211. (* U+2013 *)
Definition APOS : codepoint := 39.
Definition DQUOTE : codepoint := 34.
Definition HYPHEN : codepoint := 45.

Definition replace_smart (text : pystr) : pystr :=
  replace ENDASH [HYPHEN]
    (replace EMDASH [HYPHEN]
      (replace RDQUO [DQUOTE]
        (replace LDQUO [DQUOTE]
          (replace LSQUO [APOS]
            (replace RSQUO [APOS] text))))).

Definition _sanitize_ascii (text : pystr) : pystr :=
  if negb (str_truthy text) then []
  else strip (re_sub_spaces (encode_ascii_ignore (replace_smart text))).

End Agent.

(** ** Exceptions

    Code that can raise returns a [res]: the value, or the exception.  Every
    exception below is a subclass of Python's [Exception], so a bare
    [except Exception] handler catches each of them. *)

Inductive exn : Type :=
| IndexError
| KeyError
| TypeError
| AttributeError
| BackendError                    (* anything the OpenAI client raises *)
| PersistenceError                (* anything the SQLAlchemy session raises *)
| TokenError                      (* anything [jwt.decode] raises *)
| HTTPException (status_code : Z) (detail : pystr).

Inductive res (A : Type) : Type :=
| Return (a : A)
| Raise (e : exn).

Arguments Return {A} a.
Arguments Raise {A} e.

Definition res_bind {A B} (m : res A) (k : A -> res B) : res B :=
  match m with
  | Return a => k a
  | Raise e => Raise e
  end.

(** [try: body  except Exception: handler]. *)
Definition try_except {A} (body : res A) (handler : res A) : res A :=
  match body with
  | Return a => Return a
  | Raise _ => handler
  end.

Declare Scope res_scope.
Delimit Scope res_scope with res.
Notation "x <- m ;; k" := (res_bind m (fun x => k))
  (at level 61, m at next level, right associativity) : res_scope.

(** ** [app/meta_router.py] *)

Module MetaRouter.

(** A float, as far as the router looks at one: only its truthiness. *)
Inductive pyfloat : Type :=
| FNaN
| FInf (negative : bool)
| FNum (negative : bool) (mantissa : N) (exponent : Z).

(** The values a decoded JSON body is made of.  The keys of an object are
    strings; a [dict] is kept as its items, looked up by key. *)
Inductive value : Type :=
| VNone
| VBool (b : bool)
| VInt (z : Z)
| VFloat (f : pyfloat)
| VStr (s : pystr)
| VList (items : list value)
| VDict (items : list (pystr * value)).

Definition truthy (v : value) : bool :=
  match v with
  | VNone => false
  | VBool b => b
  | VInt z => negb (Z.eqb z 0)
  | VFloat (FNum _ 0 _) => false
  | VFloat _ => true
  | VStr s => str_truthy s
  | VList [] => false
  | VList _ => true
  | VDict [] => false
  | VDict _ => true
  end.

(** [a or b]. *)
Definition py_or (a b : value) : value := if truthy a then a else b.

Fixpoint lookup (key : pystr) (items : list (pystr * value)) : option value :=
  match items with
  | [] => None
  | (k, v) :: rest => if pystr_eqb k key then Some v else lookup key rest
  end.

(** [v.get(key, default)]: only a [dict] has the method. *)
Definition get (v : value) (key : pystr) (default : value) : res value :=
  match v with
  | VDict items =>
      Return (match lookup key items with Some x => x | None => default end)
  | _ => Raise AttributeError
  end.

(** [v[0]]. *)
Definition getitem0 (v : value) : res value :=
  match v with
  | VList (x :: _) => Return x
  | VList [] => Raise IndexError
  | VStr (c :: _) => Return (VStr [c])
  | VStr [] => Raise IndexError
  | VDict _ => Raise KeyError      (* the keys are strings, never [0] *)
  | _ => Raise TypeError
  end.

(** [v == "literal"]. *)
Definition eq_str (v : value) (s : pystr) : bool :=
  match v with
  | VStr t => pystr_eqb t s
  | _ => false
  end.

Local Open Scope res_scope.

Definition detect_channel (payload : value) : res pystr :=
  obj <- get payload (py "object") (VStr []) ;;
  if eq_str obj (py "whatsapp_business_account") then Return (py "whatsapp")
  else if eq_str obj (py "page") then Return (py "messenger")
  else if eq_str obj (py "instagram") then Return (py "instagram")
  else Return (py "unknown").

Definition extract_routing_key (payload : value) : res value :=
  ch <- detect_channel payload ;;
  try_except
    (if pystr_eqb ch (py "whatsapp") then
       entries <- get payload (py "entry") VNone ;;
       entry <- getitem0 (py_or entries (VList [])) ;;
       changes <- get entry (py "changes") VNone ;;
       change <- getitem0 (py_or changes (VList [])) ;;
       value0 <- get change (py "value") VNone ;;
       let value := py_or value0 (VDict []) in
       meta0 <- get value (py "metadata") VNone ;;
       let meta := py_or meta0 (VDict []) in
       get meta (py "phone_number_id") VNone
     else
       entries <- get payload (py "entry") VNone ;;
       entry <- getitem0 (py_or entries (VList [])) ;;
       get entry (py "id") VNone)
    (Return VNone).

(** The routing key in the words of the specification: the value reached by
    walking [entry[0].changes[0].value.metadata.phone_number_id] (whatsapp) or
    [entry[0].id] (any other channel); [None] as soon as a step of the walk
    is not there. *)
Definition field (key : pystr) (v : value) : option value :=
  match v with
  | VDict items => lookup key items
  | _ => None
  end.

Definition first_item (v : value) : option value :=
  match v with
  | VList (x :: _) => Some x
  | _ => None
  end.

Definition obind {A B} (o : option A) (k : A -> option B) : option B :=
  match o with Some a => k a | None => None end.

Definition is_whatsapp (payload : value) : bool :=
  match field (py "object") payload with
  | Some obj => eq_str obj (py "whatsapp_business_account")
  | None => false
  end.

Definition routing_key_spec (payload : value) : option value :=
  if is_whatsapp payload then
    obind (field (py "entry") payload) (fun entries =>
    obind (first_item entries) (fun entry =>
    obind (field (py "changes") entry) (fun changes =>
    obind (first_item changes) (fun change =>
    obind (field (py "value") change) (fun value =>
    obind (field (py "metadata") value) (fun meta =>
    field (py "phone_number_id") meta))))))
  else
    obind (field (py "entry") payload) (fun entries =>
    obind (first_item entries) (fun entry =>
    field (py "id") entry)).

(** The value the caller gets: [None] stands for "no routing key". *)
Definition or_none (o : option value) : value :=
  match o with Some v => v | None => VNone end.

End MetaRouter.

(** ** [app/agent.py]: [run_agent]

    [str.lower] is Python's Unicode lower-casing; the development is
    parametric in it.  The process environment and the OpenAI client are the
    collaborators of [run_agent]: [chat] stands for the whole of
    [OpenAI(api_key=...)], [client.chat.completions.create(...)] and
    [resp.choices[0].message.content], which either raises or yields the
    content (a string or [None]). *)

Module AgentRun.
Import Agent.

Record environment : Type := {
  OPENAI_API_KEY : option pystr;          (* os.getenv("OPENAI_API_KEY") *)
  OPENAI_MODEL : option pystr;            (* os.getenv("OPENAI_MODEL") *)
  OpenAI_imported : bool;                 (* False when [OpenAI is None] *)
  chat : pystr -> pystr -> pystr -> pystr -> res (option pystr)
         (* api_key, model, system prompt, user prompt *)
}.

Definition keywords : list pystr :=
  [py "price"; py "cost"; py "rate"; py "kitna"; py "suit"; py "order";
   py "cod"; py "delivery"].

Definition default_reply : pystr :=
  py "Share your city + budget and I'll finalize the order.".

Definition system_prompt : pystr :=
  py "You are a sales assistant for a Pakistani fashion brand. "
  ++ py "Keep replies short, polite, and in simple English. Use only ASCII punctuation.".

Definition NEWLINE : codepoint := 10.

Definition opt_truthy (o : option pystr) : bool :=
  match o with Some s => str_truthy s | None => false end.

(** [o or d] for an optional string. *)
Definition opt_or (o : option pystr) (d : pystr) : pystr :=
  match o with
  | Some s => if str_truthy s then s else d
  | None => d
  end.

Section RunAgent.
Variable lower : pystr -> pystr.
Variable env : environment.

Definition rule_stage (message_text : option pystr) : pystr :=
  let message_text := opt_or message_text [] in
  let lower_text := lower message_text in
  if existsb (fun k => str_in k lower_text) keywords
  then py "qualified" else py "new".

Definition run_agent (message_text : option pystr) (contact_name : option pystr)
  : res (pystr * pystr) :=
  let message_text := opt_or message_text [] in
  let lower_text := lower message_text in
  let stage :=
    if existsb (fun k => str_in k lower_text) keywords
    then py "qualified" else py "new" in
  let api_key := OPENAI_API_KEY env in
  let model := match OPENAI_MODEL env with Some m => m | None => py "gpt-5-mini" end in
  if negb (opt_truthy api_key) || negb (OpenAI_imported env) then
    Return (_sanitize_ascii default_reply, stage)
  else
    try_except
      (let user := py "Customer: " ++ message_text ++ [NEWLINE]
                   ++ py "Name: " ++ opt_or contact_name [] ++ [NEWLINE]
                   ++ py "Reply in one line." in
       res_bind (chat env (opt_or api_key []) model system_prompt user)
         (fun content =>
            let reply := opt_or content default_reply in
            Return (_sanitize_ascii reply, stage)))
      (Return (_sanitize_ascii default_reply, stage)).

End RunAgent.
End AgentRun.

(** ** [app/models.py]

    The rows of the three tables the handler works on.  [created_at] and
    [updated_at] are filled by the clock and read by no operation of the
    handler; they are left out. *)

Module User.
Record t : Type := mk {
  id : Z;
  tenant_id : option Z;      (* NULL: platform superadmin *)
  email : pystr;
  role : pystr;
  is_active : bool
}.
End User.

Module Contact.
Record t : Type := mk {
  id : Z;
  tenant_id : Z;
  channel : pystr;
  channel_user_id : pystr;
  contact_name : option pystr;
  phone : option pystr;
  email : option pystr
}.

Definition with_contact_name (name : option pystr) (c : t) : t :=
  mk (id c) (tenant_id c) (channel c) (channel_user_id c) name (phone c) (email c).
End Contact.

Module Deal.
Record t : Type := mk {
  id : Z;
  tenant_id : Z;
  contact_id : Z;
  stage : pystr;             (* default "new" *)
  status : pystr;            (* default "open" *)
  city : option pystr;
  budget : option pystr;
  notes : option pystr
}.

Definition with_stage (s : pystr) (d : t) : t :=
  mk (id d) (tenant_id d) (contact_id d) s (status d) (city d) (budget d) (notes d).
End Deal.

Module Message.
Record t : Type := mk {
  id : Z;
  tenant_id : Z;
  contact_id : Z;
  channel : pystr;
  direction : pystr;         (* in/out/system *)
  text : pystr
}.
End Message.

(** The committed content of the store: each table is the list of its rows
    in insertion order. *)
Record DB : Type := mkDB {
  contacts : list Contact.t;
  deals : list Deal.t;
  messages : list Message.t
}.

(** The key an integer primary key column gives to a new row: 1 in an empty
    table, else one more than the largest key in use. *)
Definition next_id (ids : list Z) : Z :=
  match ids with
  | [] => 1%Z
  | i :: rest => (1 + fold_left Z.max rest i)%Z
  end.

(** ** [app/main.py]: the [/simulate] handler

    The session is followed through its commits.  A handler is a function of
    the committed store that yields a result (or the exception that ended the
    request) and the store as committed at that point.  [db.add(x)] followed
    by [db.commit()] is one [commit]: it either raises and leaves the
    committed store as it was, or applies the pending write.  Which commit
    raises is decided by the oracle [fault]; the handler calls [db.commit()]
    at five places. *)

Inductive commit_site : Type :=
| CommitContact      (* main.py 378 and 384 *)
| CommitInbound      (* main.py 395 *)
| CommitDeal         (* main.py 414 *)
| CommitStage        (* main.py 426 *)
| CommitOutbound.    (* main.py 437 *)

Definition no_fault : commit_site -> bool := fun _ => false.

Definition M (A : Type) : Type := DB -> res A * DB.

Definition ret {A} (a : A) : M A := fun db => (Return a, db).

Definition raise {A} (e : exn) : M A := fun db => (Raise e, db).

Definition bind {A B} (m : M A) (k : A -> M B) : M B :=
  fun db =>
    match m db with
    | (Return a, db') => k a db'
    | (Raise e, db') => (Raise e, db')
    end.

Definition query {A} (q : DB -> A) : M A := fun db => (Return (q db), db).

Declare Scope handler_scope.
Delimit Scope handler_scope with handler.
Notation "x <- m ;; k" := (bind m (fun x => k))
  (at level 61, m at next level, right associativity) : handler_scope.
Notation "m ;;; k" := (bind m (fun _ => k))
  (at level 61, right associativity) : handler_scope.

Module Main.

Record SimulateIn : Type := {
  channel : pystr;
  channel_user_id : pystr;
  text : pystr;
  contact_name : option pystr
}.

(** The JSON object the handler returns. *)
Record Response : Type := {
  ok : bool;
  reply : pystr;
  stage : pystr
}.

(** The handler's local variables when it returns. *)
Record Locals : Type := {
  l_contact : Contact.t;
  l_deal : Deal.t;
  l_reply : pystr
}.

Definition opt_truthy (o : option pystr) : bool :=
  match o with Some s => str_truthy s | None => false end.

(** *** Queries *)

Definition contact_matches (tenant_id : Z) (payload : SimulateIn) (c : Contact.t) : bool :=
  Z.eqb (Contact.tenant_id c) tenant_id
  && pystr_eqb (Contact.channel c) (channel payload)
  && pystr_eqb (Contact.channel_user_id c) (channel_user_id payload).

(** [db.query(Contact).filter(...).first()]: no ORDER BY, the rows come in
    the order of the table. *)
Definition find_contact (tenant_id : Z) (payload : SimulateIn) (db : DB) : option Contact.t :=
  find (contact_matches tenant_id payload) (contacts db).

Definition deal_matches (tenant_id contact_id : Z) (d : Deal.t) : bool :=
  Z.eqb (Deal.tenant_id d) tenant_id
  && Z.eqb (Deal.contact_id d) contact_id
  && pystr_eqb (Deal.status d) (py "open").

(** [.order_by(desc(Deal.id)).first()]: the row with the greatest id. *)
Fixpoint first_by_id_desc (rows : list Deal.t) : option Deal.t :=
  match rows with
  | [] => None
  | d :: rest =>
      match first_by_id_desc rest with
      | Some d' => if Z.ltb (Deal.id d) (Deal.id d') then Some d' else Some d
      | None => Some d
      end
  end.

Definition find_open_deal (tenant_id contact_id : Z) (db : DB) : option Deal.t :=
  first_by_id_desc (filter (deal_matches tenant_id contact_id) (deals db)).

(** *** Writes *)

Definition insert_contact (c : Contact.t) (db : DB) : DB :=
  mkDB (contacts db ++ [c]) (deals db) (messages db).

(** UPDATE contacts SET contact_name = ? WHERE id = ? *)
Definition update_contact_name (id : Z) (name : option pystr) (db : DB) : DB :=
  mkDB (map (fun c => if Z.eqb (Contact.id c) id
                      then Contact.with_contact_name name c else c)
            (contacts db))
       (deals db) (messages db).

Definition insert_message (m : Message.t) (db : DB) : DB :=
  mkDB (contacts db) (deals db) (messages db ++ [m]).

Definition insert_deal (d : Deal.t) (db : DB) : DB :=
  mkDB (contacts db) (deals db ++ [d]) (messages db).

(** UPDATE deals SET stage = ? WHERE id = ? *)
Definition update_deal_stage (id : Z) (s : pystr) (db : DB) : DB :=
  mkDB (contacts db)
       (map (fun d => if Z.eqb (Deal.id d) id then Deal.with_stage s d else d)
            (deals db))
       (messages db).

Definition reply_price : pystr :=
  py "Share your city + budget and I" ++ [Agent.RSQUO] ++ py "ll finalize the order.".

Definition reply_thanks : pystr :=
  py "Thanks! Share your city + budget so I can guide you.".

Section Handler.
Variable lower : pystr -> pystr.
Variable fault : commit_site -> bool.

Local Open Scope handler_scope.

Definition commit (site : commit_site) (write : DB -> DB) : M unit :=
  fun db =>
    if fault site then (Raise PersistenceError, db)
    else (Return tt, write db).

(** main.py 361-384 *)
Definition find_or_create_contact (tenant_id : Z) (payload : SimulateIn) : M Contact.t :=
  found <- query (find_contact tenant_id payload) ;;
  match found with
  | None =>
      contact <- query (fun db =>
        Contact.mk (next_id (map Contact.id (contacts db)))
                   tenant_id (channel payload) (channel_user_id payload)
                   (contact_name payload)
                   (if pystr_eqb (channel payload) (py "whatsapp")
                    then Some (channel_user_id payload) else None)
                   None) ;;
      commit CommitContact (insert_contact contact) ;;;
      ret contact
  | Some contact =>
      if opt_truthy (contact_name payload)
         && negb (opt_truthy (Contact.contact_name contact))
      then
        commit CommitContact
               (update_contact_name (Contact.id contact) (contact_name payload)) ;;;
        ret (Contact.with_contact_name (contact_name payload) contact)
      else ret contact
  end.

(** main.py 386-395 and 428-437 *)
Definition store_message (site : commit_site) (tenant_id : Z) (contact : Contact.t)
    (payload : SimulateIn) (direction text : pystr) : M unit :=
  msg <- query (fun db =>
    Message.mk (next_id (map Message.id (messages db)))
               tenant_id (Contact.id contact) (channel payload) direction text) ;;
  commit site (insert_message msg).

(** main.py 397-415 *)
Definition find_or_create_deal (tenant_id : Z) (contact : Contact.t) : M Deal.t :=
  found <- query (find_open_deal tenant_id (Contact.id contact)) ;;
  match found with
  | Some deal => ret deal
  | None =>
      deal <- query (fun db =>
        Deal.mk (next_id (map Deal.id (deals db)))
                tenant_id (Contact.id contact) (py "new") (py "open")
                None None None) ;;
      commit CommitDeal (insert_deal deal) ;;;
      ret deal
  end.

(** main.py 417-426 *)
Definition reply_and_stage (payload : SimulateIn) (deal : Deal.t) : M (pystr * Deal.t) :=
  let text_lower := lower (text payload) in
  let '(reply, deal) :=
    if str_in (py "price") text_lower || str_in (py "rate") text_lower
    then (reply_price, Deal.with_stage (py "qualified") deal)
    else (reply_thanks,
          Deal.with_stage (if str_truthy (Deal.stage deal)
                           then Deal.stage deal else py "new") deal) in
  commit CommitStage (update_deal_stage (Deal.id deal) (Deal.stage deal)) ;;;
  ret (reply, deal).

Definition simulate_body (payload : SimulateIn) (user : User.t) : M Locals :=
  match User.tenant_id user with
  | None =>
      raise (HTTPException 400 (py "Superadmin cannot simulate without tenant"))
  | Some tenant_id =>
      contact <- find_or_create_contact tenant_id payload ;;
      store_message CommitInbound tenant_id contact payload (py "in") (text payload) ;;;
      deal <- find_or_create_deal tenant_id contact ;;
      rd <- reply_and_stage payload deal ;;
      store_message CommitOutbound tenant_id contact payload (py "out") (fst rd) ;;;
      ret (Build_Locals contact (snd rd) (fst rd))
  end.

Definition response_of (l : Locals) : Response :=
  Build_Response true (l_reply l) (Deal.stage (l_deal l)).

Definition simulate (payload : SimulateIn) (user : User.t) : M Response :=
  l <- simulate_body payload user ;;
  ret (response_of l).

End Handler.
End Main.

(** ** [app/main.py]: [/simulate] when requests overlap

    [simulate] is a plain [def], which the framework runs on a worker
    thread, and every request opens a session of its own (db.py 22-27): two
    requests can be in progress on one database.  A request is then
    followed statement by statement.  Each query, each [db.commit()] and
    each reload of a row is one step on the committed store, and between
    two steps of a request the steps of another may run.  An INSERT gives
    the row its key when it runs, that is at the commit; the INSERT of a
    contact is refused when the row would break [uq_contact_channel_user]
    (models.py 143), the deals table has indexes only (models.py 168).  The
    session writes an UPDATE only for a column whose value has changed, and
    after a commit it reads a row again before it uses one of its columns
    ([db.refresh], or the reload of an expired row).  The reloads that only
    serve [contact.id] are left out: a key never changes, and no statement
    of the application deletes a row. *)

Module Concurrent.
Import Main.

(** A request in progress: it has ended with a result, or its next
    statement waits for the store. *)
Inductive Task (A : Type) : Type :=
| Finished (r : res A)
| Atomic (step : DB -> DB * Task A).

Arguments Finished {A} r.
Arguments Atomic {A} step.

Definition tret {A} (a : A) : Task A := Finished (Return a).

Definition traise {A} (e : exn) : Task A := Finished (Raise e).

Fixpoint tbind {A B} (t : Task A) (k : A -> Task B) : Task B :=
  match t with
  | Finished (Return a) => k a
  | Finished (Raise e) => Finished (Raise e)
  | Atomic step =>
      Atomic (fun db => let (db', t') := step db in (db', tbind t' k))
  end.

Definition tquery {A} (q : DB -> A) : Task A :=
  Atomic (fun db => (db, tret (q db))).

(** [db.add(row); db.commit()]: the row gets its key from the store as it
    is when the INSERT runs. *)
Definition tinsert {R} (refused : DB -> bool) (row : DB -> R)
    (insert : R -> DB -> DB) : Task R :=
  Atomic (fun db =>
    if refused db then (db, traise PersistenceError)
    else (insert (row db) db, tret (row db))).

(** [db.commit()] of an UPDATE. *)
Definition tupdate (refused : bool) (write : DB -> DB) : Task unit :=
  Atomic (fun db =>
    if refused then (db, traise PersistenceError) else (write db, tret tt)).

(** [db.refresh(row)] and the reload of an expired row: SELECT by key. *)
Definition reload {R} (by_id : DB -> option R) : Task R :=
  Atomic (fun db =>
    match by_id db with
    | Some r => (db, tret r)
    | None => (db, traise PersistenceError)
    end).

Definition contact_by_id (id : Z) (db : DB) : option Contact.t :=
  find (fun c => Z.eqb (Contact.id c) id) (contacts db).

Definition deal_by_id (id : Z) (db : DB) : option Deal.t :=
  find (fun d => Z.eqb (Deal.id d) id) (deals db).

Declare Scope task_scope.
Delimit Scope task_scope with task.
Notation "x <- m ;; k" := (tbind m (fun x => k))
  (at level 61, m at next level, right associativity) : task_scope.
Notation "m ;;; k" := (tbind m (fun _ => k))
  (at level 61, right associativity) : task_scope.

Section Handler.
Variable lower : pystr -> pystr.
Variable fault : commit_site -> bool.

Local Open Scope task_scope.

(** main.py 361-384 *)
Definition find_or_create_contact (tenant_id : Z) (payload : SimulateIn)
  : Task Contact.t :=
  found <- tquery (find_contact tenant_id payload) ;;
  match found with
  | None =>
      contact <- tinsert
        (fun db => fault CommitContact
                   || existsb (contact_matches tenant_id payload) (contacts db))
        (fun db =>
           Contact.mk (next_id (map Contact.id (contacts db)))
                      tenant_id (channel payload) (channel_user_id payload)
                      (contact_name payload)
                      (if pystr_eqb (channel payload) (py "whatsapp")
                       then Some (channel_user_id payload) else None)
                      None)
        insert_contact ;;
      reload (contact_by_id (Contact.id contact))
  | Some contact =>
      if opt_truthy (contact_name payload)
         && negb (opt_truthy (Contact.contact_name contact))
      then
        tupdate (fault CommitContact)
                (update_contact_name (Contact.id contact) (contact_name payload)) ;;;
        tret (Contact.with_contact_name (contact_name payload) contact)
      else tret contact
  end.

(** main.py 386-395 and 428-437 *)
Definition store_message (site : commit_site) (tenant_id : Z) (contact : Contact.t)
    (payload : SimulateIn) (direction text : pystr) : Task unit :=
  tinsert (fun _ => fault site)
          (fun db =>
             Message.mk (next_id (map Message.id (messages db)))
                        tenant_id (Contact.id contact) (channel payload)
                        direction text)
          insert_message ;;;
  tret tt.

(** main.py 397-415 *)
Definition find_or_create_deal (tenant_id : Z) (contact : Contact.t) : Task Deal.t :=
  found <- tquery (find_open_deal tenant_id (Contact.id contact)) ;;
  match found with
  | Some deal => tret deal
  | None =>
      deal <- tinsert (fun _ => fault CommitDeal)
        (fun db =>
           Deal.mk (next_id (map Deal.id (deals db)))
                   tenant_id (Contact.id contact) (py "new") (py "open")
                   None None None)
        insert_deal ;;
      reload (deal_by_id (Deal.id deal))
  end.

(** main.py 417-426 *)
Definition reply_and_stage (payload : SimulateIn) (deal : Deal.t) : Task pystr :=
  let text_lower := lower (text payload) in
  let '(reply, stage) :=
    if str_in (py "price") text_lower || str_in (py "rate") text_lower
    then (reply_price, py "qualified")
    else (reply_thanks,
          if str_truthy (Deal.stage deal) then Deal.stage deal else py "new") in
  tupdate (fault CommitStage)
          (if pystr_eqb stage (Deal.stage deal) then fun db => db
           else update_deal_stage (Deal.id deal) stage) ;;;
  tret reply.

(** main.py 346-439; the [deal.stage] of the response is read after the
    last commit. *)
Definition simulate (payload : SimulateIn) (user : User.t) : Task Response :=
  match User.tenant_id user with
  | None =>
      traise (HTTPException 400 (py "Superadmin cannot simulate without tenant"))
  | Some tenant_id =>
      contact <- find_or_create_contact tenant_id payload ;;
      store_message CommitInbound tenant_id contact payload (py "in") (text payload) ;;;
      deal <- find_or_create_deal tenant_id contact ;;
      reply <- reply_and_stage payload deal ;;
      store_message CommitOutbound tenant_id contact payload (py "out") reply ;;;
      stored <- reload (deal_by_id (Deal.id deal)) ;;
      tret (Build_Response true reply (Deal.stage stored))
  end.

End Handler.

(** *** Running requests *)

(** A request that has the store to itself. *)
Fixpoint run {A} (t : Task A) (db : DB) : res A * DB :=
  match t with
  | Finished r => (r, db)
  | Atomic step => let (db', t') := step db in run t' db'
  end.

(** The next statement of a request, if it has one. *)
Definition advance {A} (t : Task A) (db : DB) : DB * Task A :=
  match t with
  | Finished _ => (db, t)
  | Atomic step => step db
  end.

(** Two requests on one store; [schedule] tells whose statement runs next
    ([true] for the first request). *)
Fixpoint interleave {A B} (schedule : list bool) (a : Task A) (b : Task B)
    (db : DB) : Task A * Task B * DB :=
  match schedule with
  | [] => (a, b, db)
  | true :: rest => let (db', a') := advance a db in interleave rest a' b db'
  | false :: rest => let (db', b') := advance b db in interleave rest a b' db'
  end.

(** The schedule in which the two requests take turns, [n] statements each. *)
Fixpoint in_turns (n : nat) : list bool :=
  match n with
  | O => []
  | S n' => true :: false :: in_turns n'
  end.

(** The schedule in which the first request runs its [n] statements before
    the second runs its [m]. *)
Definition one_by_one (n m : nat) : list bool := repeat true n ++ repeat false m.

End Concurrent.

(** ** [app/models.py]: tenants, users and one-time codes

    The rows the account handlers of [app/main.py] work on; [created_at] is
    left out as before.  [Account.t] is a row of [users] with all its
    columns; [User.t] above is the part of it the [/simulate] handler
    reads. *)

Module Tenant.
Record t : Type := mk {
  id : Z;
  name : pystr;              (* unique: uq_tenants_name *)
  status : pystr             (* pending/active *)
}.
End Tenant.

Module Account.
Record t : Type := mk {
  id : Z;
  tenant_id : option Z;
  email : pystr;             (* unique: uq_users_email *)
  phone : option pystr;
  password_hash : pystr;
  role : pystr;
  email_verified : bool;
  phone_verified : bool;
  is_active : bool
}.

Definition with_email_verified (b : bool) (u : t) : t :=
  mk (id u) (tenant_id u) (email u) (phone u) (password_hash u) (role u)
     b (phone_verified u) (is_active u).

Definition with_phone_verified (b : bool) (u : t) : t :=
  mk (id u) (tenant_id u) (email u) (phone u) (password_hash u) (role u)
     (email_verified u) b (is_active u).

Definition to_user (u : t) : User.t :=
  User.mk (id u) (tenant_id u) (email u) (role u) (is_active u).
End Account.

Module OTP.
Record t : Type := mk {
  id : Z;
  user_id : Z;
  kind : pystr;              (* email/phone *)
  code_hash : pystr;
  expires_at : Z;            (* naive UTC, in microseconds *)
  used : bool
}.

Definition with_used (b : bool) (o : t) : t :=
  mk (id o) (user_id o) (kind o) (code_hash o) (expires_at o) b.
End OTP.

(** The committed rows of the three tables, and what the process has
    printed (the mock delivery of the codes). *)
Record World : Type := mkWorld {
  tenants : list Tenant.t;
  users : list Account.t;
  otps : list OTP.t;
  stdout : list pystr
}.

(** ** [app/config.py], [app/security.py] and the account handlers of
    [app/main.py] *)

Module Auth.

Record Settings : Type := {
  JWT_EXPIRES_MINUTES : Z;
  OTP_TTL_SECONDS : Z;
  SUPERADMIN_EMAIL : pystr;
  SUPERADMIN_PASSWORD : pystr
}.

(** The payload [create_access_token] signs. *)
Record Claims : Type := {
  sub : pystr;
  role : pystr;
  tenant_id : option Z;
  iat : Z;
  exp : Z
}.

(** What [decode_token] gives back, as far as the handlers read it:
    [payload.get("sub")]. *)
Record Decoded : Type := {
  d_sub : option pystr
}.

Definition W (A : Type) : Type := World -> res A * World.

Definition wret {A} (a : A) : W A := fun w => (Return a, w).
Definition wraise {A} (e : exn) : W A := fun w => (Raise e, w).
Definition wbind {A B} (m : W A) (k : A -> W B) : W B :=
  fun w =>
    match m w with
    | (Return a, w') => k a w'
    | (Raise e, w') => (Raise e, w')
    end.
Definition wquery {A} (q : World -> A) : W A := fun w => (Return (q w), w).

(** A computation that touches neither the store nor the output. *)
Definition wlift {A} (r : res A) : W A := fun w => (r, w).

(** [db.commit()] of a pending write: it raises when the write breaks a
    unique constraint, and the store stays as it was. *)
Definition wcommit (allowed : World -> bool) (write : World -> World) : W unit :=
  fun w => if allowed w then (Return tt, write w) else (Raise PersistenceError, w).

Definition print (line : pystr) : W unit :=
  fun w => (Return tt, mkWorld (tenants w) (users w) (otps w) (stdout w ++ [line])).

Declare Scope auth_scope.
Delimit Scope auth_scope with auth.
Notation "x <- m ;; k" := (wbind m (fun x => k))
  (at level 61, m at next level, right associativity) : auth_scope.
Notation "m ;;; k" := (wbind m (fun _ => k))
  (at level 61, right associativity) : auth_scope.

(** *** Decimal codes: [f"{n:06d}"] for [n >= 0] *)

Definition DIGIT0 : codepoint := 48.

Fixpoint decimal_fuel (fuel : nat) (n : N) : pystr :=
  match fuel with
  | O => []
  | S fuel' =>
      if N.ltb n 10 then [DIGIT0 + n]
      else decimal_fuel fuel' (n / 10) ++ [DIGIT0 + n mod 10]
  end.

(** [str(n)]: a number has at most as many digits as its binary size. *)
Definition decimal (n : N) : pystr := decimal_fuel (S (N.to_nat (N.size n))) n.

(** [format(n, "06d")]: zeros on the left up to six characters. *)
Definition format_06d (n : N) : pystr :=
  repeat DIGIT0 (6 - List.length (decimal n)) ++ decimal n.

(** The number a string of digits reads as. *)
Definition read_decimal (s : pystr) : N :=
  fold_left (fun acc c => 10 * acc + (c - DIGIT0)) s 0.

(** main.py 30-32, [n] being [random.randint(0, 999999)]. *)
Definition generate_otp_code (n : N) : pystr := format_06d n.

(** *** Requests and responses *)

Record RegisterIn : Type := {
  company_name : pystr;
  r_email : pystr;
  r_phone : option pystr;
  r_password : pystr
}.

Record RegisterOut : Type := {
  ro_ok : bool;
  ro_tenant_id : Z;
  ro_user_id : Z;
  ro_status : pystr
}.

Record VerifyEmailIn : Type := { ve_email : pystr; ve_code : pystr }.
Record VerifyPhoneIn : Type := { vp_phone : pystr; vp_code : pystr }.
Record LoginIn : Type := { l_email : pystr; l_password : pystr }.

Record TokenOut : Type := {
  to_ok : bool;
  access_token : pystr;
  token_type : pystr
}.

(** What the clock and the random sources give during one [register]. *)
Record Chance : Type := {
  password_salt : pystr;
  email_number : N;          (* random.randint(0, 999999) *)
  email_salt : pystr;
  phone_number : N;
  phone_salt : pystr
}.

(** *** Queries *)

Definition user_by_email (email : pystr) (w : World) : option Account.t :=
  find (fun u => pystr_eqb (Account.email u) email) (users w).

Definition user_by_id (id : Z) (w : World) : option Account.t :=
  find (fun u => Z.eqb (Account.id u) id) (users w).

Definition phone_is (phone : pystr) (u : Account.t) : bool :=
  match Account.phone u with
  | Some ph => pystr_eqb ph phone
  | None => false
  end.

(** The OTP rows of [kind], not used, joined to a user that [owner]
    accepts. *)
Definition otp_candidate (owner : Account.t -> bool) (kind : pystr) (w : World)
    (o : OTP.t) : bool :=
  existsb (fun u => Z.eqb (Account.id u) (OTP.user_id o) && owner u) (users w)
  && pystr_eqb (OTP.kind o) kind
  && negb (OTP.used o).

(** [.order_by(desc(OTP.id)).first()]. *)
Fixpoint newest (rows : list OTP.t) : option OTP.t :=
  match rows with
  | [] => None
  | o :: rest =>
      match newest rest with
      | Some o' => if Z.ltb (OTP.id o) (OTP.id o') then Some o' else Some o
      | None => Some o
      end
  end.

Definition latest_unused_otp (owner : Account.t -> bool) (kind : pystr) (w : World)
  : option OTP.t :=
  newest (filter (otp_candidate owner kind w) (otps w)).

(** *** Writes *)

Definition add_tenant (t : Tenant.t) (w : World) : World :=
  mkWorld (tenants w ++ [t]) (users w) (otps w) (stdout w).

Definition tenant_name_free (name : pystr) (w : World) : bool :=
  negb (existsb (fun t => pystr_eqb (Tenant.name t) name) (tenants w)).

Definition add_user (u : Account.t) (w : World) : World :=
  mkWorld (tenants w) (users w ++ [u]) (otps w) (stdout w).

Definition email_free (email : pystr) (w : World) : bool :=
  negb (existsb (fun u => pystr_eqb (Account.email u) email) (users w)).

Definition add_otps (rows : list OTP.t) (w : World) : World :=
  mkWorld (tenants w) (users w) (otps w ++ rows) (stdout w).

(** UPDATE otps SET used = 1 WHERE id = ?;
    UPDATE users SET email_verified = 1 WHERE id = ? (one commit). *)
Definition mark_verified (set_flag : Account.t -> Account.t) (otp_id user_id : Z)
    (w : World) : World :=
  mkWorld (tenants w)
          (map (fun u => if Z.eqb (Account.id u) user_id then set_flag u else u)
               (users w))
          (map (fun o => if Z.eqb (OTP.id o) otp_id then OTP.with_used true o else o)
               (otps w))
          (stdout w).

Definition always (w : World) : bool := true.

Definition HTTP (status : Z) (detail : string) : exn :=
  HTTPException status (lit detail).

Section Handlers.
Variable lower : pystr -> pystr.
Variable settings : Settings.
(** [bcrypt.hashpw(plain, salt)] and [bcrypt.checkpw(plain, hashed)]; either
    can raise (a password bcrypt refuses, a malformed hash). *)
Variable hashpw : pystr -> pystr -> res pystr.
Variable checkpw : pystr -> pystr -> res bool.
(** [jwt.encode] and [jwt.decode] under the configured secret; decoding
    checks the expiry against the clock. *)
Variable jwt_encode : Claims -> pystr.
Variable jwt_decode : Z -> pystr -> res Decoded.

Local Open Scope auth_scope.

(** security.py 12-21; the salt is [bcrypt.gensalt()]. *)
Definition hash_password (salt plain : pystr) : res pystr := hashpw plain salt.

Definition verify_password (plain hashed : pystr) : bool :=
  match try_except (checkpw plain hashed) (Return false) with
  | Return b => b
  | Raise _ => false
  end.

(** security.py 24-39; [now] is in microseconds, the claims in seconds. *)
Definition create_token (now : Z) (subject role : pystr) (tenant_id : option Z) : pystr :=
  let exp := (now + JWT_EXPIRES_MINUTES settings * 60 * 1000000)%Z in
  jwt_encode (Build_Claims subject role tenant_id
                (Z.quot now 1000000) (Z.quot exp 1000000)).

(** main.py 185-242 *)
Definition register (now : Z) (chance : Chance) (payload : RegisterIn) : W RegisterOut :=
  existing <- wquery (user_by_email (r_email payload)) ;;
  match existing with
  | Some _ => wraise (HTTP 400 "Email already registered")
  | None =>
      tenant <- wquery (fun w =>
        Tenant.mk (next_id (map Tenant.id (tenants w)))
                  (company_name payload) (py "pending")) ;;
      wcommit (tenant_name_free (Tenant.name tenant)) (add_tenant tenant) ;;;
      password_hash <-
        wlift (hash_password (password_salt chance) (r_password payload)) ;;
      user <- wquery (fun w =>
        Account.mk (next_id (map Account.id (users w)))
                   (Some (Tenant.id tenant)) (r_email payload) (r_phone payload)
                   password_hash (py "tenant_admin") false false true) ;;
      wcommit (email_free (Account.email user)) (add_user user) ;;;
      let email_code := generate_otp_code (email_number chance) in
      let phone_code := generate_otp_code (phone_number chance) in
      let expires_at := (now + OTP_TTL_SECONDS settings * 1000000)%Z in
      email_hash <- wlift (hash_password (email_salt chance) email_code) ;;
      phone_hash <- wlift (hash_password (phone_salt chance) phone_code) ;;
      rows <- wquery (fun w =>
        let first_id := next_id (map OTP.id (otps w)) in
        [OTP.mk first_id (Account.id user) (py "email") email_hash expires_at false;
         OTP.mk (first_id + 1) (Account.id user) (py "phone") phone_hash
                expires_at false]) ;;
      wcommit always (add_otps rows) ;;;
      print (py "[MOCK EMAIL OTP] to=" ++ Account.email user
             ++ py " code=" ++ email_code) ;;;
      (match Account.phone user with
       | Some (c :: ph) =>
           print (py "[MOCK SMS OTP] to=" ++ (c :: ph) ++ py " code=" ++ phone_code)
       | _ => wret tt
       end) ;;;
      wret (Build_RegisterOut true (Tenant.id tenant) (Account.id user)
                              (Tenant.status tenant))
  end.

(** main.py 245-274 and 277-305: the two handlers differ in the column
    that names the user, in the kind of code and in the flag they set. *)
Definition verify (owner : Account.t -> bool) (kind : pystr)
    (set_flag : Account.t -> Account.t) (now : Z) (code : pystr) : W bool :=
  found <- wquery (latest_unused_otp owner kind) ;;
  match found with
  | None => wraise (HTTP 400 "Invalid OTP")
  | Some otp =>
      if Z.ltb (OTP.expires_at otp) now then wraise (HTTP 400 "OTP expired")
      else if negb (verify_password code (OTP.code_hash otp))
      then wraise (HTTP 400 "Invalid OTP")
      else
        user <- wquery (user_by_id (OTP.user_id otp)) ;;
        match user with
        | None => wraise (HTTP 400 "User not found")
        | Some user =>
            wcommit always
              (mark_verified set_flag (OTP.id otp) (Account.id user)) ;;;
            wret true
        end
  end.

Definition verify_email (now : Z) (payload : VerifyEmailIn) : W bool :=
  verify (fun u => pystr_eqb (Account.email u) (ve_email payload)) (py "email")
         (Account.with_email_verified true) now (ve_code payload).

Definition verify_phone (now : Z) (payload : VerifyPhoneIn) : W bool :=
  verify (phone_is (vp_phone payload)) (py "phone")
         (Account.with_phone_verified true) now (vp_code payload).

(** main.py 308-321 *)
Definition login (now : Z) (payload : LoginIn) : W TokenOut :=
  found <- wquery (user_by_email (l_email payload)) ;;
  match found with
  | None => wraise (HTTP 401 "Invalid credentials")
  | Some user =>
      if negb (Account.is_active user) then wraise (HTTP 403 "User disabled")
      else if negb (verify_password (l_password payload) (Account.password_hash user))
      then wraise (HTTP 401 "Invalid credentials")
      else
        wret (Build_TokenOut true
                (create_token now (Account.email user) (Account.role user)
                              (Account.tenant_id user))
                (py "bearer"))
  end.

(** [auth.split(" ", 1)]: the text before and after the first space, when
    there is one. *)
Fixpoint split_at_space (s : pystr) : option (pystr * pystr) :=
  match s with
  | [] => None
  | c :: rest =>
      if N.eqb c Agent.SPACE then Some ([], rest)
      else match split_at_space rest with
           | Some (a, b) => Some (c :: a, b)
           | None => None
           end
  end.

(** main.py 95-119; [authorization] is
    [request.headers.get("Authorization", "")]. *)
Definition get_current_user (now : Z) (authorization : pystr) : W Account.t :=
  if negb (starts_with (py "bearer ") (lower authorization))
  then wraise (HTTP 401 "Missing token")
  else
    match split_at_space authorization with
    | None => wraise IndexError
    | Some (_, after) =>
        let token := Agent.strip after in
        if negb (str_truthy token) then wraise (HTTP 401 "Missing token")
        else
          match jwt_decode now token with
          | Raise _ => wraise (HTTP 401 "Invalid token")
          | Return payload =>
              match d_sub payload with
              | Some (c :: email) =>
                  found <- wquery (user_by_email (c :: email)) ;;
                  match found with
                  | None => wraise (HTTP 401 "Invalid token")
                  | Some user =>
                      if negb (Account.is_active user)
                      then wraise (HTTP 403 "User disabled")
                      else wret user
                  end
              | _ => wraise (HTTP 401 "Invalid token")
              end
          end
    end.

(** main.py 122-125 *)
Definition require_superadmin (user : Account.t) : res Account.t :=
  if negb (pystr_eqb (Account.role user) (py "superadmin"))
  then Raise (HTTP 403 "Forbidden")
  else Return user.

(** main.py 147-171, after the schema is created; [salt] is the
    [bcrypt.gensalt()] of the one [hash_password]. *)
Definition on_startup (salt : pystr) : W unit :=
  su <- wquery (user_by_email (SUPERADMIN_EMAIL settings)) ;;
  match su with
  | Some _ => wret tt
  | None =>
      password_hash <- wlift (hash_password salt (SUPERADMIN_PASSWORD settings)) ;;
      su <- wquery (fun w =>
        Account.mk (next_id (map Account.id (users w))) None
                   (SUPERADMIN_EMAIL settings) None password_hash
                   (py "superadmin") true true true) ;;
      wcommit (email_free (Account.email su)) (add_user su) ;;;
      print (py "[BOOTSTRAP] SuperAdmin created: " ++ SUPERADMIN_EMAIL settings)
  end.

End Handlers.
End Auth.

(** ** Predicates on the account store *)

Module AuthInv.
Import Auth.

(** The unique constraints and primary keys of the three tables. *)
Definition well_keyed (w : World) : Prop :=
  NoDup (map Tenant.id (tenants w)) /\ NoDup (map Tenant.name (tenants w)) /\
  NoDup (map Account.id (users w)) /\ NoDup (map Account.email (users w)) /\
  NoDup (map OTP.id (otps w)).

(** Every code belongs to a stored user (the foreign key of
    [otps.user_id]). *)
Definition otps_refer_to_users (w : World) : Prop :=
  forall o, In o (otps w) -> In (OTP.user_id o) (map Account.id (users w)).

(** The rows [register] adds for [payload], given the three hashes. *)
Definition new_tenant (payload : RegisterIn) (w : World) : Tenant.t :=
  Tenant.mk (next_id (map Tenant.id (tenants w))) (company_name payload)
            (py "pending").

Definition new_user (payload : RegisterIn) (password_hash : pystr) (w : World)
  : Account.t :=
  Account.mk (next_id (map Account.id (users w)))
             (Some (Tenant.id (new_tenant payload w)))
             (r_email payload) (r_phone payload) password_hash
             (py "tenant_admin") false false true.

Definition new_email_otp (settings : Settings) (now : Z) (payload : RegisterIn)
    (code_hash : pystr) (w : World) : OTP.t :=
  OTP.mk (next_id (map OTP.id (otps w)))
         (next_id (map Account.id (users w))) (py "email") code_hash
         (now + OTP_TTL_SECONDS settings * 1000000)%Z false.

Definition new_phone_otp (settings : Settings) (now : Z) (payload : RegisterIn)
    (code_hash : pystr) (w : World) : OTP.t :=
  OTP.mk (next_id (map OTP.id (otps w)) + 1)
         (next_id (map Account.id (users w))) (py "phone") code_hash
         (now + OTP_TTL_SECONDS settings * 1000000)%Z false.

(** The lines [register] prints. *)
Definition mock_delivery (chance : Chance) (payload : RegisterIn) : list pystr :=
  (py "[MOCK EMAIL OTP] to=" ++ r_email payload ++ py " code="
   ++ generate_otp_code (email_number chance))
  :: match r_phone payload with
     | Some (c :: ph) =>
         [py "[MOCK SMS OTP] to=" ++ (c :: ph) ++ py " code="
          ++ generate_otp_code (phone_number chance)]
     | _ => []
     end.

(** The store after a [register] that went through. *)
Definition registered (settings : Settings) (now : Z) (chance : Chance)
    (payload : RegisterIn) (h_password h_email h_phone : pystr) (w : World) : World :=
  mkWorld (tenants w ++ [new_tenant payload w])
          (users w ++ [new_user payload h_password w])
          (otps w ++ [new_email_otp settings now payload h_email w;
                      new_phone_otp settings now payload h_phone w])
          (stdout w ++ mock_delivery chance payload).

(** A user row without its two [verified] flags. *)
Definition flags_aside (u : Account.t) : Account.t :=
  Account.with_email_verified true (Account.with_phone_verified true u).

(** [jwt.decode] gives back the subject of a token that [jwt.encode] made,
    as long as the clock (in microseconds) has reached the second of its
    [iat] and not yet the second of its [exp]; said of tokens issued since
    1970. *)
Definition jwt_round_trip (jwt_encode : Claims -> pystr)
    (jwt_decode : Z -> pystr -> res Decoded) : Prop :=
  forall c now,
    (0 <= iat c)%Z ->
    (iat c * 1000000 <= now)%Z -> (now < exp c * 1000000)%Z ->
    exists d, jwt_decode now (jwt_encode c) = Return d /\ d_sub d = Some (sub c).

(** [bcrypt] checks what it hashed. *)
Definition bcrypt_checks (hashpw : pystr -> pystr -> res pystr)
    (checkpw : pystr -> pystr -> res bool) : Prop :=
  forall plain salt hashed,
    hashpw plain salt = Return hashed -> checkpw plain hashed = Return true.

End AuthInv.

(** ** Stand-ins for [bcrypt] and [jwt], used to run the account handlers *)

Module Toy.

(** A "hash" that is the text itself, refused above 72 code points. *)
Definition hashpw (plain salt : pystr) : res pystr :=
  if Nat.ltb 72 (List.length plain) then Raise TypeError else Return plain.

Definition checkpw (plain hashed : pystr) : res bool :=
  Return (pystr_eqb plain hashed).

(** A "token" that is the subject itself. *)
Definition jwt_encode (c : Auth.Claims) : pystr := Auth.sub c.

Definition settings : Auth.Settings :=
  Auth.Build_Settings 10080 900 (py "admin@example.com")
                      (py "ChangeThisPassword123!").

Definition nothing : World := mkWorld [] [] [] [].

Definition chance : Auth.Chance :=
  Auth.Build_Chance (py "salt1") 42 (py "salt2") 999999 (py "salt3").

Definition signup : Auth.RegisterIn :=
  Auth.Build_RegisterIn (py "Sana Fabrics") (py "sana@shop.example")
                        (Some (py "923001234567")) (py "s3cret!").

End Toy.

(** ** Further stand-in inputs for the account handlers *)

Module Toy2.
Import Auth.

(** A sign-up whose password the stand-in hash refuses. *)
Definition long_signup : RegisterIn :=
  Build_RegisterIn (py "Long Pass Ltd") (py "long@shop.example") None
                   (repeat 97 73).

(** A "token" in clear that carries its two times, "<iat>.<exp>.<sub>",
    and a decoder that reads them back and checks the clock: it refuses a
    token before the second of its [iat] and from the second of its [exp]
    on. *)
Definition DOT : codepoint := 46.

Fixpoint split_at_dot (s : pystr) : option (pystr * pystr) :=
  match s with
  | [] => None
  | c :: rest =>
      if N.eqb c DOT then Some ([], rest)
      else match split_at_dot rest with
           | Some (a, b) => Some (c :: a, b)
           | None => None
           end
  end.

Definition jwt_encode (c : Claims) : pystr :=
  decimal (Z.to_N (iat c)) ++ [DOT] ++ decimal (Z.to_N (exp c)) ++ [DOT] ++ sub c.

Definition jwt_decode (now : Z) (token : pystr) : res Decoded :=
  match split_at_dot token with
  | Some (issued, rest) =>
      match split_at_dot rest with
      | Some (expires, subject) =>
          if Z.leb (Z.of_N (read_decimal issued) * 1000000) now
             && Z.ltb now (Z.of_N (read_decimal expires) * 1000000)
          then Return (Build_Decoded (Some subject))
          else Raise TokenError
      | None => Raise TokenError
      end
  | None => Raise TokenError
  end.

(** The store after [Toy.signup] was registered at time 1000. *)
Definition signed_up : World :=
  AuthInv.registered Toy.settings 1000 Toy.chance Toy.signup
    (py "s3cret!") (py "000042") (py "999999") Toy.nothing.

End Toy2.

(** ** Predicates of the statements *)

Module Canon.
Import Agent.

(** Every whitespace code point of [s] is a space that follows a
    non-whitespace code point; [prev_space] tells whether the code point
    before [s] was whitespace (or [s] is at the start of the text). *)
Fixpoint well_spaced (prev_space : bool) (s : pystr) : bool :=
  match s with
  | [] => true
  | c :: rest =>
      if isspace c
      then N.eqb c SPACE && negb prev_space && well_spaced true rest
      else well_spaced false rest
  end.

Fixpoint ends_with_space (s : pystr) : bool :=
  match s with
  | [] => false
  | [c] => isspace c
  | _ :: rest => ends_with_space rest
  end.

(** The canonical form the sanitizer produces. *)
Definition canonical (s : pystr) : bool :=
  forallb is_ascii s && well_spaced true s && negb (ends_with_space s).

End Canon.

(** [str.lower] on ASCII text, where Python's lower-casing only moves
    [A-Z] to [a-z]; used to run the handler on concrete ASCII messages. *)
Definition ascii_lower (s : pystr) : pystr :=
  map (fun c => if N.leb 65 c && N.leb c 90 then c + 32 else c) s.

Module Inv.
Import Main.

(** At most one open deal per (tenant, contact). *)
Definition at_most_one_open (db : DB) : Prop :=
  forall tenant_id contact_id,
    (List.length (filter (deal_matches tenant_id contact_id) (deals db)) <= 1)%nat.

(** The same, said of the rows: two open deals of one tenant and one
    contact are one row of the table. *)
Definition open_deal_unique (db : DB) : Prop :=
  forall i j d1 d2,
    nth_error (deals db) i = Some d1 -> nth_error (deals db) j = Some d2 ->
    Deal.status d1 = py "open" -> Deal.status d2 = py "open" ->
    Deal.tenant_id d1 = Deal.tenant_id d2 ->
    Deal.contact_id d1 = Deal.contact_id d2 ->
    i = j.

(** Primary keys: no two rows of a table share an id. *)
Definition primary_keys (db : DB) : Prop :=
  NoDup (map Contact.id (contacts db)) /\ NoDup (map Deal.id (deals db)).

(** The rows of a table that belong to other tenants than [t]. *)
Definition foreign_contacts (t : Z) (db : DB) : list Contact.t :=
  filter (fun c => negb (Z.eqb (Contact.tenant_id c) t)) (contacts db).
Definition foreign_deals (t : Z) (db : DB) : list Deal.t :=
  filter (fun d => negb (Z.eqb (Deal.tenant_id d) t)) (deals db).
Definition foreign_messages (t : Z) (db : DB) : list Message.t :=
  filter (fun m => negb (Z.eqb (Message.tenant_id m) t)) (messages db).

(** The store as tenant [t] owns it: only the rows of [t]. *)
Definition own_rows (t : Z) (db : DB) : DB :=
  mkDB (filter (fun c => Z.eqb (Contact.tenant_id c) t) (contacts db))
       (filter (fun d => Z.eqb (Deal.tenant_id d) t) (deals db))
       (filter (fun m => Z.eqb (Message.tenant_id m) t) (messages db)).

(** The rows of the other tenants are the same in two stores. *)
Definition same_foreign (t : Z) (a b : DB) : Prop :=
  foreign_contacts t b = foreign_contacts t a /\
  foreign_deals t b = foreign_deals t a /\
  foreign_messages t b = foreign_messages t a.

(** The funnel order new < qualified < order < closed. *)
Definition stage_rank (s : pystr) : option nat :=
  if pystr_eqb s (py "new") then Some 0%nat
  else if pystr_eqb s (py "qualified") then Some 1%nat
  else if pystr_eqb s (py "order") then Some 2%nat
  else if pystr_eqb s (py "closed") then Some 3%nat
  else None.

Definition stage_le (a b : pystr) : Prop :=
  match stage_rank a, stage_rank b with
  | Some x, Some y => (x <= y)%nat
  | _, _ => False
  end.

(** The keyword test of the handler (main.py 419). *)
Definition mentions_price (lower : pystr -> pystr) (payload : SimulateIn) : bool :=
  str_in (py "price") (lower (text payload))
  || str_in (py "rate") (lower (text payload)).

(** The deal as the stage rule leaves it (main.py 419-424). *)
Definition staged (lower : pystr -> pystr) (p : SimulateIn) (d : Deal.t) : Deal.t :=
  Deal.with_stage
    (if mentions_price lower p then py "qualified"
     else if str_truthy (Deal.stage d) then Deal.stage d else py "new") d.

(** Whether the contact block has a write to commit (main.py 378, 384):
    a new contact, or the backfill of a missing name. *)
Definition contact_commits (t : Z) (p : SimulateIn) (db : DB) : bool :=
  match find_contact t p db with
  | None => true
  | Some c0 =>
      opt_truthy (contact_name p) && negb (opt_truthy (Contact.contact_name c0))
  end.

(** Whether the deal block has a write to commit (main.py 414). *)
Definition deal_commits (t cid : Z) (db : DB) : bool :=
  match find_open_deal t cid db with
  | None => true
  | Some _ => false
  end.

(** The reply of the handler (main.py 420, 423). *)
Definition bot_reply (lower : pystr -> pystr) (p : SimulateIn) : pystr :=
  if mentions_price lower p then reply_price else reply_thanks.

Definition inbound_row (t : Z) (c : Contact.t) (p : SimulateIn) (db : DB) : Message.t :=
  Message.mk (next_id (map Message.id (messages db))) t (Contact.id c)
             (channel p) (py "in") (text p).

Definition outbound_row (lower : pystr -> pystr) (t : Z) (c : Contact.t)
    (p : SimulateIn) (db : DB) : Message.t :=
  Message.mk (next_id (map Message.id (messages db))) t (Contact.id c)
             (channel p) (py "out") (bot_reply lower p).

End Inv.

(** The oracle under which exactly the commit at [site] fails. *)
Definition site_eqb (a b : commit_site) : bool :=
  match a, b with
  | CommitContact, CommitContact
  | CommitInbound, CommitInbound
  | CommitDeal, CommitDeal
  | CommitStage, CommitStage
  | CommitOutbound, CommitOutbound => true
  | _, _ => false
  end.

Definition only (site : commit_site) : commit_site -> bool := site_eqb site.

(** ** Concrete requests, used to run the handler *)

Module Sample.
Import Main.

Definition empty_db : DB := mkDB [] [] [].

Definition shop_admin : User.t :=
  User.mk 2 (Some 1%Z) (py "owner@shop.example") (py "tenant_admin") true.

Definition other_admin : User.t :=
  User.mk 3 (Some 2%Z) (py "owner@other.example") (py "tenant_admin") true.

Definition ask_price : SimulateIn :=
  Build_SimulateIn (py "whatsapp") (py "923001234567")
                   (py "Hi, what's the price?") None.

Definition say_ok : SimulateIn :=
  Build_SimulateIn (py "whatsapp") (py "923001234567") (py "ok") None.

(** A store with one contact of tenant 1 whose open deal is at "order". *)
Definition db_order : DB :=
  mkDB [Contact.mk 1 1 (py "whatsapp") (py "923001234567") None
                   (Some (py "923001234567")) None]
       [Deal.mk 1 1 1 (py "order") (py "open") None None None]
       [].

(** The store after [ask_price] was handled on the empty store. *)
Definition db_qualified : DB :=
  mkDB [Contact.mk 1 1 (py "whatsapp") (py "923001234567") None
                   (Some (py "923001234567")) None]
       [Deal.mk 1 1 1 (py "qualified") (py "open") None None None]
       [Message.mk 1 1 1 (py "whatsapp") (py "in") (py "Hi, what's the price?");
        Message.mk 2 1 1 (py "whatsapp") (py "out") reply_price].

(** A store in which the contact of tenant 1 has no deal: what a request
    leaves when the commit of its new deal fails. *)
Definition db_contact_only : DB :=
  mkDB [Contact.mk 1 1 (py "whatsapp") (py "923001234567") None
                   (Some (py "923001234567")) None]
       []
       [Message.mk 1 1 1 (py "whatsapp") (py "in") (py "Hi, what's the price?")].

(** A configured backend whose call times out. *)
Definition timing_out : AgentRun.environment :=
  AgentRun.Build_environment (Some (py "sk-test")) None true
    (fun _ _ _ _ => Raise BackendError).

End Sample.

(** ** Further predicates on the sanitizer *)

Module Visible.
Import Agent.

(** What the six [replace] calls of [_sanitize_ascii] do to one code
    point, in their order. *)
Definition swap (old new c : codepoint) : codepoint :=
  if N.eqb c old then new else c.

Definition unsmart (c : codepoint) : codepoint :=
  swap ENDASH HYPHEN
    (swap EMDASH HYPHEN
      (swap RDQUO DQUOTE
        (swap LDQUO DQUOTE
          (swap LSQUO APOS
            (swap RSQUO APOS c))))).

(** A code point that shows in the sanitized text: ASCII and not
    whitespace. *)
Definition visible (c : codepoint) : bool := is_ascii c && negb (isspace c).

(** ASCII whitespace: what becomes (part of) a single space. *)
Definition ascii_space (c : codepoint) : bool := is_ascii c && isspace c.

End Visible.

(** ** Further concrete inputs *)

Module Sample2.



Definition ask_rate : Main.SimulateIn :=
  Main.Build_SimulateIn (py "instagram") (py "17841400000000000")
                        (py "what is the rate") (Some (py "Sana")).

Definition named_ok : Main.SimulateIn :=
  Main.Build_SimulateIn (py "whatsapp") (py "923001234567") (py "ok")
                        (Some (py "Sana")).

Definition the_contact : Contact.t :=
  Contact.mk 1 1 (py "whatsapp") (py "923001234567") None
             (Some (py "923001234567")) None.

Definition the_deal : Deal.t :=
  Deal.mk 1 1 1 (py "qualified") (py "open") None None None.

(** [Sample.db_qualified] with the contact's name filled in. *)
Definition db_named : DB :=
  mkDB [Contact.with_contact_name (Some (py "Sana")) the_contact]
       (deals Sample.db_qualified) (messages Sample.db_qualified).

(** A well-formed WhatsApp webhook body with two entries. *)
Definition whatsapp_body : list (pystr * MetaRouter.value) :=
  [(py "object", MetaRouter.VStr (py "whatsapp_business_account"));
   (py "entry",
    MetaRouter.VList
      [MetaRouter.VDict
         [(py "id", MetaRouter.VStr (py "102290129340398"));
          (py "changes",
           MetaRouter.VList
             [MetaRouter.VDict
                [(py "value",
                  MetaRouter.VDict
                    [(py "metadata",
                      MetaRouter.VDict
                        [(py "phone_number_id",
                          MetaRouter.VStr (py "106540352242922"))])])]])];
       MetaRouter.VNone])].

End Sample2.

(** ** Further predicates on the handler *)

Module Frame.

(** A contact row without its name, a deal row without its stage: the two
    columns the handler ever updates. *)
Definition unnamed (c : Contact.t) : Contact.t := Contact.with_contact_name None c.
Definition unstaged (d : Deal.t) : Deal.t := Deal.with_stage [] d.

(** No deal refers to a contact id that is not in use (the foreign key of
    [deals.contact_id]). *)
Definition deals_refer_to_contacts (db : DB) : Prop :=
  forall d, In d (deals db) -> In (Deal.contact_id d) (map Contact.id (contacts db)).

End Frame.

(* ------------------------------------------------------------------ *)
(** * Properties *)

Section SanitizeFacts.
Import Agent Canon.

Lemma replace_ascii_id old new text :
  128 <= old -> forallb is_ascii text = true -> replace old new text = text.
Proof.
  intros Hold. unfold replace. induction text as [|c r IH]; simpl; [easy|].
  intros H. apply andb_true_iff in H as [Hc Hr].
  unfold is_ascii in Hc. apply N.ltb_lt in Hc.
  destruct (N.eqb_spec c old); [lia|]. simpl. now rewrite IH.
Qed.

Lemma replace_smart_ascii_id text :
  forallb is_ascii text = true -> replace_smart text = text.
Proof.
  intros H. unfold replace_smart.
  repeat (rewrite replace_ascii_id; [|unfold RSQUO, LSQUO, LDQUO, RDQUO, EMDASH, ENDASH; lia|]);
    auto.
Qed.

Lemma filter_ascii_id text :
  forallb is_ascii text = true -> encode_ascii_ignore text = text.
Proof.
  unfold encode_ascii_ignore. induction text as [|c r IH]; simpl; [easy|].
  intros H. apply andb_true_iff in H as [Hc Hr]. rewrite Hc. now rewrite IH.
Qed.

Lemma forallb_filter_ascii text : forallb is_ascii (encode_ascii_ignore text) = true.
Proof.
  unfold encode_ascii_ignore. induction text as [|c r IH]; simpl; [easy|].
  destruct (is_ascii c) eqn:E; simpl; [rewrite E|]; auto.
Qed.

Lemma forallb_sub_ws b text :
  forallb is_ascii text = true -> forallb is_ascii (sub_ws b text) = true.
Proof.
  revert b. induction text as [|c r IH]; intros b; simpl; [easy|].
  intros H. apply andb_true_iff in H as [Hc Hr].
  destruct (isspace c); [destruct b|]; simpl; rewrite ?Hc; simpl; auto.
Qed.

Lemma forallb_lstrip (P : codepoint -> bool) text :
  forallb P text = true -> forallb P (lstrip text) = true.
Proof.
  induction text as [|c r IH]; simpl; [easy|].
  intros H. destruct (isspace c); [|exact H].
  apply andb_true_iff in H as [_ Hr]. auto.
Qed.

Lemma forallb_rstrip (P : codepoint -> bool) text :
  forallb P text = true -> forallb P (rstrip text) = true.
Proof.
  induction text as [|c r IH]; simpl; [easy|].
  intros H. apply andb_true_iff in H as [Hc Hr]. specialize (IH Hr).
  destruct (rstrip r) as [|k ks].
  - destruct (isspace c); simpl; rewrite ?Hc; auto.
  - simpl. rewrite Hc. exact IH.
Qed.

Lemma well_spaced_sub_ws b text : well_spaced b (sub_ws b text) = true.
Proof.
  revert b. induction text as [|c r IH]; intros b; simpl; [easy|].
  destruct (isspace c) eqn:E.
  - destruct b; [apply IH|]. simpl. change (isspace SPACE) with true.
    simpl. apply IH.
  - simpl. rewrite E. apply IH.
Qed.

Lemma well_spaced_weaken s : well_spaced true s = true -> well_spaced false s = true.
Proof.
  destruct s as [|c r]; simpl; [easy|].
  destruct (isspace c); [|easy]. rewrite andb_false_r. discriminate.
Qed.

Lemma well_spaced_lstrip b s :
  well_spaced b s = true -> well_spaced true (lstrip s) = true.
Proof.
  revert b. induction s as [|c r IH]; intros b; simpl; [easy|].
  destruct (isspace c) eqn:E.
  - intros H. apply andb_true_iff in H as [_ H]. eauto.
  - simpl. rewrite E. easy.
Qed.

Lemma well_spaced_rstrip b s :
  well_spaced b s = true -> well_spaced b (rstrip s) = true.
Proof.
  revert b. induction s as [|c r IH]; intros b; simpl; [easy|].
  destruct (isspace c) eqn:E.
  - intros H. apply andb_true_iff in H as [H1 H2].
    specialize (IH _ H2). destruct (rstrip r) as [|k ks]; [easy|].
    simpl. simpl in IH. rewrite E, H1. exact IH.
  - intros H. specialize (IH _ H). destruct (rstrip r) as [|k ks].
    + simpl. now rewrite E.
    + simpl. simpl in IH. rewrite E. exact IH.
Qed.

Lemma ends_with_space_rstrip s : ends_with_space (rstrip s) = false.
Proof.
  induction s as [|c r IH]; simpl; [easy|].
  destruct (rstrip r) as [|k ks] eqn:E.
  - destruct (isspace c) eqn:Ec; simpl; auto.
  - exact IH.
Qed.

Lemma sub_ws_id b s : well_spaced b s = true -> sub_ws b s = s.
Proof.
  revert b. induction s as [|c r IH]; intros b; simpl; [easy|].
  destruct (isspace c) eqn:E.
  - intros H. apply andb_true_iff in H as [H1 H2].
    apply andb_true_iff in H1 as [Hc Hb]. apply N.eqb_eq in Hc.
    destruct b; [discriminate|]. rewrite (IH _ H2). now subst c.
  - intros H. now rewrite (IH _ H).
Qed.

Lemma lstrip_id s : well_spaced true s = true -> lstrip s = s.
Proof.
  destruct s as [|c r]; simpl; [easy|].
  destruct (isspace c); [|easy]. rewrite andb_false_r. discriminate.
Qed.

Lemma rstrip_id s : ends_with_space s = false -> rstrip s = s.
Proof.
  induction s as [|c r IH]; simpl; [easy|].
  destruct r as [|k ks].
  - simpl. now intros ->.
  - intros H. rewrite (IH H). reflexivity.
Qed.

Lemma sanitize_canonical text : canonical (_sanitize_ascii text) = true.
Proof.
  unfold _sanitize_ascii. destruct (negb (str_truthy text)); [reflexivity|].
  unfold canonical, strip, re_sub_spaces.
  rewrite forallb_rstrip, well_spaced_rstrip, ends_with_space_rstrip; auto.
  - eapply well_spaced_lstrip, well_spaced_sub_ws.
  - apply forallb_lstrip, forallb_sub_ws, forallb_filter_ascii.
Qed.

Lemma canonical_fixpoint s : canonical s = true -> _sanitize_ascii s = s.
Proof.
  unfold canonical. intros H.
  apply andb_true_iff in H as [H Hend]. apply andb_true_iff in H as [Hasc Hws].
  apply negb_true_iff in Hend.
  unfold _sanitize_ascii. destruct s as [|c r]; [reflexivity|].
  cbn [str_truthy negb].
  rewrite replace_smart_ascii_id, filter_ascii_id by assumption.
  unfold strip, re_sub_spaces.
  rewrite (sub_ws_id false) by (now apply well_spaced_weaken).
  rewrite lstrip_id by assumption. now apply rstrip_id.
Qed.

End SanitizeFacts.

(** ** The handler, block by block *)

Section ListFacts.
Context {A : Type}.

Lemma find_map_preserve (P : A -> bool) (g : A -> A) (l : list A) :
  (forall x, P (g x) = P x) ->
  find P (map g l) = option_map g (find P l).
Proof.
  intros Hg. induction l as [|x r IH]; simpl; [easy|].
  rewrite Hg. destruct (P x); simpl; auto.
Qed.

Lemma filter_map_preserve (P : A -> bool) (g : A -> A) (l : list A) :
  (forall x, P (g x) = P x) ->
  filter P (map g l) = map g (filter P l).
Proof.
  intros Hg. induction l as [|x r IH]; simpl; [easy|].
  rewrite Hg. destruct (P x); simpl; now rewrite IH.
Qed.

Lemma find_app_none (P : A -> bool) (l r : list A) :
  find P l = None -> find P (l ++ r) = find P r.
Proof.
  induction l as [|x l IH]; simpl; [easy|].
  destruct (P x); [discriminate|auto].
Qed.

End ListFacts.

Lemma pystr_eqb_eq a b : pystr_eqb a b = true <-> a = b.
Proof.
  unfold pystr_eqb. destruct (list_eq_dec N.eq_dec a b); split; congruence.
Qed.

Lemma pystr_eqb_refl a : pystr_eqb a a = true.
Proof. now apply pystr_eqb_eq. Qed.

Lemma next_id_fresh ids i : In i ids -> (i < next_id ids)%Z.
Proof.
  unfold next_id. destruct ids as [|a r]; [easy|].
  assert (H : forall l acc x, (x <= acc)%Z \/ In x l -> (x <= fold_left Z.max l acc)%Z).
  { induction l as [|y l IH]; simpl; intros acc x [Hx|Hx]; try easy.
    - apply IH. left. lia.
    - destruct Hx as [->|Hx]; apply IH; [left; lia|now right]. }
  intros [->|Hi].
  - assert (i <= fold_left Z.max r i)%Z by (apply H; left; lia). lia.
  - assert (i <= fold_left Z.max r a)%Z by (apply H; now right). lia.
Qed.

Section MonadFacts.
Context {A B : Type}.

Lemma bind_return (m : M A) (k : A -> M B) db b db' :
  bind m k db = (Return b, db') ->
  exists a db1, m db = (Return a, db1) /\ k a db1 = (Return b, db').
Proof.
  unfold bind. destruct (m db) as [[a|e] db1]; [eauto|discriminate].
Qed.

End MonadFacts.

Section HandlerBlocks.
Import Main Inv.
Variable lower : pystr -> pystr.
Variable fault : commit_site -> bool.

Lemma commit_return site w db u db' :
  commit fault site w db = (Return u, db') -> fault site = false /\ db' = w db.
Proof.
  unfold commit. destruct (fault site); [discriminate|].
  intros H. inversion H. auto.
Qed.

Lemma contact_matches_new t p name phone email i :
  contact_matches t p
    (Contact.mk i t (channel p) (channel_user_id p) name phone email) = true.
Proof.
  unfold contact_matches. simpl. now rewrite Z.eqb_refl, !pystr_eqb_refl.
Qed.

Lemma find_contact_found t p db c :
  find_contact t p db = Some c -> contact_matches t p c = true /\ In c (contacts db).
Proof. unfold find_contact. intros H. apply find_some in H. tauto. Qed.

(** What the find-or-create of the contact leaves behind when it returns. *)
Lemma contact_block t p db c db1 :
  find_or_create_contact fault t p db = (Return c, db1) ->
  deals db1 = deals db /\ messages db1 = messages db /\
  contact_matches t p c = true /\
  find_contact t p db1 = Some c /\
  ( (find_contact t p db = None /\
     c = Contact.mk (next_id (map Contact.id (contacts db))) t (channel p)
           (channel_user_id p) (contact_name p)
           (if pystr_eqb (channel p) (py "whatsapp")
            then Some (channel_user_id p) else None) None /\
     db1 = insert_contact c db)
    \/ (exists c0, find_contact t p db = Some c0 /\ c = c0 /\ db1 = db)
    \/ (exists c0, find_contact t p db = Some c0 /\
          opt_truthy (contact_name p) = true /\
          opt_truthy (Contact.contact_name c0) = false /\
          c = Contact.with_contact_name (contact_name p) c0 /\
          db1 = update_contact_name (Contact.id c0) (contact_name p) db) ).
Proof.
  unfold find_or_create_contact. intros H.
  apply bind_return in H as (found & d0 & Hq & H).
  unfold query in Hq. inversion Hq; subst d0 found; clear Hq.
  destruct (find_contact t p db) as [c0|] eqn:Hfind.
  - destruct (opt_truthy (contact_name p) && negb (opt_truthy (Contact.contact_name c0))) eqn:Hcond.
    + apply bind_return in H as (u & d1 & Hc & H).
      apply commit_return in Hc as [_ ->]. unfold ret in H. inversion H; subst; clear H.
      apply andb_true_iff in Hcond as [Hn Hc0]. apply negb_true_iff in Hc0.
      destruct (find_contact_found _ _ _ Hfind) as [Hm _].
      repeat split; auto.
      * unfold find_contact, update_contact_name. simpl.
        rewrite find_map_preserve.
        -- unfold find_contact in Hfind. rewrite Hfind. simpl. now rewrite Z.eqb_refl.
        -- intros x. destruct (Z.eqb _ _); reflexivity.
      * right. right. exists c0. auto.
    + unfold ret in H. inversion H; subst; clear H.
      destruct (find_contact_found _ _ _ Hfind) as [Hm _].
      repeat split; auto. right. left. eauto.
  - apply bind_return in H as (c' & d1 & Hq & H).
    unfold query in Hq. inversion Hq; subst d1 c'; clear Hq.
    apply bind_return in H as (u & d1 & Hc & H).
    apply commit_return in Hc as [_ ->]. unfold ret in H. inversion H; subst; clear H.
    repeat split; auto using contact_matches_new.
    + unfold find_contact, insert_contact. simpl.
      rewrite find_app_none by exact Hfind. simpl.
      now rewrite contact_matches_new.
Qed.

Lemma message_block site t c p direction txt db u db1 :
  store_message fault site t c p direction txt db = (Return u, db1) ->
  db1 = insert_message
          (Message.mk (next_id (map Message.id (messages db))) t (Contact.id c)
                      (channel p) direction txt) db.
Proof.
  unfold store_message. intros H.
  apply bind_return in H as (m & d0 & Hq & H).
  unfold query in Hq. inversion Hq; subst d0 m; clear Hq.
  now apply commit_return in H as [_ ->].
Qed.

Lemma first_by_id_desc_none rows : first_by_id_desc rows = None -> rows = [].
Proof.
  destruct rows as [|d r]; simpl; [easy|].
  destruct (first_by_id_desc r) as [d'|]; [|discriminate].
  destruct (Z.ltb _ _); discriminate.
Qed.

Lemma first_by_id_desc_max rows d :
  first_by_id_desc rows = Some d ->
  In d rows /\ forall d', In d' rows -> (Deal.id d' <= Deal.id d)%Z.
Proof.
  revert d. induction rows as [|x r IH]; simpl; intros d; [discriminate|].
  destruct (first_by_id_desc r) as [d'|] eqn:E.
  - destruct (IH _ eq_refl) as [Hin Hmax].
    destruct (Z.ltb_spec (Deal.id x) (Deal.id d')) as [Hlt|Hge];
      intros Heq; inversion Heq; subst; clear Heq.
    + split; [now right|]. intros y [<-|Hy]; [lia|auto].
    + split; [now left|]. intros y [<-|Hy]; [lia|]. specialize (Hmax _ Hy). lia.
  - intros Heq. inversion Heq; subst. apply first_by_id_desc_none in E. subst r.
    split; [now left|]. intros y [<-|[]]. lia.
Qed.

Lemma first_by_id_desc_map (g : Deal.t -> Deal.t) rows :
  (forall x, Deal.id (g x) = Deal.id x) ->
  first_by_id_desc (map g rows) = option_map g (first_by_id_desc rows).
Proof.
  intros Hg. induction rows as [|x r IH]; simpl; [easy|].
  rewrite IH. destruct (first_by_id_desc r) as [d'|]; simpl; [|easy].
  rewrite !Hg. destruct (Z.ltb _ _); reflexivity.
Qed.

Lemma find_open_deal_found t cid db d :
  find_open_deal t cid db = Some d ->
  deal_matches t cid d = true /\ In d (deals db) /\
  forall d', In d' (deals db) -> deal_matches t cid d' = true ->
             (Deal.id d' <= Deal.id d)%Z.
Proof.
  unfold find_open_deal. intros H0. apply first_by_id_desc_max in H0 as [Hin Hmax].
  apply filter_In in Hin as [Hin Hm]. repeat split; auto.
  intros d' Hd' Hm'. apply Hmax. apply filter_In. auto.
Qed.

Lemma find_open_deal_update t cid i s db :
  find_open_deal t cid (update_deal_stage i s db) =
  option_map (fun d => if Z.eqb (Deal.id d) i then Deal.with_stage s d else d)
             (find_open_deal t cid db).
Proof.
  unfold find_open_deal, update_deal_stage. simpl.
  rewrite filter_map_preserve, first_by_id_desc_map; auto.
  - intros x. destruct (Z.eqb _ _); reflexivity.
  - intros x. destruct (Z.eqb _ _); reflexivity.
Qed.

(** What the find-or-create of the open deal leaves behind when it returns. *)
Lemma deal_block t c db d db1 :
  find_or_create_deal fault t c db = (Return d, db1) ->
  contacts db1 = contacts db /\ messages db1 = messages db /\
  deal_matches t (Contact.id c) d = true /\
  find_open_deal t (Contact.id c) db1 = Some d /\
  ( (find_open_deal t (Contact.id c) db = Some d /\ db1 = db)
    \/ (find_open_deal t (Contact.id c) db = None /\
        d = Deal.mk (next_id (map Deal.id (deals db))) t (Contact.id c)
              (py "new") (py "open") None None None /\
        db1 = insert_deal d db) ).
Proof.
  unfold find_or_create_deal. intros H.
  apply bind_return in H as (found & d0 & Hq & H).
  unfold query in Hq. inversion Hq; subst d0 found; clear Hq.
  destruct (find_open_deal t (Contact.id c) db) as [d1|] eqn:Hfind.
  - unfold ret in H. inversion H; subst; clear H.
    destruct (find_open_deal_found _ _ _ Hfind) as [Hm _]. auto 10.
  - apply bind_return in H as (d' & d1 & Hq & H).
    unfold query in Hq. inversion Hq; subst d1 d'; clear Hq.
    apply bind_return in H as (u & d1 & Hc & H).
    apply commit_return in Hc as [_ ->]. unfold ret in H. inversion H; subst; clear H.
    assert (Hm : forall i, deal_matches t (Contact.id c)
              (Deal.mk i t (Contact.id c) (py "new") (py "open") None None None) = true).
    { intros i. unfold deal_matches. simpl. now rewrite !Z.eqb_refl. }
    repeat split; auto.
    unfold find_open_deal in *. apply first_by_id_desc_none in Hfind.
    unfold insert_deal. simpl. rewrite filter_app, Hfind. simpl.
    now rewrite Hm.
Qed.

Lemma stage_block p d db rd db1 :
  reply_and_stage lower fault p d db = (Return rd, db1) ->
  fst rd = (if mentions_price lower p then reply_price else reply_thanks) /\
  snd rd = staged lower p d /\
  db1 = update_deal_stage (Deal.id d) (Deal.stage (staged lower p d)) db.
Proof.
  unfold reply_and_stage, staged, mentions_price.
  destruct (str_in (py "price") (lower (text p)) || str_in (py "rate") (lower (text p)));
    intros H; apply bind_return in H as (u & d1 & Hc & H);
    apply commit_return in Hc as [_ ->]; unfold ret in H; inversion H; subst; auto.
Qed.

(** A completed request, unfolded into its five blocks. *)
Lemma simulate_body_return p user db l db' :
  simulate_body lower fault p user db = (Return l, db') ->
  exists t db1 db2 d db3 db4,
    User.tenant_id user = Some t /\
    find_or_create_contact fault t p db = (Return (l_contact l), db1) /\
    db2 = insert_message
            (Message.mk (next_id (map Message.id (messages db1))) t
               (Contact.id (l_contact l)) (channel p) (py "in") (text p)) db1 /\
    find_or_create_deal fault t (l_contact l) db2 = (Return d, db3) /\
    l_reply l = (if mentions_price lower p then reply_price else reply_thanks) /\
    l_deal l = staged lower p d /\
    db4 = update_deal_stage (Deal.id d) (Deal.stage (staged lower p d)) db3 /\
    db' = insert_message
            (Message.mk (next_id (map Message.id (messages db4))) t
               (Contact.id (l_contact l)) (channel p) (py "out") (l_reply l)) db4.
Proof.
  unfold simulate_body. destruct (User.tenant_id user) as [t|]; [|discriminate].
  intros H.
  apply bind_return in H as (c & db1 & Hc & H).
  apply bind_return in H as (u & db2 & Hin & H).
  apply bind_return in H as (d & db3 & Hd & H).
  apply bind_return in H as (rd & db4 & Hs & H).
  apply bind_return in H as (u' & db5 & Hout & H).
  unfold ret in H. inversion H; subst; clear H. simpl.
  apply message_block in Hin. apply message_block in Hout.
  apply stage_block in Hs as (Hr & Hdl & Hdb).
  exists t, db1, db2, d, db3, db4. rewrite Hr in *. auto 10.
Qed.

End HandlerBlocks.

(** ** The handler returns when no commit fails *)

Section HandlerTotal.
Import Main Inv.
Variable lower : pystr -> pystr.

Lemma contact_block_total t p db :
  exists c db1, find_or_create_contact no_fault t p db = (Return c, db1).
Proof.
  unfold find_or_create_contact, bind, query, commit, ret, no_fault.
  destruct (find_contact t p db) as [c0|]; [|eauto].
  destruct (opt_truthy (contact_name p) && negb (opt_truthy (Contact.contact_name c0)));
    eauto.
Qed.

Lemma deal_block_total t c db :
  exists d db1, find_or_create_deal no_fault t c db = (Return d, db1).
Proof.
  unfold find_or_create_deal, bind, query, commit, ret, no_fault.
  destruct (find_open_deal t (Contact.id c) db); eauto.
Qed.

Lemma stage_block_total p d db :
  exists rd db1, reply_and_stage lower no_fault p d db = (Return rd, db1).
Proof.
  unfold reply_and_stage, bind, query, commit, ret, no_fault.
  destruct (str_in _ _ || str_in _ _); eauto.
Qed.

Lemma message_block_total site t c p direction txt db :
  store_message no_fault site t c p direction txt db =
  (Return tt,
   insert_message
     (Message.mk (next_id (map Message.id (messages db))) t (Contact.id c)
                 (channel p) direction txt) db).
Proof. reflexivity. Qed.

Lemma bind_step {A B} (m : M A) (k : A -> M B) db a db1 :
  m db = (Return a, db1) -> bind m k db = k a db1.
Proof. unfold bind. now intros ->. Qed.

Lemma simulate_body_total p user t db :
  User.tenant_id user = Some t ->
  exists l db', simulate_body lower no_fault p user db = (Return l, db').
Proof.
  intros Ht. unfold simulate_body. rewrite Ht.
  destruct (contact_block_total t p db) as (c & db1 & Hc).
  rewrite (@bind_step _ _ _ _ _ _ _ Hc).
  rewrite (@bind_step _ _ _ _ _ _ _ (message_block_total _ _ _ _ _ _ _)).
  match goal with |- context [bind (find_or_create_deal no_fault t c) _ ?d] =>
    destruct (deal_block_total t c d) as (dl & db3 & Hd) end.
  rewrite (@bind_step _ _ _ _ _ _ _ Hd).
  destruct (stage_block_total p dl db3) as (rd & db4 & Hs).
  rewrite (@bind_step _ _ _ _ _ _ _ Hs).
  rewrite (@bind_step _ _ _ _ _ _ _ (message_block_total _ _ _ _ _ _ _)).
  unfold ret. eauto.
Qed.

End HandlerTotal.

(** ** What a completed request resolved, and what it reuses *)

Section Resolution.
Import Main Inv.
Variable lower : pystr -> pystr.
Variable fault : commit_site -> bool.

Lemma find_contact_same_identity t p1 p2 db :
  channel p2 = channel p1 -> channel_user_id p2 = channel_user_id p1 ->
  find_contact t p2 db = find_contact t p1 db.
Proof.
  intros Hc Hu. unfold find_contact, contact_matches. now rewrite Hc, Hu.
Qed.

Lemma find_open_deal_same_deals t cid db1 db2 :
  deals db1 = deals db2 -> find_open_deal t cid db1 = find_open_deal t cid db2.
Proof. unfold find_open_deal. now intros ->. Qed.

(** After a completed request the two lookups of the handler return the
    very rows the request worked on. *)
Lemma run_resolved p user db l db' :
  simulate_body lower fault p user db = (Return l, db') ->
  exists t,
    User.tenant_id user = Some t /\
    contact_matches t p (l_contact l) = true /\
    deal_matches t (Contact.id (l_contact l)) (l_deal l) = true /\
    find_contact t p db' = Some (l_contact l) /\
    find_open_deal t (Contact.id (l_contact l)) db' = Some (l_deal l).
Proof.
  intros H. apply simulate_body_return in H
    as (t & db1 & db2 & d & db3 & db4 & Ht & Hc & -> & Hd & Hr & Hl & -> & ->).
  apply contact_block in Hc as (_ & _ & Hcm & Hfc & _).
  apply deal_block in Hd as (Hcs & _ & Hdm & Hfd & _).
  exists t. rewrite Hl. repeat split; auto.
  - unfold find_contact in *. simpl. now rewrite Hcs.
  - unfold insert_message. rewrite find_open_deal_same_deals
      with (db2 := update_deal_stage (Deal.id d) (Deal.stage (staged lower p d)) db3)
      by reflexivity.
    rewrite find_open_deal_update, Hfd. simpl. rewrite Z.eqb_refl.
    reflexivity.
Qed.

(** A request for an identity whose contact and open deal are already
    stored works on these rows and adds none. *)
Lemma run_reuse p user t db c0 d0 l db' :
  User.tenant_id user = Some t ->
  find_contact t p db = Some c0 ->
  find_open_deal t (Contact.id c0) db = Some d0 ->
  simulate_body lower fault p user db = (Return l, db') ->
  Contact.id (l_contact l) = Contact.id c0 /\
  l_deal l = staged lower p d0 /\
  map Contact.id (contacts db') = map Contact.id (contacts db) /\
  map Deal.id (deals db') = map Deal.id (deals db).
Proof.
  intros Ht Hfc Hfd H. apply simulate_body_return in H
    as (t' & db1 & db2 & d & db3 & db4 & Ht' & Hc & -> & Hd & Hr & Hl & -> & ->).
  assert (t' = t) by congruence. subst t'.
  apply contact_block in Hc as (Hds & _ & _ & _ & Hcase).
  assert (Hid : Contact.id (l_contact l) = Contact.id c0 /\
                map Contact.id (contacts db1) = map Contact.id (contacts db)).
  { destruct Hcase as [(Hnone & _)|[(c & Hs & -> & ->)|(c & Hs & _ & _ & -> & ->)]].
    - congruence.
    - split; congruence.
    - assert (c = c0) by congruence. subst c. split; [reflexivity|].
      unfold update_contact_name. simpl. rewrite map_map. apply map_ext.
      intros x. destruct (Z.eqb _ _); reflexivity. }
  destruct Hid as [Hid Hids].
  apply deal_block in Hd as (Hcs & _ & _ & _ & Hcase').
  rewrite Hid in Hcase'.
  rewrite find_open_deal_same_deals with (db2 := db) in Hcase' by (simpl; exact Hds).
  destruct Hcase' as [(Hs & ->)|(Hnone & _)]; [|congruence].
  assert (d = d0) by congruence. subst d.
  repeat split; auto.
  - simpl. rewrite map_map. simpl in Hds. rewrite Hds. apply map_ext.
    intros x. destruct (Z.eqb _ _); reflexivity.
Qed.

Lemma staged_twice p1 p2 d :
  text p2 = text p1 ->
  Deal.stage (staged lower p2 (staged lower p1 d)) = Deal.stage (staged lower p1 d).
Proof.
  intros Ht. unfold staged, mentions_price. rewrite Ht.
  destruct (str_in _ _ || str_in _ _); [reflexivity|]. simpl.
  destruct (str_truthy (Deal.stage d)) eqn:E; [now rewrite E|reflexivity].
Qed.

End Resolution.

(** C1.  Idempotent resolution: with no failing commit, two requests in
    sequence for the same (tenant, channel, channel_user_id) both return; the
    second works on the contact of the first (same id), the deal of the first
    is open and the second works on it (same id), the second request adds no
    contact and no deal, and when the two carry the same text the caller gets
    the same response from the request that created the rows and from the one
    that reused them. *)
Theorem resolve_idempotent (lower : pystr -> pystr) (user : User.t) (t : Z)
    (p1 p2 : Main.SimulateIn) (db : DB) :
  User.tenant_id user = Some t ->
  Main.channel p2 = Main.channel p1 ->
  Main.channel_user_id p2 = Main.channel_user_id p1 ->
  exists l1 db1 l2 db2,
    Main.simulate_body lower no_fault p1 user db = (Return l1, db1) /\
    Main.simulate_body lower no_fault p2 user db1 = (Return l2, db2) /\
    Contact.id (Main.l_contact l2) = Contact.id (Main.l_contact l1) /\
    Deal.status (Main.l_deal l1) = py "open" /\
    Deal.id (Main.l_deal l2) = Deal.id (Main.l_deal l1) /\
    map Contact.id (contacts db2) = map Contact.id (contacts db1) /\
    map Deal.id (deals db2) = map Deal.id (deals db1) /\
    (Main.text p2 = Main.text p1 ->
     Main.response_of l2 = Main.response_of l1).
Proof.
  intros Ht Hch Hu.
  destruct (simulate_body_total lower p1 user db Ht) as (l1 & db1 & H1).
  destruct (simulate_body_total lower p2 user db1 Ht) as (l2 & db2 & H2).
  exists l1, db1, l2, db2. split; [exact H1|]. split; [exact H2|].
  pose proof H1 as R1. apply run_resolved in R1 as (t' & Ht' & _ & Hdm & Hfc & Hfd).
  assert (t' = t) by congruence. subst t'.
  rewrite <- (find_contact_same_identity t p1 p2 db1 Hch Hu) in Hfc.
  pose proof H2 as R2.
  eapply run_reuse in R2 as (Hid & Hdl & Hcs & Hds); [|exact Ht|exact Hfc|exact Hfd].
  repeat split; auto.
  - unfold Main.deal_matches in Hdm. apply andb_true_iff in Hdm as [_ Hst].
    now apply pystr_eqb_eq.
  - now rewrite Hdl.
  - intros Htxt. unfold Main.response_of. rewrite Hdl.
    apply simulate_body_return in H1
      as (? & ? & ? & d & ? & ? & _ & _ & _ & _ & Hr1 & Hl1 & _).
    apply simulate_body_return in H2
      as (? & ? & ? & ? & ? & ? & _ & _ & _ & _ & Hr2 & _).
    rewrite Hl1, (staged_twice lower _ _ _ Htxt), Hr1, Hr2.
    unfold Inv.mentions_price. now rewrite Htxt.
Qed.

(** ** The open deals of a contact *)

Section OpenDeals.
Import Main Inv.
Variable lower : pystr -> pystr.
Variable fault : commit_site -> bool.

Lemma deal_matches_key t cid d :
  deal_matches t cid d = true ->
  Deal.tenant_id d = t /\ Deal.contact_id d = cid /\ Deal.status d = py "open".
Proof.
  unfold deal_matches. intros H.
  apply andb_true_iff in H as [H Hs]. apply andb_true_iff in H as [Ht Hc].
  apply Z.eqb_eq in Ht, Hc. apply pystr_eqb_eq in Hs. auto.
Qed.

Lemma deal_matches_iff t cid d :
  deal_matches t cid d = true <->
  Deal.tenant_id d = t /\ Deal.contact_id d = cid /\ Deal.status d = py "open".
Proof.
  unfold deal_matches. rewrite !andb_true_iff, !Z.eqb_eq, pystr_eqb_eq. tauto.
Qed.

Lemma filter_nil_iff {A} (f : A -> bool) (l : list A) :
  filter f l = [] <-> forall x, In x l -> f x = false.
Proof.
  induction l as [|a r IH]; simpl; [tauto|].
  destruct (f a) eqn:E.
  - split; [discriminate|]. intros H. specialize (H a (or_introl eq_refl)). congruence.
  - rewrite IH. split.
    + intros H x [<-|Hx]; auto.
    + intros H x Hx. apply H. now right.
Qed.

(** At most one element of a list passes a test exactly when no two
    positions of the list hold elements that pass it. *)
Lemma filter_at_most_one {A} (f : A -> bool) (l : list A) :
  (List.length (filter f l) <= 1)%nat <->
  (forall i j x y, nth_error l i = Some x -> nth_error l j = Some y ->
                   f x = true -> f y = true -> i = j).
Proof.
  induction l as [|a r IH].
  - simpl. split; [|lia]. intros _ [|i] j x y H; discriminate.
  - simpl. destruct (f a) eqn:E; simpl.
    + split.
      * intros Hlen.
        assert (Hnil : filter f r = [])
          by (destruct (filter f r); [easy|simpl in Hlen; lia]).
        pose proof (proj1 (filter_nil_iff f r) Hnil) as Hno.
        intros [|i] [|j] x y Hx Hy Fx Fy; simpl in *; auto.
        -- apply nth_error_In in Hy. apply Hno in Hy. congruence.
        -- apply nth_error_In in Hx. apply Hno in Hx. congruence.
        -- apply nth_error_In in Hx. apply Hno in Hx. congruence.
      * intros H.
        assert (Hnil : filter f r = []).
        { apply filter_nil_iff. intros x Hx. destruct (f x) eqn:Fx; [|reflexivity].
          apply In_nth_error in Hx as [k Hk].
          specialize (H 0%nat (S k) a x eq_refl Hk E Fx). discriminate. }
        rewrite Hnil. simpl. lia.
    + rewrite IH. split.
      * intros H [|i] [|j] x y Hx Hy Fx Fy; simpl in *.
        -- reflexivity.
        -- inversion Hx; subst. congruence.
        -- inversion Hy; subst. congruence.
        -- f_equal. eauto.
      * intros H i j x y Hx Hy Fx Fy.
        specialize (H (S i) (S j) x y Hx Hy Fx Fy). now inversion H.
Qed.

(** The two readings of the invariant agree. *)
Lemma at_most_one_open_rows db : at_most_one_open db <-> open_deal_unique db.
Proof.
  unfold at_most_one_open, open_deal_unique. split.
  - intros H i j d1 d2 H1 H2 S1 S2 Et Ec.
    apply (proj1 (filter_at_most_one _ _)
             (H (Deal.tenant_id d1) (Deal.contact_id d1)) i j d1 d2 H1 H2);
      apply deal_matches_iff; auto.
  - intros H t c. apply filter_at_most_one.
    intros i j x y Hx Hy Fx Fy.
    apply deal_matches_iff in Fx as (T1 & C1 & S1), Fy as (T2 & C2 & S2).
    apply (H i j x y Hx Hy S1 S2); congruence.
Qed.

Lemma at_most_one_open_update i s db :
  at_most_one_open db -> at_most_one_open (update_deal_stage i s db).
Proof.
  unfold at_most_one_open, update_deal_stage. simpl. intros H t c.
  rewrite filter_map_preserve, length_map; [apply H|].
  intros x. destruct (Z.eqb _ _); reflexivity.
Qed.

Lemma at_most_one_open_insert d db :
  filter (deal_matches (Deal.tenant_id d) (Deal.contact_id d)) (deals db) = [] ->
  at_most_one_open db -> at_most_one_open (insert_deal d db).
Proof.
  unfold at_most_one_open, insert_deal. simpl. intros Hnone H t c.
  rewrite filter_app, length_app. simpl.
  destruct (deal_matches t c d) eqn:E; simpl.
  - apply deal_matches_key in E as (<- & <- & _). now rewrite Hnone.
  - specialize (H t c). lia.
Qed.

Lemma at_most_one_open_same_deals db1 db2 :
  deals db1 = deals db2 -> at_most_one_open db1 -> at_most_one_open db2.
Proof. unfold at_most_one_open. now intros ->. Qed.

(** The deals table after a completed request, from the deals at entry. *)
Lemma run_deals p user db l db' :
  simulate_body lower fault p user db = (Return l, db') ->
  exists t d,
    User.tenant_id user = Some t /\
    l_deal l = staged lower p d /\
    ( (find_open_deal t (Contact.id (l_contact l)) db = Some d /\
       deals db' = deals (update_deal_stage (Deal.id d) (Deal.stage (l_deal l)) db))
      \/
      (find_open_deal t (Contact.id (l_contact l)) db = None /\
       d = Deal.mk (next_id (map Deal.id (deals db))) t (Contact.id (l_contact l))
             (py "new") (py "open") None None None /\
       deals db' = deals (update_deal_stage (Deal.id d) (Deal.stage (l_deal l))
                            (insert_deal d db))) ).
Proof.
  intros H. apply simulate_body_return in H
    as (t & db1 & db2 & d & db3 & db4 & Ht & Hc & -> & Hd & Hr & Hl & -> & ->).
  apply contact_block in Hc as (Hds & _).
  apply deal_block in Hd as (_ & _ & _ & _ & Hcase).
  exists t, d. split; [exact Ht|]. split; [exact Hl|].
  rewrite find_open_deal_same_deals with (db2 := db) in Hcase by (simpl; exact Hds).
  rewrite Hl. destruct Hcase as [(Hs & ->)|(Hn & Hnew & ->)].
  - left. split; [exact Hs|]. simpl. now rewrite Hds.
  - right. split; [exact Hn|]. simpl in Hnew. rewrite Hds in Hnew.
    split; [exact Hnew|]. simpl. now rewrite Hds.
Qed.

End OpenDeals.

(** C2 (as amended).  For requests that are handled one after another,
    each on the store the one before it left: at most one open deal per
    (tenant, contact), and a completed request keeps the invariant, in
    either of its two readings.  When the contact has open deals at entry,
    the handler works on the one with the greatest id (the row it returns
    is that deal with the stage rule applied) and the table gets no new
    row; only when the contact has none is a deal created, with stage "new"
    and status "open", under a fresh id.  Nothing in the handler or in the
    schema extends this to requests that overlap. *)
Theorem one_open_deal_per_contact (lower : pystr -> pystr)
    (fault : commit_site -> bool) (p : Main.SimulateIn) (user : User.t)
    (db : DB) (l : Main.Locals) (db' : DB) :
  Main.simulate_body lower fault p user db = (Return l, db') ->
  (Inv.at_most_one_open db -> Inv.at_most_one_open db') /\
  (Inv.open_deal_unique db -> Inv.open_deal_unique db') /\
  exists t,
    User.tenant_id user = Some t /\
    let cid := Contact.id (Main.l_contact l) in
    let open_at_entry := filter (Main.deal_matches t cid) (deals db) in
    match open_at_entry with
    | _ :: _ =>
        exists d0,
          In d0 open_at_entry /\
          (forall d, In d open_at_entry -> (Deal.id d <= Deal.id d0)%Z) /\
          Main.l_deal l = Inv.staged lower p d0 /\
          map Deal.id (deals db') = map Deal.id (deals db)
    | [] =>
        exists d_new,
          d_new = Deal.mk (next_id (map Deal.id (deals db))) t cid
                    (py "new") (py "open") None None None /\
          Main.l_deal l = Inv.staged lower p d_new /\
          map Deal.id (deals db') = map Deal.id (deals db) ++ [Deal.id d_new]
    end.
Proof.
  intros H. apply run_deals in H as (t & d & Ht & Hl & Hcase).
  assert (Hone : Inv.at_most_one_open db -> Inv.at_most_one_open db').
  { intros Hinv. destruct Hcase as [(Hs & Hds)|(Hn & Hnew & Hds)].
    + eapply at_most_one_open_same_deals; [symmetry; exact Hds|].
      now apply at_most_one_open_update.
    + eapply at_most_one_open_same_deals; [symmetry; exact Hds|].
      apply at_most_one_open_update, at_most_one_open_insert; [|exact Hinv].
      subst d. simpl. unfold Main.find_open_deal in Hn.
      now apply first_by_id_desc_none in Hn. }
  split; [exact Hone|]. split.
  - intros Hu. now apply at_most_one_open_rows, Hone, at_most_one_open_rows.
  - exists t. split; [exact Ht|]. cbv zeta.
    destruct Hcase as [(Hs & Hds)|(Hn & Hnew & Hds)].
    + unfold Main.find_open_deal in Hs.
      pose proof (first_by_id_desc_max _ Hs) as [Hin Hmax].
      destruct (filter _ _) as [|x r] eqn:E; [destruct Hin|].
      exists d. repeat split; auto.
      * rewrite Hds. simpl. rewrite map_map. apply map_ext.
        intros y. destruct (Z.eqb _ _); reflexivity.
    + unfold Main.find_open_deal in Hn. apply first_by_id_desc_none in Hn.
      rewrite Hn. exists d. repeat split; auto.
      * rewrite Hds. simpl. rewrite map_map, map_app. simpl. f_equal.
        -- apply map_ext. intros y. destruct (Z.eqb _ _); reflexivity.
        -- destruct (Z.eqb _ _); reflexivity.
Qed.

(** ** A request under failing commits *)

Section Cascade.
Import Main Inv.
Variable lower : pystr -> pystr.
Variable fault : commit_site -> bool.

Lemma contact_block_fault t p db :
  find_or_create_contact fault t p db =
  if contact_commits t p db && fault CommitContact
  then (Raise PersistenceError, db)
  else find_or_create_contact no_fault t p db.
Proof.
  unfold find_or_create_contact, contact_commits, bind, query, commit, ret, no_fault.
  destruct (find_contact t p db) as [c0|]; simpl.
  - destruct (opt_truthy (contact_name p) && negb (opt_truthy (Contact.contact_name c0)));
      simpl; [|reflexivity].
    destruct (fault CommitContact); reflexivity.
  - destruct (fault CommitContact); reflexivity.
Qed.

Lemma message_block_fault site t c p direction txt db :
  store_message fault site t c p direction txt db =
  if fault site then (Raise PersistenceError, db)
  else store_message no_fault site t c p direction txt db.
Proof.
  unfold store_message, bind, query, commit, no_fault.
  destruct (fault site); reflexivity.
Qed.

Lemma deal_block_fault t c db :
  find_or_create_deal fault t c db =
  if deal_commits t (Contact.id c) db && fault CommitDeal
  then (Raise PersistenceError, db)
  else find_or_create_deal no_fault t c db.
Proof.
  unfold find_or_create_deal, deal_commits, bind, query, commit, ret, no_fault.
  destruct (find_open_deal t (Contact.id c) db); simpl; [reflexivity|].
  destruct (fault CommitDeal); reflexivity.
Qed.

Lemma stage_block_no_fault p d db :
  reply_and_stage lower no_fault p d db =
  (Return (bot_reply lower p, staged lower p d),
   update_deal_stage (Deal.id d) (Deal.stage (staged lower p d)) db).
Proof.
  unfold reply_and_stage, bot_reply, staged, mentions_price.
  destruct (str_in _ _ || str_in _ _); reflexivity.
Qed.

Lemma stage_block_fault p d db :
  reply_and_stage lower fault p d db =
  if fault CommitStage then (Raise PersistenceError, db)
  else reply_and_stage lower no_fault p d db.
Proof.
  unfold reply_and_stage, bind, commit, ret, no_fault.
  destruct (str_in _ _ || str_in _ _); destruct (fault CommitStage); reflexivity.
Qed.

Lemma bind_fail {A B} (m : M A) (k : A -> M B) db e db1 :
  m db = (Raise e, db1) -> bind m k db = (Raise e, db1).
Proof. unfold bind. now intros ->. Qed.

(** The request under any oracle, from the five blocks run without fault:
    the first commit that is reached and fails ends the request, and the
    store is then as the blocks before it left it. *)
Lemma simulate_body_cascade p user t db :
  User.tenant_id user = Some t ->
  exists c s1 s2 d s3 s4 s5,
    find_or_create_contact no_fault t p db = (Return c, s1) /\
    s2 = insert_message (inbound_row t c p s1) s1 /\
    find_or_create_deal no_fault t c s2 = (Return d, s3) /\
    s4 = update_deal_stage (Deal.id d) (Deal.stage (staged lower p d)) s3 /\
    s5 = insert_message (outbound_row lower t c p s4) s4 /\
    simulate_body lower fault p user db =
      if contact_commits t p db && fault CommitContact
      then (Raise PersistenceError, db)
      else if fault CommitInbound then (Raise PersistenceError, s1)
      else if deal_commits t (Contact.id c) s2 && fault CommitDeal
      then (Raise PersistenceError, s2)
      else if fault CommitStage then (Raise PersistenceError, s3)
      else if fault CommitOutbound then (Raise PersistenceError, s4)
      else (Return (Build_Locals c (staged lower p d) (bot_reply lower p)), s5).
Proof.
  intros Ht.
  destruct (contact_block_total t p db) as (c & s1 & Hc).
  destruct (deal_block_total t c (insert_message (inbound_row t c p s1) s1))
    as (d & s3 & Hd).
  exists c, s1, (insert_message (inbound_row t c p s1) s1), d, s3.
  eexists. eexists. repeat (split; [first [eassumption|reflexivity]|]).
  unfold inbound_row, outbound_row in *.
  unfold simulate_body. rewrite Ht.
  pose proof (contact_block_fault t p db) as Fc.
  destruct (contact_commits t p db && fault CommitContact).
  { now rewrite (@bind_fail _ _ _ _ _ _ _ Fc). }
  rewrite Hc in Fc. rewrite (@bind_step _ _ _ _ _ _ _ Fc).
  pose proof (message_block_fault CommitInbound t c p (py "in") (text p) s1) as Fi.
  destruct (fault CommitInbound).
  { now rewrite (@bind_fail _ _ _ _ _ _ _ Fi). }
  rewrite message_block_total in Fi. rewrite (@bind_step _ _ _ _ _ _ _ Fi).
  match type of Hd with find_or_create_deal _ _ _ ?s = _ =>
    pose proof (deal_block_fault t c s) as Fd end.
  destruct (deal_commits t (Contact.id c) _ && fault CommitDeal).
  { now rewrite (@bind_fail _ _ _ _ _ _ _ Fd). }
  rewrite Hd in Fd. rewrite (@bind_step _ _ _ _ _ _ _ Fd).
  pose proof (stage_block_fault p d s3) as Fs.
  destruct (fault CommitStage).
  { now rewrite (@bind_fail _ _ _ _ _ _ _ Fs). }
  rewrite stage_block_no_fault in Fs. rewrite (@bind_step _ _ _ _ _ _ _ Fs).
  cbn [fst snd].
  match goal with |- context [bind (store_message fault CommitOutbound t c p ?dir ?txt) _ ?s] =>
    pose proof (message_block_fault CommitOutbound t c p dir txt s) as Fo end.
  destruct (fault CommitOutbound).
  { now rewrite (@bind_fail _ _ _ _ _ _ _ Fo). }
  rewrite message_block_total in Fo. rewrite (@bind_step _ _ _ _ _ _ _ Fo).
  reflexivity.
Qed.

End Cascade.

(** C3 (as amended).  The handler commits in five separate units, in this
    order: the contact (creation or name backfill), the inbound message, the
    creation of the deal, the stage, the outbound message.  Under any
    oracle the request either completes with every write committed, or ends
    with the persistence error of the first commit that is reached and
    fails; the write of that commit is discarded and the store stays as the
    units before it left it. *)
Theorem commits_are_separate_units (lower : pystr -> pystr)
    (fault : commit_site -> bool) (p : Main.SimulateIn) (user : User.t)
    (t : Z) (db : DB) :
  User.tenant_id user = Some t ->
  exists c s1 s2 d s3 s4 s5,
    Main.find_or_create_contact no_fault t p db = (Return c, s1) /\
    s2 = Main.insert_message (Inv.inbound_row t c p s1) s1 /\
    Main.find_or_create_deal no_fault t c s2 = (Return d, s3) /\
    s4 = Main.update_deal_stage (Deal.id d)
           (Deal.stage (Inv.staged lower p d)) s3 /\
    s5 = Main.insert_message (Inv.outbound_row lower t c p s4) s4 /\
    Main.simulate_body lower fault p user db =
      if Inv.contact_commits t p db && fault CommitContact
      then (Raise PersistenceError, db)
      else if fault CommitInbound then (Raise PersistenceError, s1)
      else if Inv.deal_commits t (Contact.id c) s2 && fault CommitDeal
      then (Raise PersistenceError, s2)
      else if fault CommitStage then (Raise PersistenceError, s3)
      else if fault CommitOutbound then (Raise PersistenceError, s4)
      else (Return (Main.Build_Locals c (Inv.staged lower p d)
                      (Inv.bot_reply lower p)), s5).
Proof. intros Ht. now apply simulate_body_cascade. Qed.

(** C3, witness: the first message of a new identity, with the commit of the
    stage failing. *)
Lemma commits_are_separate_units_witness :
  User.tenant_id Sample.shop_admin = Some 1%Z /\
  exists c s1 s2 d s3 s4 s5,
    Main.find_or_create_contact no_fault 1 Sample.ask_price Sample.empty_db
      = (Return c, s1) /\
    s2 = Main.insert_message (Inv.inbound_row 1 c Sample.ask_price s1) s1 /\
    Main.find_or_create_deal no_fault 1 c s2 = (Return d, s3) /\
    s4 = Main.update_deal_stage (Deal.id d)
           (Deal.stage (Inv.staged ascii_lower Sample.ask_price d)) s3 /\
    s5 = Main.insert_message
           (Inv.outbound_row ascii_lower 1 c Sample.ask_price s4) s4 /\
    Main.simulate_body ascii_lower (only CommitStage) Sample.ask_price
      Sample.shop_admin Sample.empty_db =
      if Inv.contact_commits 1 Sample.ask_price Sample.empty_db
         && only CommitStage CommitContact
      then (Raise PersistenceError, Sample.empty_db)
      else if only CommitStage CommitInbound then (Raise PersistenceError, s1)
      else if Inv.deal_commits 1 (Contact.id c) s2 && only CommitStage CommitDeal
      then (Raise PersistenceError, s2)
      else if only CommitStage CommitStage then (Raise PersistenceError, s3)
      else if only CommitStage CommitOutbound then (Raise PersistenceError, s4)
      else (Return (Main.Build_Locals c (Inv.staged ascii_lower Sample.ask_price d)
                      (Inv.bot_reply ascii_lower Sample.ask_price)), s5).
Proof.
  split; [reflexivity|].
  apply (@commits_are_separate_units ascii_lower (only CommitStage)
           Sample.ask_price Sample.shop_admin 1%Z Sample.empty_db).
  reflexivity.
Defined.

(** C3, counterexample to the claim as stated: the commit of the new deal
    fails, the request ends with the persistence error, and the contact and
    the inbound message committed before it are in the store. *)
Lemma partial_commit_remains :
  let committed :=
    mkDB [Contact.mk 1 1 (py "whatsapp") (py "923001234567") None
                     (Some (py "923001234567")) None]
         []
         [Message.mk 1 1 1 (py "whatsapp") (py "in") (py "Hi, what's the price?")] in
  Main.simulate ascii_lower (only CommitDeal) Sample.ask_price Sample.shop_admin
    Sample.empty_db = (Raise PersistenceError, committed)
  /\ committed <> Sample.empty_db.
Proof. split; [vm_compute; reflexivity|discriminate]. Qed.

(** ** The message ledger *)

Lemma next_id_snoc ids : next_id (ids ++ [next_id ids]) = (next_id ids + 1)%Z.
Proof.
  unfold next_id. destruct ids as [|a r]; [reflexivity|].
  rewrite <- app_comm_cons, fold_left_app. cbn [fold_left].
  set (m := fold_left Z.max r a). lia.
Qed.

(** C9.  The ledger is only appended to.  Whatever the outcome of a request,
    the messages stored before it are the unchanged front of the table.  A
    completed request has added exactly two rows for its tenant and
    contact: first the inbound text with direction "in", then the reply with
    direction "out", with increasing ids above every id in use. *)
Theorem ledger_appends_in_then_out (lower : pystr -> pystr)
    (fault : commit_site -> bool) (p : Main.SimulateIn) (user : User.t) (db : DB) :
  exists added,
    messages (snd (Main.simulate_body lower fault p user db)) = messages db ++ added /\
    match fst (Main.simulate_body lower fault p user db) with
    | Return l =>
        exists t,
          User.tenant_id user = Some t /\
          let n := next_id (map Message.id (messages db)) in
          let cid := Contact.id (Main.l_contact l) in
          added = [Message.mk n t cid (Main.channel p) (py "in") (Main.text p);
                   Message.mk (n + 1) t cid (Main.channel p) (py "out") (Main.l_reply l)]
          /\ forall m, In m (messages db) -> (Message.id m < n)%Z
    | Raise _ =>
        added = [] \/
        exists t cid,
          User.tenant_id user = Some t /\
          added = [Message.mk (next_id (map Message.id (messages db))) t cid
                              (Main.channel p) (py "in") (Main.text p)]
    end.
Proof.
  destruct (User.tenant_id user) as [t|] eqn:Ht.
  2:{ exists []. unfold Main.simulate_body. rewrite Ht. simpl.
      rewrite app_nil_r. auto. }
  destruct (simulate_body_cascade lower fault p user db Ht)
    as (c & s1 & s2 & d & s3 & s4 & s5 & Hc & -> & Hd & -> & -> & ->).
  apply contact_block in Hc as (_ & Hm1 & _).
  apply deal_block in Hd as (_ & Hm3 & _).
  unfold Inv.inbound_row, Inv.outbound_row in *. simpl in Hm3.
  destruct (Inv.contact_commits t p db && fault CommitContact).
  { exists []. simpl. rewrite app_nil_r. auto. }
  destruct (fault CommitInbound).
  { exists []. simpl. rewrite Hm1, app_nil_r. auto. }
  destruct (Inv.deal_commits t (Contact.id c) _ && fault CommitDeal).
  { eexists. simpl. rewrite Hm1. split; [reflexivity|]. right. eauto. }
  destruct (fault CommitStage).
  { eexists. simpl. rewrite Hm3, Hm1. split; [reflexivity|]. right. eauto. }
  destruct (fault CommitOutbound).
  { eexists. simpl. rewrite Hm3, Hm1. split; [reflexivity|]. right. eauto. }
  eexists. simpl. rewrite Hm3, Hm1. rewrite <- app_assoc. simpl.
  split; [reflexivity|]. exists t. split; [reflexivity|]. split.
  - rewrite map_app. simpl. now rewrite next_id_snoc.
  - intros m Hm. apply next_id_fresh. now apply in_map.
Qed.

(** ** The stage rule *)

(** C4 (as amended).  A completed request that finds an open deal [d0]
    works on that deal and stores it with the stage "qualified" when the
    lower-cased text contains "price" or "rate", and with its stage
    untouched otherwise ("new" for an empty stage).  So a deal at "new" or
    "qualified" never moves down the funnel, a deal at "qualified" stays
    there whatever the text, and a text without these keywords leaves any
    stage, "order" and "closed" included, as it was. *)
Theorem stage_follows_keyword (lower : pystr -> pystr)
    (fault : commit_site -> bool) (p : Main.SimulateIn) (user : User.t) (t : Z)
    (db : DB) (l : Main.Locals) (db' : DB) (d0 : Deal.t) :
  User.tenant_id user = Some t ->
  Main.simulate_body lower fault p user db = (Return l, db') ->
  Main.find_open_deal t (Contact.id (Main.l_contact l)) db = Some d0 ->
  Deal.id (Main.l_deal l) = Deal.id d0 /\
  Main.find_open_deal t (Contact.id (Main.l_contact l)) db' = Some (Main.l_deal l) /\
  Deal.stage (Main.l_deal l) =
    (if Inv.mentions_price lower p then py "qualified"
     else if str_truthy (Deal.stage d0) then Deal.stage d0 else py "new") /\
  (Deal.stage d0 = py "new" \/ Deal.stage d0 = py "qualified" ->
   Inv.stage_le (Deal.stage d0) (Deal.stage (Main.l_deal l))) /\
  (Deal.stage d0 = py "qualified" -> Deal.stage (Main.l_deal l) = py "qualified") /\
  (Inv.mentions_price lower p = false -> str_truthy (Deal.stage d0) = true ->
   Deal.stage (Main.l_deal l) = Deal.stage d0).
Proof.
  intros Ht H Hd0.
  pose proof H as R. apply run_resolved in R as (t1 & Ht1 & _ & _ & _ & Hstored).
  assert (t1 = t) by congruence. subst t1.
  apply run_deals in H as (t2 & d & Ht2 & Hl & Hcase).
  assert (t2 = t) by congruence. subst t2.
  destruct Hcase as [(Hs & _)|(Hn & _)]; [|congruence].
  assert (d = d0) by congruence. subst d.
  assert (Hst : Deal.stage (Main.l_deal l) =
    (if Inv.mentions_price lower p then py "qualified"
     else if str_truthy (Deal.stage d0) then Deal.stage d0 else py "new"))
    by (rewrite Hl; reflexivity).
  split; [rewrite Hl; reflexivity|]. split; [exact Hstored|].
  split; [exact Hst|]. rewrite Hst. repeat split.
  - intros [E|E]; rewrite E; destruct (Inv.mentions_price lower p);
      vm_compute; auto.
  - intros E. rewrite E. destruct (Inv.mentions_price lower p); reflexivity.
  - intros -> ->. reflexivity.
Qed.

(** C4, witness: "ok" after the deal has reached "qualified". *)
Lemma stage_follows_keyword_witness :
  Main.simulate_body ascii_lower no_fault Sample.ask_price Sample.shop_admin
    Sample.empty_db
  = (Return (Main.Build_Locals
               (Contact.mk 1 1 (py "whatsapp") (py "923001234567") None
                           (Some (py "923001234567")) None)
               (Deal.mk 1 1 1 (py "qualified") (py "open") None None None)
               Main.reply_price),
     Sample.db_qualified) /\
  exists l db',
    Main.simulate_body ascii_lower no_fault Sample.say_ok Sample.shop_admin
      Sample.db_qualified = (Return l, db') /\
    Deal.id (Main.l_deal l) = 1%Z /\
    Deal.stage (Main.l_deal l) = py "qualified".
Proof.
  split; [vm_compute; reflexivity|].
  eexists. eexists. split; [vm_compute; reflexivity|].
  edestruct (@stage_follows_keyword ascii_lower no_fault Sample.say_ok
               Sample.shop_admin 1%Z Sample.db_qualified)
    as (Hid & _ & _ & _ & Hq & _);
    [reflexivity|vm_compute; reflexivity|vm_compute; reflexivity|].
  split; [exact Hid|]. apply Hq. reflexivity.
Defined.

(** C4, counterexample to the claim as stated: an open deal at "order"
    receives a message that asks for the price and is stored at
    "qualified", below "order" in the funnel. *)
Lemma stage_regresses_from_order :
  Main.find_open_deal 1 1 Sample.db_order
    = Some (Deal.mk 1 1 1 (py "order") (py "open") None None None) /\
  fst (Main.simulate ascii_lower no_fault Sample.ask_price Sample.shop_admin
         Sample.db_order)
    = Return (Main.Build_Response true Main.reply_price (py "qualified")) /\
  deals (snd (Main.simulate ascii_lower no_fault Sample.ask_price Sample.shop_admin
                Sample.db_order))
    = [Deal.mk 1 1 1 (py "qualified") (py "open") None None None] /\
  ~ Inv.stage_le (py "order") (py "qualified").
Proof.
  repeat split; try (vm_compute; reflexivity).
  vm_compute. lia.
Qed.

(** C1, witness: the price question and then "ok" from one WhatsApp number
    of tenant 1, on the empty store. *)
Lemma resolve_idempotent_witness :
  (User.tenant_id Sample.shop_admin = Some 1%Z /\
   Main.channel Sample.say_ok = Main.channel Sample.ask_price /\
   Main.channel_user_id Sample.say_ok = Main.channel_user_id Sample.ask_price) /\
  exists l1 db1 l2 db2,
    Main.simulate_body ascii_lower no_fault Sample.ask_price Sample.shop_admin
      Sample.empty_db = (Return l1, db1) /\
    Main.simulate_body ascii_lower no_fault Sample.say_ok Sample.shop_admin db1
      = (Return l2, db2) /\
    Contact.id (Main.l_contact l2) = Contact.id (Main.l_contact l1) /\
    Deal.status (Main.l_deal l1) = py "open" /\
    Deal.id (Main.l_deal l2) = Deal.id (Main.l_deal l1) /\
    map Contact.id (contacts db2) = map Contact.id (contacts db1) /\
    map Deal.id (deals db2) = map Deal.id (deals db1) /\
    (Main.text Sample.say_ok = Main.text Sample.ask_price ->
     Main.response_of l2 = Main.response_of l1).
Proof.
  split; [repeat split|].
  apply (@resolve_idempotent ascii_lower Sample.shop_admin 1%Z Sample.ask_price
           Sample.say_ok Sample.empty_db); reflexivity.
Defined.

(** C2, witness: the first request on the empty store, which has no open
    deal at all, leaves a store with one open deal per contact. *)
Lemma one_open_deal_per_contact_witness :
  Inv.at_most_one_open Sample.db_qualified.
Proof.
  assert (H : exists l,
             Main.simulate_body ascii_lower no_fault Sample.ask_price
               Sample.shop_admin Sample.empty_db = (Return l, Sample.db_qualified))
    by (eexists; vm_compute; reflexivity).
  destruct H as [l H].
  apply (proj1 (@one_open_deal_per_contact ascii_lower no_fault Sample.ask_price
                  Sample.shop_admin Sample.empty_db l Sample.db_qualified H)).
  intros t c. simpl. lia.
Defined.

(** ** The sanitizer and the generator *)

Section CanonicalForm.
Import Agent Canon.

Lemma well_spaced_tail b l s :
  well_spaced b (l ++ s) = true -> exists b', well_spaced b' s = true.
Proof.
  revert b. induction l as [|c r IH]; intros b; simpl; [eauto|].
  destruct (isspace c).
  - intros H. apply andb_true_iff in H as [_ H]. eauto.
  - eauto.
Qed.

Lemma ends_with_space_snoc l c : ends_with_space (l ++ [c]) = isspace c.
Proof.
  induction l as [|x r IH]; simpl; [reflexivity|].
  destruct (r ++ [c]) eqn:E; [now destruct r|]. exact IH.
Qed.

Lemma well_spaced_spaces b s c :
  well_spaced b s = true -> In c s -> isspace c = true -> c = SPACE.
Proof.
  revert b. induction s as [|x r IH]; intros b; simpl; [easy|].
  intros H [->|Hin] Hc.
  - rewrite Hc in H. apply andb_true_iff in H as [H _].
    apply andb_true_iff in H as [H _]. now apply N.eqb_eq.
  - destruct (isspace x); [apply andb_true_iff in H as [_ H]|]; eauto.
Qed.

End CanonicalForm.

(** C10.  The sanitizer is idempotent and its output is canonical: only
    ASCII code points, no whitespace at either end, no two whitespace code
    points in a row, and no whitespace other than the space. *)
Theorem sanitize_idempotent_canonical (s : pystr) :
  Agent._sanitize_ascii (Agent._sanitize_ascii s) = Agent._sanitize_ascii s /\
  Forall (fun c => c < 128) (Agent._sanitize_ascii s) /\
  (forall c rest, Agent._sanitize_ascii s = c :: rest -> Agent.isspace c = false) /\
  (forall front c, Agent._sanitize_ascii s = front ++ [c] -> Agent.isspace c = false) /\
  (forall front c1 c2 rest,
     Agent._sanitize_ascii s = front ++ c1 :: c2 :: rest ->
     Agent.isspace c1 = true -> Agent.isspace c2 = false) /\
  (forall c, In c (Agent._sanitize_ascii s) -> Agent.isspace c = true ->
             c = Agent.SPACE).
Proof.
  pose proof (sanitize_canonical s) as Hc.
  split; [now apply canonical_fixpoint|].
  unfold Canon.canonical in Hc.
  apply andb_true_iff in Hc as [Hc Hend]. apply andb_true_iff in Hc as [Hasc Hws].
  apply negb_true_iff in Hend.
  split; [|split; [|split; [|split]]].
  - apply Forall_forall. intros c Hin.
    rewrite forallb_forall in Hasc. apply Hasc in Hin.
    unfold Agent.is_ascii in Hin. now apply N.ltb_lt.
  - intros c rest E. rewrite E in Hws. simpl in Hws.
    destruct (Agent.isspace c); [|reflexivity].
    rewrite andb_false_r in Hws. discriminate.
  - intros front c E. rewrite E, ends_with_space_snoc in Hend. exact Hend.
  - intros front c1 c2 rest E H1. rewrite E in Hws.
    apply well_spaced_tail in Hws as [b Hws]. simpl in Hws. rewrite H1 in Hws.
    apply andb_true_iff in Hws as [_ Hws].
    destruct (Agent.isspace c2); [|reflexivity].
    rewrite andb_false_r in Hws. discriminate.
  - intros c Hin Hsp. eapply well_spaced_spaces; eauto.
Qed.

Section GeneratorFacts.
Import Agent AgentRun.

Lemma replace_app old new a b :
  replace old new (a ++ b) = replace old new a ++ replace old new b.
Proof. unfold replace. apply flat_map_app. Qed.

Lemma replace_smart_app a b :
  replace_smart (a ++ b) = replace_smart a ++ replace_smart b.
Proof. unfold replace_smart. now rewrite !replace_app. Qed.

Lemma in_replace old new c s : c <> old -> In c s -> In c (replace old new s).
Proof.
  intros Hne Hin. unfold replace. apply in_flat_map. exists c. split; [exact Hin|].
  destruct (N.eqb_spec c old); [contradiction|now left].
Qed.

Lemma in_sub_ws b c s : isspace c = false -> In c s -> In c (sub_ws b s).
Proof.
  intros Hc. revert b. induction s as [|x r IH]; intros b; simpl; [easy|].
  intros [->|Hin].
  - rewrite Hc. now left.
  - destruct (isspace x); [destruct b|]; simpl; auto.
Qed.

Lemma in_lstrip c s : isspace c = false -> In c s -> In c (lstrip s).
Proof.
  intros Hc. induction s as [|x r IH]; simpl; [easy|].
  intros [->|Hin].
  - rewrite Hc. now left.
  - destruct (isspace x); [auto|now right].
Qed.

Lemma in_rstrip c s : isspace c = false -> In c s -> In c (rstrip s).
Proof.
  intros Hc. induction s as [|x r IH]; simpl; [easy|].
  intros [->|Hin].
  - destruct (rstrip r); [rewrite Hc|]; now left.
  - specialize (IH Hin). destruct (rstrip r); [destruct IH|now right].
Qed.

(** A visible ASCII code point of the text is in the sanitized text. *)
Lemma in_sanitize c s :
  c < 128 -> isspace c = false -> In c s -> In c (_sanitize_ascii s).
Proof.
  intros Hlt Hc Hin. unfold _sanitize_ascii.
  destruct s as [|x r]; [destruct Hin|]. cbn [str_truthy negb].
  apply in_rstrip, in_lstrip, in_sub_ws; auto.
  apply filter_In. split; [|now apply N.ltb_lt].
  unfold replace_smart.
  repeat (apply in_replace;
          [unfold RSQUO, LSQUO, LDQUO, RDQUO, EMDASH, ENDASH; lia|]).
  exact Hin.
Qed.

Lemma sanitize_ascii_only s : Forall (fun c => c < 128) (_sanitize_ascii s).
Proof.
  pose proof (sanitize_canonical s) as Hc. unfold Canon.canonical in Hc.
  apply andb_true_iff in Hc as [Hc _]. apply andb_true_iff in Hc as [Hasc _].
  apply Forall_forall. intros c Hin. rewrite forallb_forall in Hasc.
  apply Hasc in Hin. now apply N.ltb_lt.
Qed.

Lemma run_agent_sanitizes lower env text name :
  exists raw,
    run_agent lower env text name
    = Return (_sanitize_ascii raw, rule_stage lower text).
Proof.
  unfold run_agent, rule_stage.
  destruct (negb (opt_truthy (OPENAI_API_KEY env)) || negb (OpenAI_imported env));
    [eauto|].
  unfold try_except, res_bind.
  destruct (chat env _ _ _ _); eauto.
Qed.

End GeneratorFacts.

(** C5 (as amended).  Every reply of the generator, whatever the backend
    did, is the sanitizer's output: ASCII only, whitespace collapsed.  On a
    text with U+2019 and U+2014 the sanitizer gives what it gives on the
    same text with an apostrophe and a hyphen in their place, both of
    which are in the output, and no non-ASCII code point is.  The
    [/simulate] handler does not call the generator or the sanitizer: its
    reply is one of its two fixed literals, returned as written. *)
Theorem generator_replies_sanitized :
  (forall lower env text name,
     exists raw,
       AgentRun.run_agent lower env text name
       = Return (Agent._sanitize_ascii raw, AgentRun.rule_stage lower text) /\
       Canon.canonical (Agent._sanitize_ascii raw) = true /\
       Forall (fun c => c < 128) (Agent._sanitize_ascii raw)) /\
  (forall a b c,
     let out := Agent._sanitize_ascii (a ++ Agent.RSQUO :: b ++ Agent.EMDASH :: c) in
     out = Agent._sanitize_ascii (a ++ Agent.APOS :: b ++ Agent.HYPHEN :: c) /\
     In Agent.APOS out /\ In Agent.HYPHEN out /\
     Forall (fun x => x < 128) out) /\
  (forall lower fault p user db,
     match fst (Main.simulate lower fault p user db) with
     | Return r =>
         Main.reply r = (if Inv.mentions_price lower p
                         then Main.reply_price else Main.reply_thanks)
     | Raise _ => True
     end).
Proof.
  split; [|split].
  - intros lower env text name.
    destruct (run_agent_sanitizes lower env text name) as [raw H].
    exists raw. auto using sanitize_canonical, sanitize_ascii_only.
  - intros a b c out.
    assert (E : out = Agent._sanitize_ascii (a ++ Agent.APOS :: b ++ Agent.HYPHEN :: c)).
    { unfold out, Agent._sanitize_ascii.
      destruct a; cbn [str_truthy negb app]; f_equal; f_equal; f_equal;
      change (?x :: ?y ++ ?z :: ?w) with ([x] ++ y ++ [z] ++ w);
      rewrite ?app_comm_cons;
      repeat (rewrite !replace_smart_app); reflexivity. }
    split; [exact E|]. rewrite E.
    repeat split; try apply sanitize_ascii_only.
    + apply in_sanitize; [reflexivity|reflexivity|].
      apply in_or_app. right. now left.
    + apply in_sanitize; [reflexivity|reflexivity|].
      apply in_or_app. right. right. apply in_or_app. right. now left.
  - intros lower fault p user db. unfold Main.simulate, bind.
    destruct (Main.simulate_body lower fault p user db) as [[l|e] db'] eqn:E;
      simpl; [|exact I].
    apply simulate_body_return in E
      as (? & ? & ? & ? & ? & ? & _ & _ & _ & _ & Hr & _).
    exact Hr.
Qed.

(** C5, counterexample to the claim as stated: the reply of [/simulate] to a
    price question carries U+2019, which is not ASCII, and is not what the
    sanitizer would return. *)
Lemma simulate_reply_not_sanitized :
  fst (Main.simulate ascii_lower no_fault Sample.ask_price Sample.shop_admin
         Sample.empty_db)
    = Return (Main.Build_Response true Main.reply_price (py "qualified")) /\
  In Agent.RSQUO Main.reply_price /\
  Agent.is_ascii Agent.RSQUO = false /\
  Agent._sanitize_ascii Main.reply_price <> Main.reply_price.
Proof.
  split; [vm_compute; reflexivity|]. split; [|split].
  - unfold Main.reply_price. apply in_or_app. right. now left.
  - reflexivity.
  - intros H. vm_compute in H. discriminate.
Qed.



(** ** The channel router *)

Section RouterFacts.
Import MetaRouter.

Ltac walk :=
  repeat (simpl; try reflexivity;
          match goal with
          | |- context [match ?x with _ => _ end] => is_var x; destruct x
          | |- context [Z.eqb ?z 0] => destruct (Z.eqb z 0)
          | |- context [pystr_eqb ?a ?b] => destruct (pystr_eqb a b)
          | |- context [match lookup ?k ?l with _ => _ end] =>
              destruct (lookup k l)
          end).

Lemma detect_channel_dict items :
  detect_channel (VDict items) =
  Return (match lookup (py "object") items with
          | Some obj =>
              if eq_str obj (py "whatsapp_business_account") then py "whatsapp"
              else if eq_str obj (py "page") then py "messenger"
              else if eq_str obj (py "instagram") then py "instagram"
              else py "unknown"
          | None => py "unknown"
          end).
Proof.
  unfold detect_channel, get, res_bind.
  destruct (lookup (py "object") items) as [obj|].
  - destruct (eq_str obj _); [reflexivity|].
    destruct (eq_str obj _); [reflexivity|].
    destruct (eq_str obj _); reflexivity.
  - reflexivity.
Qed.

Lemma whatsapp_walk items :
  try_except
    (res_bind (get (VDict items) (py "entry") VNone) (fun entries =>
     res_bind (getitem0 (py_or entries (VList []))) (fun entry =>
     res_bind (get entry (py "changes") VNone) (fun changes =>
     res_bind (getitem0 (py_or changes (VList []))) (fun change =>
     res_bind (get change (py "value") VNone) (fun value0 =>
     res_bind (get (py_or value0 (VDict [])) (py "metadata") VNone) (fun meta0 =>
     get (py_or meta0 (VDict [])) (py "phone_number_id") VNone)))))))
    (Return VNone)
  = Return (or_none
      (obind (lookup (py "entry") items) (fun entries =>
       obind (first_item entries) (fun entry =>
       obind (field (py "changes") entry) (fun changes =>
       obind (first_item changes) (fun change =>
       obind (field (py "value") change) (fun value =>
       obind (field (py "metadata") value) (fun meta =>
       field (py "phone_number_id") meta)))))))).
Proof.
  unfold or_none, try_except, res_bind, getitem0, py_or, get, obind,
    first_item, field, truthy, str_truthy.
  walk.
Qed.

Lemma other_walk items :
  try_except
    (res_bind (get (VDict items) (py "entry") VNone) (fun entries =>
     res_bind (getitem0 (py_or entries (VList []))) (fun entry =>
     get entry (py "id") VNone)))
    (Return VNone)
  = Return (or_none
      (obind (lookup (py "entry") items) (fun entries =>
       obind (first_item entries) (fun entry =>
       field (py "id") entry)))).
Proof.
  unfold or_none, try_except, res_bind, getitem0, py_or, get, obind,
    first_item, field, truthy, str_truthy.
  walk.
Qed.

End RouterFacts.

(** C7.  Routing-key extraction is total on a decoded JSON object, whatever
    its content: it never raises, and it returns the value found by the walk
    [entry[0].changes[0].value.metadata.phone_number_id] for a whatsapp
    payload and [entry[0].id] for any other, or [None] when a step of the
    walk is missing, empty or of another type. *)
Theorem extract_routing_key_total (items : list (pystr * MetaRouter.value)) :
  MetaRouter.extract_routing_key (MetaRouter.VDict items)
    = Return (MetaRouter.or_none
                (MetaRouter.routing_key_spec (MetaRouter.VDict items))) /\
  forall e, MetaRouter.extract_routing_key (MetaRouter.VDict items) <> Raise e.
Proof.
  assert (E : MetaRouter.extract_routing_key (MetaRouter.VDict items)
    = Return (MetaRouter.or_none
                (MetaRouter.routing_key_spec (MetaRouter.VDict items)))).
  { unfold MetaRouter.extract_routing_key, MetaRouter.routing_key_spec,
      MetaRouter.is_whatsapp.
    rewrite detect_channel_dict. cbn [res_bind MetaRouter.field].
    destruct (MetaRouter.lookup (py "object") items) as [obj|].
    - destruct (MetaRouter.eq_str obj (py "whatsapp_business_account")).
      + change (pystr_eqb (py "whatsapp") (py "whatsapp")) with true.
        cbv iota. apply whatsapp_walk.
      + assert (Hno : pystr_eqb
                  (if MetaRouter.eq_str obj (py "page") then py "messenger"
                   else if MetaRouter.eq_str obj (py "instagram") then py "instagram"
                   else py "unknown") (py "whatsapp") = false).
        { destruct (MetaRouter.eq_str obj (py "page")); [reflexivity|].
          destruct (MetaRouter.eq_str obj (py "instagram")); reflexivity. }
        rewrite Hno. apply other_walk.
    - change (pystr_eqb (py "unknown") (py "whatsapp")) with false.
      cbv iota. apply other_walk. }
  split; [exact E|]. intros e. rewrite E. discriminate.
Qed.

(** ** Tenant isolation *)

Section Isolation.
Import Main Inv.
Variable lower : pystr -> pystr.

Lemma NoDup_map_eq {A B} (f : A -> B) (l : list A) x y :
  NoDup (map f l) -> In x l -> In y l -> f x = f y -> x = y.
Proof.
  induction l as [|a r IH]; simpl; [easy|].
  intros Hnd Hx Hy E. inversion Hnd as [|? ? Hnotin Hr]; subst.
  destruct Hx as [->|Hx], Hy as [->|Hy]; auto.
  - exfalso. apply Hnotin. rewrite E. now apply in_map.
  - exfalso. apply Hnotin. rewrite <- E. now apply in_map.
Qed.

Lemma NoDup_snoc_fresh ids : NoDup ids -> NoDup (ids ++ [next_id ids]).
Proof.
  intros H. apply NoDup_app; [exact H|repeat constructor; auto|].
  intros i Hi [<-|[]]. apply next_id_fresh in Hi. lia.
Qed.

Lemma filter_map_untouched {A} (P : A -> bool) (g : A -> A) (l : list A) :
  (forall x, P (g x) = P x) ->
  (forall x, In x l -> P x = true -> g x = x) ->
  filter P (map g l) = filter P l.
Proof.
  intros HP Hg. induction l as [|a r IH]; simpl; [easy|].
  rewrite HP. destruct (P a) eqn:E.
  - rewrite Hg by (simpl; auto). f_equal. apply IH. intros x Hx. apply Hg. now right.
  - apply IH. intros x Hx. apply Hg. now right.
Qed.

Lemma find_filter {A} (P Q : A -> bool) (l : list A) :
  (forall x, P x = true -> Q x = true) -> find P (filter Q l) = find P l.
Proof.
  intros H. induction l as [|a r IH]; simpl; [easy|].
  destruct (Q a) eqn:E; simpl.
  - destruct (P a); auto.
  - destruct (P a) eqn:E'; [|exact IH]. apply H in E'. congruence.
Qed.

Lemma filter_filter_implied {A} (P Q : A -> bool) (l : list A) :
  (forall x, P x = true -> Q x = true) -> filter P (filter Q l) = filter P l.
Proof.
  intros H. induction l as [|a r IH]; simpl; [easy|].
  destruct (Q a) eqn:E; simpl.
  - destruct (P a); now rewrite IH.
  - destruct (P a) eqn:E'; [|exact IH]. apply H in E'. congruence.
Qed.

Lemma contact_matches_tenant t p c :
  contact_matches t p c = true -> Contact.tenant_id c = t.
Proof.
  unfold contact_matches. intros H.
  apply andb_true_iff in H as [H _]. apply andb_true_iff in H as [H _].
  now apply Z.eqb_eq.
Qed.

Lemma same_foreign_refl t db : same_foreign t db db.
Proof. repeat split. Qed.

Lemma same_foreign_trans t a b c :
  same_foreign t a b -> same_foreign t b c -> same_foreign t a c.
Proof.
  intros (A1 & A2 & A3) (B1 & B2 & B3). repeat split; congruence.
Qed.

Lemma insert_message_isolated t m db :
  Message.tenant_id m = t ->
  primary_keys db ->
  same_foreign t db (insert_message m db) /\ primary_keys (insert_message m db).
Proof.
  intros Hm Hpk. split; [|exact Hpk].
  repeat split. unfold foreign_messages, insert_message. simpl.
  rewrite filter_app. simpl. rewrite Hm, Z.eqb_refl. simpl. apply app_nil_r.
Qed.

Lemma contact_block_isolated fault t p db c db1 :
  find_or_create_contact fault t p db = (Return c, db1) ->
  primary_keys db ->
  same_foreign t db db1 /\ primary_keys db1.
Proof.
  intros H [Hc Hd]. apply contact_block in H as (Hds & Hms & Hm & _ & Hcase).
  destruct Hcase as [(_ & Hnew & ->)|[(c0 & _ & _ & ->)|(c0 & Hf & _ & _ & _ & ->)]].
  - split.
    + repeat split. unfold foreign_contacts, insert_contact. simpl.
      rewrite filter_app. simpl.
      rewrite (contact_matches_tenant _ _ _ Hm), Z.eqb_refl. simpl. apply app_nil_r.
    + split; [|exact Hd]. unfold insert_contact. simpl. rewrite map_app. simpl.
      replace (Contact.id c) with (next_id (map Contact.id (contacts db)))
        by (rewrite Hnew; reflexivity).
      now apply NoDup_snoc_fresh.
  - split; [apply same_foreign_refl|now split].
  - apply find_contact_found in Hf as [Hm0 Hin0].
    apply contact_matches_tenant in Hm0. split.
    + repeat split. unfold foreign_contacts, update_contact_name. simpl.
      apply filter_map_untouched.
      * intros x. destruct (Z.eqb (Contact.id x) (Contact.id c0)); reflexivity.
      * intros x Hx Hfor. destruct (Z.eqb_spec (Contact.id x) (Contact.id c0)) as [E|E];
          [|reflexivity].
        assert (x = c0) by (eapply NoDup_map_eq; eauto). subst x.
        rewrite Hm0, Z.eqb_refl in Hfor. discriminate.
    + split; [|exact Hd]. unfold update_contact_name. simpl.
      rewrite map_map.
      erewrite map_ext; [exact Hc|].
      intros x. destruct (Z.eqb _ _); reflexivity.
Qed.

Lemma deal_block_isolated fault t c db d db1 :
  find_or_create_deal fault t c db = (Return d, db1) ->
  primary_keys db ->
  same_foreign t db db1 /\ primary_keys db1.
Proof.
  intros H [Hc Hd]. apply deal_block in H as (_ & _ & Hm & _ & Hcase).
  destruct Hcase as [(_ & ->)|(_ & Hnew & ->)].
  - split; [apply same_foreign_refl|now split].
  - apply deal_matches_key in Hm as (Ht & _). split.
    + repeat split. unfold foreign_deals, insert_deal. simpl.
      rewrite filter_app. simpl. rewrite Ht, Z.eqb_refl. simpl. apply app_nil_r.
    + split; [exact Hc|]. unfold insert_deal. simpl. rewrite map_app. simpl.
      replace (Deal.id d) with (next_id (map Deal.id (deals db)))
        by (rewrite Hnew; reflexivity).
      now apply NoDup_snoc_fresh.
Qed.

Lemma update_deal_stage_isolated t d s db :
  In d (deals db) -> Deal.tenant_id d = t ->
  primary_keys db ->
  same_foreign t db (update_deal_stage (Deal.id d) s db) /\
  primary_keys (update_deal_stage (Deal.id d) s db).
Proof.
  intros Hin Ht [Hc Hd]. split.
  - repeat split. unfold foreign_deals, update_deal_stage. simpl.
    apply filter_map_untouched.
    + intros x. destruct (Z.eqb (Deal.id x) (Deal.id d)); reflexivity.
    + intros x Hx Hfor. destruct (Z.eqb_spec (Deal.id x) (Deal.id d)) as [E|E];
        [|reflexivity].
      assert (x = d) by (eapply NoDup_map_eq; eauto). subst x.
      rewrite Ht, Z.eqb_refl in Hfor. discriminate.
  - split; [exact Hc|]. unfold update_deal_stage. simpl. rewrite map_map.
    erewrite map_ext; [exact Hd|].
    intros x. destruct (Z.eqb _ _); reflexivity.
Qed.

(** Whatever the outcome of a request of tenant [t], the rows of the other
    tenants are as before and the primary keys are still unique. *)
Lemma run_isolated fault p user t db :
  User.tenant_id user = Some t ->
  primary_keys db ->
  same_foreign t db (snd (simulate_body lower fault p user db)) /\
  primary_keys (snd (simulate_body lower fault p user db)).
Proof.
  intros Ht Hpk.
  destruct (simulate_body_cascade lower fault p user db Ht)
    as (c & s1 & s2 & d & s3 & s4 & s5 & Hc & E2 & Hd & E4 & E5 & ->).
  assert (I1 : same_foreign t db s1 /\ primary_keys s1)
    by (eapply contact_block_isolated; eauto).
  destruct I1 as [F1 K1].
  assert (I2 : same_foreign t s1 s2 /\ primary_keys s2)
    by (subst s2; apply insert_message_isolated; auto).
  destruct I2 as [F2 K2].
  assert (I3 : same_foreign t s2 s3 /\ primary_keys s3)
    by (eapply deal_block_isolated; eauto).
  destruct I3 as [F3 K3].
  assert (I4 : same_foreign t s3 s4 /\ primary_keys s4).
  { subst s4. apply deal_block in Hd as (_ & _ & Hm & Hf & _).
    apply find_open_deal_found in Hf as (_ & Hin & _).
    apply deal_matches_key in Hm as (Htd & _).
    apply update_deal_stage_isolated; auto. }
  destruct I4 as [F4 K4].
  assert (I5 : same_foreign t s4 s5 /\ primary_keys s5)
    by (subst s5; apply insert_message_isolated; auto).
  destruct I5 as [F5 K5].
  pose proof (same_foreign_trans F1 F2) as G2.
  pose proof (same_foreign_trans G2 F3) as G3.
  pose proof (same_foreign_trans G3 F4) as G4.
  pose proof (same_foreign_trans G4 F5) as G5.
  destruct (contact_commits t p db && fault CommitContact);
    [split; [apply same_foreign_refl|exact Hpk]|].
  destruct (fault CommitInbound); [now split|].
  destruct (deal_commits t (Contact.id c) s2 && fault CommitDeal); [now split|].
  destruct (fault CommitStage); [now split|].
  destruct (fault CommitOutbound); now split.
Qed.

(** The two lookups of the handler see the rows of their tenant only. *)
Lemma lookups_scoped t p cid db :
  find_contact t p db = find_contact t p (own_rows t db) /\
  find_open_deal t cid db = find_open_deal t cid (own_rows t db).
Proof.
  unfold find_contact, find_open_deal, own_rows. simpl. split.
  - symmetry. apply find_filter. intros x Hx.
    apply contact_matches_tenant in Hx. now apply Z.eqb_eq.
  - f_equal. symmetry. apply filter_filter_implied. intros x Hx.
    apply deal_matches_key in Hx as (Hx & _). now apply Z.eqb_eq.
Qed.

End Isolation.

(** C6.  Tenant isolation.  Two tenants that receive a message from the same
    (channel, channel_user_id) end up with two contact rows, one each, with
    different ids, and each tenant's lookup finds its own.  Whatever the
    outcome of a request of tenant [t], the rows of every other tenant, in
    the three tables, are exactly as before; and the two lookups of the
    handler give on the whole store what they give on the rows of [t]
    alone. *)
Theorem tenant_isolation (lower : pystr -> pystr) (user1 user2 : User.t)
    (t1 t2 : Z) (p1 p2 : Main.SimulateIn) (db : DB) :
  User.tenant_id user1 = Some t1 ->
  User.tenant_id user2 = Some t2 ->
  t1 <> t2 ->
  Main.channel p2 = Main.channel p1 ->
  Main.channel_user_id p2 = Main.channel_user_id p1 ->
  Inv.primary_keys db ->
  (exists l1 db1 l2 db2,
     Main.simulate_body lower no_fault p1 user1 db = (Return l1, db1) /\
     Main.simulate_body lower no_fault p2 user2 db1 = (Return l2, db2) /\
     Contact.tenant_id (Main.l_contact l1) = t1 /\
     Contact.tenant_id (Main.l_contact l2) = t2 /\
     Contact.id (Main.l_contact l1) <> Contact.id (Main.l_contact l2) /\
     Main.find_contact t1 p1 db2 = Some (Main.l_contact l1) /\
     Main.find_contact t2 p2 db2 = Some (Main.l_contact l2)) /\
  (forall fault p user t s,
     User.tenant_id user = Some t ->
     Inv.primary_keys s ->
     Inv.same_foreign t s (snd (Main.simulate_body lower fault p user s)) /\
     Inv.primary_keys (snd (Main.simulate_body lower fault p user s))) /\
  (forall t p cid s,
     Main.find_contact t p s = Main.find_contact t p (Inv.own_rows t s) /\
     Main.find_open_deal t cid s = Main.find_open_deal t cid (Inv.own_rows t s)).
Proof.
  intros Ht1 Ht2 Hne Hch Hu Hpk.
  split; [|split; [intros; now apply run_isolated|intros; apply lookups_scoped]].
  destruct (simulate_body_total lower p1 user1 db Ht1) as (l1 & db1 & H1).
  destruct (simulate_body_total lower p2 user2 db1 Ht2) as (l2 & db2 & H2).
  exists l1, db1, l2, db2. split; [exact H1|]. split; [exact H2|].
  pose proof (@run_isolated lower no_fault p1 user1 t1 db Ht1 Hpk) as [_ K1].
  rewrite H1 in K1. simpl in K1.
  pose proof (@run_isolated lower no_fault p2 user2 t2 db1 Ht2 K1) as [(F2 & _) K2].
  rewrite H2 in F2, K2. simpl in F2, K2.
  pose proof H1 as R1. apply run_resolved in R1 as (t & Ht & Hm1 & _ & Hf1 & _).
  assert (t = t1) by congruence. subst t.
  pose proof H2 as R2. apply run_resolved in R2 as (t & Ht' & Hm2 & _ & Hf2 & _).
  assert (t = t2) by congruence. subst t.
  pose proof (contact_matches_tenant _ _ _ Hm1) as T1.
  pose proof (contact_matches_tenant _ _ _ Hm2) as T2.
  assert (Hf12 : Main.find_contact t1 p1 db2 = Some (Main.l_contact l1)).
  { rewrite <- Hf1. unfold Main.find_contact.
    rewrite <- (find_filter (Main.contact_matches t1 p1)
                  (fun c => negb (Z.eqb (Contact.tenant_id c) t2)) (contacts db2)).
    - rewrite <- (find_filter (Main.contact_matches t1 p1)
                    (fun c => negb (Z.eqb (Contact.tenant_id c) t2)) (contacts db1)).
      + unfold Inv.foreign_contacts in F2. now rewrite F2.
      + intros x Hx. apply contact_matches_tenant in Hx. rewrite Hx.
        apply negb_true_iff. now apply Z.eqb_neq.
    - intros x Hx. apply contact_matches_tenant in Hx. rewrite Hx.
      apply negb_true_iff. now apply Z.eqb_neq. }
  repeat split; auto.
  intros E. apply Hne.
  apply find_contact_found in Hf12 as [_ In1].
  apply find_contact_found in Hf2 as [_ In2].
  destruct K2 as [K2 _].
  assert (Main.l_contact l1 = Main.l_contact l2)
    by (eapply NoDup_map_eq; eauto).
  congruence.
Qed.

(** C6, witness: the same WhatsApp number writes to tenant 1 and to
    tenant 2, on the empty store. *)
Lemma tenant_isolation_witness :
  exists l1 db1 l2 db2,
    Main.simulate_body ascii_lower no_fault Sample.ask_price Sample.shop_admin
      Sample.empty_db = (Return l1, db1) /\
    Main.simulate_body ascii_lower no_fault Sample.ask_price Sample.other_admin
      db1 = (Return l2, db2) /\
    Contact.tenant_id (Main.l_contact l1) = 1%Z /\
    Contact.tenant_id (Main.l_contact l2) = 2%Z /\
    Contact.id (Main.l_contact l1) <> Contact.id (Main.l_contact l2) /\
    Main.find_contact 1 Sample.ask_price db2 = Some (Main.l_contact l1) /\
    Main.find_contact 2 Sample.ask_price db2 = Some (Main.l_contact l2).
Proof.
  refine (proj1 (@tenant_isolation ascii_lower Sample.shop_admin Sample.other_admin
                   1%Z 2%Z Sample.ask_price Sample.ask_price Sample.empty_db
                   eq_refl eq_refl _ eq_refl eq_refl _)).
  - discriminate.
  - split; constructor.
Defined.

(** C7, counterexample to the claim as stated: a payload that is a JSON
    array and not an object.  [detect_channel] is called before the [try]
    block, and its [payload.get] raises. *)
Lemma routing_key_raises_on_array :
  MetaRouter.extract_routing_key (MetaRouter.VList []) = Raise AttributeError.
Proof. reflexivity. Qed.

(** ** Requests that overlap *)

Section Overlap.
Import Main Inv.
Variable lower : pystr -> pystr.
Variable fault : commit_site -> bool.

Lemma run_tbind A B (t : Concurrent.Task A) (k : A -> Concurrent.Task B) db :
  Concurrent.run (Concurrent.tbind t k) db
  = bind (Concurrent.run t) (fun a => Concurrent.run (k a)) db.
Proof.
  revert t db. fix IH 1. intros [[a|e]|step] db.
  - reflexivity.
  - reflexivity.
  - unfold bind. cbn [Concurrent.tbind Concurrent.run].
    destruct (step db) as [db' t']. rewrite IH. reflexivity.
Qed.

Lemma run_step A B (t : Concurrent.Task A) (k : A -> Concurrent.Task B) db a db1 :
  Concurrent.run t db = (Return a, db1) ->
  Concurrent.run (Concurrent.tbind t k) db = Concurrent.run (k a) db1.
Proof. intros H. rewrite run_tbind. unfold bind. now rewrite H. Qed.

Lemma run_fail A B (t : Concurrent.Task A) (k : A -> Concurrent.Task B) db e db1 :
  Concurrent.run t db = (Raise e, db1) ->
  Concurrent.run (Concurrent.tbind t k) db = (Raise e, db1).
Proof. intros H. rewrite run_tbind. unfold bind. now rewrite H. Qed.

Lemma find_snoc_fresh {A} (P : A -> bool) (l : list A) (a : A) :
  (forall x, In x l -> P x = false) -> P a = true -> find P (l ++ [a]) = Some a.
Proof.
  intros Hl Ha. induction l as [|x r IH]; simpl; [now rewrite Ha|].
  rewrite Hl by (simpl; auto). apply IH. intros y Hy. apply Hl. now right.
Qed.

Lemma find_by_key {A} (key : A -> Z) (l : list A) (a : A) :
  NoDup (map key l) -> In a l -> find (fun x => Z.eqb (key x) (key a)) l = Some a.
Proof.
  intros Hnd Hin. destruct (find _ l) as [x|] eqn:E.
  - apply find_some in E as [Hx Hk]. apply Z.eqb_eq in Hk.
    f_equal. eapply NoDup_map_eq; eauto.
  - apply (find_none _ _ E) in Hin. now rewrite Z.eqb_refl in Hin.
Qed.

Lemma existsb_find_none {A} (P : A -> bool) (l : list A) :
  find P l = None -> existsb P l = false.
Proof.
  induction l as [|x r IH]; simpl; [easy|]. destruct (P x); [discriminate|auto].
Qed.

(** The contact block of a request that runs alone. *)
Lemma contact_alone t p db :
  Concurrent.run (Concurrent.find_or_create_contact fault t p) db
  = find_or_create_contact fault t p db.
Proof.
  unfold Concurrent.find_or_create_contact, find_or_create_contact.
  rewrite run_tbind. unfold bind at 1 2, query.
  cbn [Concurrent.run Concurrent.tquery Concurrent.tret].
  destruct (find_contact t p db) as [c0|] eqn:Hfind.
  - destruct (opt_truthy (contact_name p)
              && negb (opt_truthy (Contact.contact_name c0))).
    + unfold bind, commit. cbn. destruct (fault CommitContact); reflexivity.
    + reflexivity.
  - rewrite run_tbind. unfold bind, commit, ret. cbn.
    unfold find_contact in Hfind. rewrite (existsb_find_none _ _ Hfind), orb_false_r.
    destruct (fault CommitContact); [reflexivity|]. cbn.
    unfold Concurrent.contact_by_id, insert_contact. cbn.
    rewrite find_snoc_fresh; [reflexivity| |cbn; apply Z.eqb_refl].
    intros x Hx. cbn. apply Z.eqb_neq. apply (in_map Contact.id) in Hx.
    apply next_id_fresh in Hx. lia.
Qed.

Lemma message_alone site t c p direction txt db :
  Concurrent.run (Concurrent.store_message fault site t c p direction txt) db
  = store_message fault site t c p direction txt db.
Proof.
  unfold Concurrent.store_message, store_message, bind, query, commit. cbn.
  destruct (fault site); reflexivity.
Qed.

Lemma deal_alone t c db :
  Concurrent.run (Concurrent.find_or_create_deal fault t c) db
  = find_or_create_deal fault t c db.
Proof.
  unfold Concurrent.find_or_create_deal, find_or_create_deal.
  rewrite run_tbind. unfold bind at 1 2, query.
  cbn [Concurrent.run Concurrent.tquery Concurrent.tret].
  destruct (find_open_deal t (Contact.id c) db) as [d0|]; [reflexivity|].
  rewrite run_tbind. unfold bind, commit, ret. cbn.
  destruct (fault CommitDeal); [reflexivity|]. cbn.
  unfold Concurrent.deal_by_id, insert_deal. cbn.
  rewrite find_snoc_fresh; [reflexivity| |cbn; apply Z.eqb_refl].
  intros x Hx. cbn. apply Z.eqb_neq. apply (in_map Deal.id) in Hx.
  apply next_id_fresh in Hx. lia.
Qed.

Lemma with_stage_same d : Deal.with_stage (Deal.stage d) d = d.
Proof. now destruct d. Qed.

Lemma update_deal_stage_same d db :
  NoDup (map Deal.id (deals db)) -> In d (deals db) ->
  update_deal_stage (Deal.id d) (Deal.stage d) db = db.
Proof.
  intros Hnd Hin. unfold update_deal_stage. destruct db as [cs ds ms]. cbn in *.
  f_equal. rewrite <- (map_id ds) at 2. apply map_ext_in.
  intros x Hx. destruct (Z.eqb_spec (Deal.id x) (Deal.id d)) as [E|E]; [|reflexivity].
  assert (x = d) by (eapply NoDup_map_eq; eauto). subst x. apply with_stage_same.
Qed.

(** The stage block of a request that runs alone: an UPDATE that changes
    nothing is not written. *)
Lemma stage_alone p d db :
  NoDup (map Deal.id (deals db)) -> In d (deals db) ->
  Concurrent.run (Concurrent.reply_and_stage lower fault p d) db
  = if fault CommitStage then (Raise PersistenceError, db)
    else (Return (bot_reply lower p),
          update_deal_stage (Deal.id d) (Deal.stage (staged lower p d)) db).
Proof.
  intros Hnd Hin.
  unfold Concurrent.reply_and_stage, bot_reply, staged, mentions_price.
  destruct (str_in _ _ || str_in _ _);
    cbn [Concurrent.run Concurrent.tbind Concurrent.tupdate Concurrent.tret
         Concurrent.traise Deal.stage Deal.with_stage];
    (destruct (fault CommitStage); [reflexivity|]);
    cbn [Concurrent.run Concurrent.tbind Concurrent.tret];
    match goal with |- context [pystr_eqb ?a ?b] =>
      destruct (pystr_eqb a b) eqn:E end; try reflexivity;
    apply pystr_eqb_eq in E; rewrite E; now rewrite update_deal_stage_same.
Qed.

(** A request that has the store to itself is the handler of the
    sequential reading. *)
Lemma simulate_alone p user db :
  primary_keys db ->
  Concurrent.run (Concurrent.simulate lower fault p user) db
  = simulate lower fault p user db.
Proof.
  intros Hpk. unfold simulate, Concurrent.simulate.
  destruct (User.tenant_id user) as [t|] eqn:Ht.
  2:{ unfold bind, simulate_body. rewrite Ht. reflexivity. }
  destruct (simulate_body_cascade lower fault p user db Ht)
    as (c & s1 & s2 & d & s3 & s4 & s5 & Hc & E2 & Hd & E4 & E5 & Hrun).
  unfold bind at 1. rewrite Hrun. clear Hrun.
  assert (K1 : primary_keys s1) by (eapply contact_block_isolated; eauto).
  assert (K2 : primary_keys s2) by (subst s2; exact K1).
  assert (K3 : primary_keys s3) by (eapply deal_block_isolated; eauto).
  pose proof (deal_block _ _ _ _ Hd) as (_ & _ & _ & Hf & _).
  apply find_open_deal_found in Hf as (_ & Hin & _).
  pose proof (contact_alone t p db) as Fc. rewrite contact_block_fault in Fc.
  destruct (contact_commits t p db && fault CommitContact).
  { now rewrite (@run_fail _ _ _ _ _ _ _ Fc). }
  rewrite Hc in Fc. rewrite (@run_step _ _ _ _ _ _ _ Fc).
  pose proof (message_alone CommitInbound t c p (py "in") (text p) s1) as Fi.
  rewrite message_block_fault in Fi.
  destruct (fault CommitInbound).
  { now rewrite (@run_fail _ _ _ _ _ _ _ Fi). }
  rewrite message_block_total in Fi. rewrite (@run_step _ _ _ _ _ _ _ Fi).
  unfold inbound_row in E2. rewrite <- E2.
  pose proof (deal_alone t c s2) as Fd. rewrite deal_block_fault in Fd.
  destruct (deal_commits t (Contact.id c) s2 && fault CommitDeal).
  { now rewrite (@run_fail _ _ _ _ _ _ _ Fd). }
  rewrite Hd in Fd. rewrite (@run_step _ _ _ _ _ _ _ Fd).
  pose proof (@stage_alone p d s3 (proj2 K3) Hin) as Fs. rewrite <- E4 in Fs.
  destruct (fault CommitStage).
  { now rewrite (@run_fail _ _ _ _ _ _ _ Fs). }
  rewrite (@run_step _ _ _ _ _ _ _ Fs).
  pose proof (message_alone CommitOutbound t c p (py "out") (bot_reply lower p) s4)
    as Fo.
  rewrite message_block_fault in Fo.
  destruct (fault CommitOutbound).
  { now rewrite (@run_fail _ _ _ _ _ _ _ Fo). }
  rewrite message_block_total in Fo. rewrite (@run_step _ _ _ _ _ _ _ Fo).
  unfold outbound_row in E5. rewrite <- E5.
  cbn. unfold Concurrent.deal_by_id.
  assert (Hs : find (fun x => Z.eqb (Deal.id x) (Deal.id d)) (deals s5)
               = Some (staged lower p d)).
  { subst s5 s4. cbn. rewrite find_map_preserve.
    - rewrite (@find_by_key _ Deal.id _ _ (proj2 K3) Hin). cbn.
      rewrite Z.eqb_refl. unfold staged. now destruct d.
    - intros x. destruct (Z.eqb (Deal.id x) (Deal.id d)) eqn:E; [exact E|exact E]. }
  rewrite Hs. reflexivity.
Qed.

End Overlap.

(** C2, counterexample to the claim as stated: two requests from one
    WhatsApp number overlap on a store in which the contact has no deal,
    and their statements take turns.  Each request looks for an open deal
    before the other has committed one, finds none and inserts its own.
    Both requests complete, and the contact is left with two open deals.
    The same two requests one after the other leave one. *)
Lemma overlapping_requests_open_two_deals :
  let first :=
    Concurrent.simulate ascii_lower no_fault Sample.say_ok Sample.shop_admin in
  let second :=
    Concurrent.simulate ascii_lower no_fault Sample.ask_price Sample.shop_admin in
  let overlapped :=
    Concurrent.interleave (Concurrent.in_turns 8) first second
      Sample.db_contact_only in
  let in_sequence :=
    Concurrent.interleave (Concurrent.one_by_one 8 8) first second
      Sample.db_contact_only in
  Inv.at_most_one_open Sample.db_contact_only /\
  fst overlapped
  = (Concurrent.Finished
       (Return (Main.Build_Response true Main.reply_thanks (py "new"))),
     Concurrent.Finished
       (Return (Main.Build_Response true Main.reply_price (py "qualified")))) /\
  deals (snd overlapped)
  = [Deal.mk 1 1 1 (py "new") (py "open") None None None;
     Deal.mk 2 1 1 (py "qualified") (py "open") None None None] /\
  ~ Inv.at_most_one_open (snd overlapped) /\
  ~ Inv.open_deal_unique (snd overlapped) /\
  fst in_sequence
  = (Concurrent.Finished
       (Return (Main.Build_Response true Main.reply_thanks (py "new"))),
     Concurrent.Finished
       (Return (Main.Build_Response true Main.reply_price (py "qualified")))) /\
  deals (snd in_sequence)
  = [Deal.mk 1 1 1 (py "qualified") (py "open") None None None].
Proof.
  cbv zeta.
  assert (Htwo : ~ Inv.at_most_one_open
                   (snd (Concurrent.interleave (Concurrent.in_turns 8)
                           (Concurrent.simulate ascii_lower no_fault Sample.say_ok
                              Sample.shop_admin)
                           (Concurrent.simulate ascii_lower no_fault Sample.ask_price
                              Sample.shop_admin)
                           Sample.db_contact_only))).
  { intros H. specialize (H 1%Z 1%Z). vm_compute in H. lia. }
  split; [intros t c; simpl; lia|].
  split; [vm_compute; reflexivity|].
  split; [vm_compute; reflexivity|].
  split; [exact Htwo|].
  split; [intros H; apply Htwo; now apply at_most_one_open_rows|].
  split; vm_compute; reflexivity.
Qed.

(* ------------------------------------------------------------------ *)
(** * Further properties of the code *)

(** ** [_sanitize_ascii], code point by code point *)

Section SanitizerMore.
Import Agent Canon Visible.

Lemma replace_single_map old new text :
  replace old [new] text = map (swap old new) text.
Proof.
  unfold replace, swap. induction text as [|c r IH]; simpl; [reflexivity|].
  rewrite IH. destruct (N.eqb c old); reflexivity.
Qed.

Lemma replace_smart_map text : replace_smart text = map unsmart text.
Proof.
  unfold replace_smart. rewrite !replace_single_map, !map_map. reflexivity.
Qed.

(** The sanitizer as one pipeline, the empty text included. *)
Lemma sanitize_pipeline text :
  _sanitize_ascii text =
  strip (sub_ws false (filter is_ascii (map unsmart text))).
Proof.
  unfold _sanitize_ascii, re_sub_spaces, encode_ascii_ignore.
  rewrite replace_smart_map. destruct text; reflexivity.
Qed.

Lemma length_sub_ws b text : (List.length (sub_ws b text) <= List.length text)%nat.
Proof.
  revert b. induction text as [|c r IH]; intros b; simpl; [lia|].
  pose proof (IH true). pose proof (IH false).
  destruct (isspace c); [destruct b|]; simpl; lia.
Qed.

Lemma length_lstrip text : (List.length (lstrip text) <= List.length text)%nat.
Proof.
  induction text as [|c r IH]; simpl; [lia|].
  destruct (isspace c); simpl; lia.
Qed.

Lemma length_rstrip text : (List.length (rstrip text) <= List.length text)%nat.
Proof.
  induction text as [|c r IH]; simpl; [lia|].
  destruct (rstrip r); [destruct (isspace c)|]; simpl in *; lia.
Qed.

(** X1.  The sanitizer never makes a text longer. *)
Theorem sanitize_never_longer (text : pystr) :
  (List.length (_sanitize_ascii text) <= List.length text)%nat.
Proof.
  rewrite sanitize_pipeline. unfold strip.
  pose proof (length_rstrip (lstrip (sub_ws false (filter is_ascii (map unsmart text))))).
  pose proof (length_lstrip (sub_ws false (filter is_ascii (map unsmart text)))).
  pose proof (length_sub_ws false (filter is_ascii (map unsmart text))).
  pose proof (filter_length_le is_ascii (map unsmart text)).
  rewrite length_map in *. lia.
Qed.

Lemma visible_not_space c : visible c = true -> isspace c = false.
Proof.
  unfold visible. intros H. apply andb_true_iff in H as [_ H].
  now apply negb_true_iff.
Qed.

Lemma filter_visible_sub_ws b text :
  filter visible (sub_ws b text) = filter visible text.
Proof.
  revert b. induction text as [|c r IH]; intros b; simpl; [reflexivity|].
  destruct (isspace c) eqn:E.
  - assert (visible c = false) by (unfold visible; rewrite E; apply andb_false_r).
    rewrite H. destruct b; simpl; auto.
  - simpl. now rewrite IH.
Qed.

Lemma filter_visible_lstrip text : filter visible (lstrip text) = filter visible text.
Proof.
  induction text as [|c r IH]; simpl; [reflexivity|].
  destruct (isspace c) eqn:E; [|reflexivity].
  assert (visible c = false) by (unfold visible; rewrite E; apply andb_false_r).
  now rewrite H.
Qed.

Lemma filter_visible_rstrip text : filter visible (rstrip text) = filter visible text.
Proof.
  induction text as [|c r IH]; simpl; [reflexivity|].
  destruct (rstrip r) as [|k ks] eqn:Er.
  - rewrite <- IH. simpl. destruct (isspace c) eqn:E; [|reflexivity].
    assert (visible c = false) by (unfold visible; rewrite E; apply andb_false_r).
    now rewrite H.
  - simpl. simpl in IH. now rewrite IH.
Qed.

Lemma filter_visible_ascii text :
  filter visible (filter is_ascii text) = filter visible text.
Proof.
  induction text as [|c r IH]; simpl; [reflexivity|].
  unfold visible at 2. destruct (is_ascii c) eqn:E; simpl.
  - unfold visible at 1. rewrite E. simpl. destruct (negb (isspace c)); now rewrite IH.
  - exact IH.
Qed.

Lemma filter_visible_sanitize text :
  filter visible (_sanitize_ascii text) = filter visible (map unsmart text).
Proof.
  rewrite sanitize_pipeline. unfold strip.
  rewrite filter_visible_rstrip, filter_visible_lstrip, filter_visible_sub_ws.
  apply filter_visible_ascii.
Qed.

(** X2.  The sanitizer deletes nothing that shows: the visible ASCII code
    points of the text, with the six typographic marks read as their ASCII
    stand-ins, are those of the output, in the same order. *)
Theorem sanitize_keeps_visible (text : pystr) :
  filter visible (_sanitize_ascii text) = filter visible (map unsmart text).
Proof.
  rewrite sanitize_pipeline. unfold strip.
  now rewrite filter_visible_rstrip, filter_visible_lstrip,
    filter_visible_sub_ws, filter_visible_ascii.
Qed.

(** X3.  A code point that is not ASCII and not one of the six typographic
    marks is ignored wherever it stands: the text sanitizes as if it were
    not there (so a no-break space between two words glues them). *)
Theorem sanitize_ignores_non_ascii (front back : pystr) (c : codepoint) :
  is_ascii (unsmart c) = false ->
  _sanitize_ascii (front ++ c :: back) = _sanitize_ascii (front ++ back).
Proof.
  intros H. rewrite !sanitize_pipeline, !map_app, !filter_app. simpl.
  now rewrite H.
Qed.

(** X3, witness: U+00A0 between "a" and "b". *)
Lemma sanitize_ignores_non_ascii_witness :
  _sanitize_ascii (py "a" ++ 160 :: py "b") = py "ab".
Proof.
  etransitivity;
    [exact (@sanitize_ignores_non_ascii (py "a") (py "b") 160 eq_refl)|].
  reflexivity.
Defined.

Lemma canonical_no_visible_nil text :
  canonical text = true -> filter visible text = [] -> text = [].
Proof.
  unfold canonical. intros H Hv.
  apply andb_true_iff in H as [H _]. apply andb_true_iff in H as [Hasc Hws].
  destruct text as [|c r]; [reflexivity|]. exfalso.
  simpl in Hasc, Hws, Hv. apply andb_true_iff in Hasc as [Hc _].
  unfold visible in Hv. rewrite Hc in Hv. simpl in Hv.
  destruct (isspace c); simpl in *; [|discriminate].
  rewrite andb_false_r in Hws. discriminate.
Qed.

Lemma sanitize_invisible_nil text :
  forallb (fun c => negb (visible (unsmart c))) text = true ->
  _sanitize_ascii text = [].
Proof.
  intros H. apply canonical_no_visible_nil; [apply sanitize_canonical|].
  rewrite filter_visible_sanitize.
  induction text as [|c r IH]; simpl; [reflexivity|].
  simpl in H. apply andb_true_iff in H as [Hc Hr].
  apply negb_true_iff in Hc. rewrite Hc. auto.
Qed.

(** X4.  The sanitized text is empty exactly when the text shows nothing:
    every code point is whitespace or non-ASCII once the six typographic
    marks are read as ASCII. *)
Theorem sanitize_empty_iff (text : pystr) :
  _sanitize_ascii text = [] <->
  forallb (fun c => negb (visible (unsmart c))) text = true.
Proof.
  split; [|apply sanitize_invisible_nil].
  intros H. pose proof (filter_visible_sanitize text) as K. rewrite H in K.
  simpl in K. symmetry in K.
  apply forallb_forall. intros c Hc. apply negb_true_iff.
  destruct (visible (unsmart c)) eqn:E; [|reflexivity]. exfalso.
  assert (Hin : In (unsmart c) (filter visible (map unsmart text)))
    by (apply filter_In; split; [now apply in_map|exact E]).
  rewrite K in Hin. destruct Hin.
Qed.

End SanitizerMore.

(** ** [run_agent]: the stage rule and the backend's answer *)

Section GeneratorMore.
Import Agent AgentRun Visible.
Variable lower : pystr -> pystr.

Lemma opt_or_some_empty (s : pystr) : opt_or (Some s) [] = s.
Proof. unfold opt_or. destruct s; reflexivity. Qed.

Lemma run_agent_returns env text name :
  exists reply, run_agent lower env text name = Return (reply, rule_stage lower text).
Proof.
  destruct (run_agent_sanitizes lower env text name) as [raw H]. eauto.
Qed.


(** X5.  Whatever the backend does, [run_agent] returns "new" or
    "qualified", never "order" or "closed"; and "qualified" exactly when one
    of the eight keywords occurs in the lower-cased text. *)
Theorem run_agent_stage_values (env : environment) (text name : option pystr) :
  exists reply stage,
    run_agent lower env text name = Return (reply, stage) /\
    (stage = py "new" \/ stage = py "qualified") /\
    (stage = py "qualified" <->
     exists k, In k keywords /\ str_in k (lower (opt_or text [])) = true).
Proof.
  destruct (run_agent_returns env text name) as [reply H].
  exists reply, (rule_stage lower text). split; [exact H|].
  unfold rule_stage.
  destruct (existsb (fun k => str_in k (lower (opt_or text []))) keywords) eqn:E.
  - split; [now right|]. split; [|reflexivity].
    intros _. apply existsb_exists in E. exact E.
  - split; [now left|]. split; [discriminate|].
    intros (k & Hk & Hin). exfalso.
    assert (existsb (fun k => str_in k (lower (opt_or text []))) keywords = true)
      by (apply existsb_exists; eauto).
    congruence.
Qed.

(** X6.  The two keywords of the [/simulate] handler are keywords of the
    generator: a text that the handler moves to "qualified" is given
    "qualified" by [run_agent] as well, whatever the backend does. *)
Theorem handler_keywords_qualify_in_generator (p : Main.SimulateIn)
    (env : environment) (name : option pystr) :
  Inv.mentions_price lower p = true ->
  exists reply,
    run_agent lower env (Some (Main.text p)) name = Return (reply, py "qualified").
Proof.
  intros H. destruct (run_agent_returns env (Some (Main.text p)) name) as [reply R].
  exists reply. rewrite R. do 2 f_equal.
  unfold rule_stage. rewrite opt_or_some_empty.
  unfold Inv.mentions_price in H. unfold keywords. cbn [existsb].
  apply orb_true_iff in H as [H|H]; rewrite H; [reflexivity|].
  rewrite !orb_true_r. reflexivity.
Qed.



End GeneratorMore.

(** X6, witness. *)
Lemma handler_keywords_qualify_in_generator_witness :
  exists reply,
    AgentRun.run_agent ascii_lower Sample.timing_out
      (Some (Main.text Sample2.ask_rate)) None
    = Return (reply, py "qualified").
Proof.
  apply (@handler_keywords_qualify_in_generator ascii_lower Sample2.ask_rate
           Sample.timing_out None).
  reflexivity.
Defined.



(** ** The channel router, beyond JSON objects *)

Section RouterMore.
Import MetaRouter.

Lemma eq_str_true v s : eq_str v s = true <-> v = VStr s.
Proof.
  unfold eq_str. destruct v; split; try discriminate.
  - intros H. apply pystr_eqb_eq in H. now subst.
  - intros H. inversion H. apply pystr_eqb_refl.
Qed.

Lemma extract_routing_key_dict items :
  extract_routing_key (VDict items)
  = Return (or_none (routing_key_spec (VDict items))).
Proof.
  unfold extract_routing_key, routing_key_spec, is_whatsapp.
  rewrite detect_channel_dict. cbn [res_bind field].
  destruct (lookup (py "object") items) as [obj|].
  - destruct (eq_str obj (py "whatsapp_business_account")).
    + change (pystr_eqb (py "whatsapp") (py "whatsapp")) with true.
      cbv iota. apply whatsapp_walk.
    + assert (Hno : pystr_eqb
                (if eq_str obj (py "page") then py "messenger"
                 else if eq_str obj (py "instagram") then py "instagram"
                 else py "unknown") (py "whatsapp") = false).
      { destruct (eq_str obj (py "page")); [reflexivity|].
        destruct (eq_str obj (py "instagram")); reflexivity. }
      rewrite Hno. apply other_walk.
  - change (pystr_eqb (py "unknown") (py "whatsapp")) with false.
    cbv iota. apply other_walk.
Qed.

(** X9.  [detect_channel] on a JSON object never raises and names one of
    four channels; each of the three known ones exactly for its value of
    the "object" field, as a string. *)
Theorem detect_channel_kinds (items : list (pystr * value)) :
  exists kind,
    detect_channel (VDict items) = Return kind /\
    In kind [py "whatsapp"; py "messenger"; py "instagram"; py "unknown"] /\
    (kind = py "whatsapp" <->
     lookup (py "object") items = Some (VStr (py "whatsapp_business_account"))) /\
    (kind = py "messenger" <->
     lookup (py "object") items = Some (VStr (py "page"))) /\
    (kind = py "instagram" <->
     lookup (py "object") items = Some (VStr (py "instagram"))).
Proof.
  rewrite detect_channel_dict. eexists. split; [reflexivity|].
  destruct (lookup (py "object") items) as [obj|].
  2:{ simpl. repeat split; try discriminate; auto. }
  destruct (eq_str obj (py "whatsapp_business_account")) eqn:E1.
  { apply eq_str_true in E1. subst obj. simpl.
    repeat split; try discriminate; auto. }
  destruct (eq_str obj (py "page")) eqn:E2.
  { apply eq_str_true in E2. subst obj. simpl.
    repeat split; try discriminate; auto. }
  destruct (eq_str obj (py "instagram")) eqn:E3.
  { apply eq_str_true in E3. subst obj. simpl.
    repeat split; try discriminate; auto. }
  simpl. repeat split; try discriminate; auto 6;
    intros H; inversion H; subst obj;
    rewrite ?pystr_eqb_refl in *; simpl in *; discriminate.
Qed.

(** X10.  The router raises exactly on a payload that is not a JSON
    object: then [detect_channel] and [extract_routing_key] both end in the
    [AttributeError] of [payload.get]; on an object neither raises. *)
Theorem router_raises_iff_not_object (payload : value) :
  ((exists e, extract_routing_key payload = Raise e) <->
   (forall items, payload <> VDict items)) /\
  ((forall items, payload <> VDict items) ->
   detect_channel payload = Raise AttributeError /\
   extract_routing_key payload = Raise AttributeError).
Proof.
  assert (H : (forall items, payload <> VDict items) ->
              detect_channel payload = Raise AttributeError /\
              extract_routing_key payload = Raise AttributeError).
  { intros Hn. destruct payload; try (split; reflexivity).
    exfalso. eapply Hn. reflexivity. }
  split; [|exact H]. split.
  - intros [e He] items ->. rewrite extract_routing_key_dict in He. discriminate.
  - intros Hn. exists AttributeError. now apply H.
Qed.

Lemma lookup_other_key key k v v' a b :
  k <> key ->
  lookup key (a ++ (k, v) :: b) = lookup key (a ++ (k, v') :: b).
Proof.
  intros Hk. induction a as [|[k0 v0] a IH]; simpl.
  - destruct (pystr_eqb k key) eqn:E; [|reflexivity].
    apply pystr_eqb_eq in E. contradiction.
  - destruct (pystr_eqb k0 key); [reflexivity|exact IH].
Qed.

Lemma lookup_this_key k v a b :
  lookup k (a ++ (k, v) :: b)
  = match lookup k a with Some x => Some x | None => Some v end.
Proof.
  induction a as [|[k0 v0] a IH]; simpl.
  - now rewrite pystr_eqb_refl.
  - destruct (pystr_eqb k0 k); [reflexivity|exact IH].
Qed.

(** X11.  Only the first entry is consulted: two payloads that differ in
    the entries after the first one have the same routing key. *)
Theorem routing_key_reads_first_entry_only
    (before after : list (pystr * value)) (entry : value) (rest rest' : list value) :
  extract_routing_key
    (VDict (before ++ (py "entry", VList (entry :: rest)) :: after))
  = extract_routing_key
      (VDict (before ++ (py "entry", VList (entry :: rest')) :: after)).
Proof.
  rewrite !extract_routing_key_dict. f_equal. f_equal.
  unfold routing_key_spec, is_whatsapp, field.
  rewrite (@lookup_other_key (py "object") (py "entry")
             (VList (entry :: rest)) (VList (entry :: rest')) before after)
    by discriminate.
  rewrite !lookup_this_key.
  destruct (lookup (py "entry") before); reflexivity.
Qed.

(** X12.  A payload of the expected shape gives its key: the
    phone_number_id under entry[0].changes[0].value.metadata when "object"
    is "whatsapp_business_account", and the id of entry[0] for every other
    value of "object", recognised or not. *)
Theorem routing_key_of_well_formed (items : list (pystr * value)) :
  (forall entry rest change more value_items meta_items key,
     lookup (py "object") items = Some (VStr (py "whatsapp_business_account")) ->
     lookup (py "entry") items = Some (VList (VDict entry :: rest)) ->
     lookup (py "changes") entry = Some (VList (VDict change :: more)) ->
     lookup (py "value") change = Some (VDict value_items) ->
     lookup (py "metadata") value_items = Some (VDict meta_items) ->
     lookup (py "phone_number_id") meta_items = Some key ->
     extract_routing_key (VDict items) = Return key) /\
  (forall entry rest key,
     lookup (py "object") items <> Some (VStr (py "whatsapp_business_account")) ->
     lookup (py "entry") items = Some (VList (VDict entry :: rest)) ->
     lookup (py "id") entry = Some key ->
     extract_routing_key (VDict items) = Return key).
Proof.
  split.
  - intros entry rest change more value_items meta_items key
      Ho He Hc Hv Hm Hk.
    rewrite extract_routing_key_dict.
    unfold routing_key_spec, is_whatsapp, field. rewrite Ho. simpl.
    rewrite He. simpl. rewrite Hc. simpl. rewrite Hv. simpl. rewrite Hm. simpl.
    rewrite Hk. reflexivity.
  - intros entry rest key Ho He Hk.
    rewrite extract_routing_key_dict.
    unfold routing_key_spec, is_whatsapp, field.
    destruct (lookup (py "object") items) as [obj|] eqn:E.
    + destruct (eq_str obj (py "whatsapp_business_account")) eqn:E1.
      * apply eq_str_true in E1. subst obj. contradiction.
      * rewrite He. simpl. rewrite Hk. reflexivity.
    + rewrite He. simpl. rewrite Hk. reflexivity.
Qed.

End RouterMore.

(** ** The handler: what a request changes and what it leaves *)

Section HandlerMore.
Import Main Inv Frame.
Variable lower : pystr -> pystr.
Variable fault : commit_site -> bool.

Lemma map_fixed {A} (g : A -> A) (l : list A) :
  (forall x, In x l -> g x = x) -> map g l = l.
Proof.
  intros H. induction l as [|a r IH]; simpl; [reflexivity|].
  rewrite H by now left. f_equal. apply IH. intros x Hx. apply H. now right.
Qed.

Lemma contact_block_known t p db c0 c db1 :
  find_contact t p db = Some c0 ->
  find_or_create_contact fault t p db = (Return c, db1) ->
  (opt_truthy (contact_name p) && negb (opt_truthy (Contact.contact_name c0)) = true /\
   c = Contact.with_contact_name (contact_name p) c0 /\
   db1 = update_contact_name (Contact.id c0) (contact_name p) db)
  \/
  (opt_truthy (contact_name p) && negb (opt_truthy (Contact.contact_name c0)) = false /\
   c = c0 /\ db1 = db).
Proof.
  intros Hf. unfold find_or_create_contact, bind, query, ret. rewrite Hf.
  destruct (opt_truthy (contact_name p) && negb (opt_truthy (Contact.contact_name c0))).
  - unfold commit. destruct (fault CommitContact); [discriminate|].
    intros H. inversion H. auto.
  - intros H. inversion H. auto.
Qed.

(** X13.  The name of a known contact is filled in at most once: a request
    for a contact that has a non-empty name, or that brings no name, leaves
    the contacts table as it is; a request that brings a name for a contact
    without one returns the contact with that name.  Nothing else of any
    contact changes. *)
Theorem contact_name_backfilled_once (p : SimulateIn) (user : User.t) (t : Z)
    (db : DB) (c0 : Contact.t) (l : Locals) (db' : DB) :
  User.tenant_id user = Some t ->
  find_contact t p db = Some c0 ->
  simulate_body lower fault p user db = (Return l, db') ->
  unnamed (l_contact l) = unnamed c0 /\
  Contact.contact_name (l_contact l) =
    (if opt_truthy (Contact.contact_name c0) then Contact.contact_name c0
     else if opt_truthy (contact_name p) then contact_name p
     else Contact.contact_name c0) /\
  (opt_truthy (Contact.contact_name c0) = true \/ opt_truthy (contact_name p) = false ->
   contacts db' = contacts db) /\
  map unnamed (contacts db') = map unnamed (contacts db).
Proof.
  intros Ht Hf H. apply simulate_body_return in H
    as (t' & db1 & db2 & d & db3 & db4 & Ht' & Hc & -> & Hd & _ & _ & -> & ->).
  assert (t' = t) by congruence. subst t'.
  apply deal_block in Hd as (Hcs & _). simpl in Hcs. simpl. rewrite Hcs.
  destruct (contact_block_known _ _ _ Hf Hc) as [(Hcond & -> & ->)|(Hcond & -> & ->)].
  - apply andb_true_iff in Hcond as [Hp Hc0]. apply negb_true_iff in Hc0.
    rewrite Hc0, Hp. repeat split; auto.
    + intros [E|E]; congruence.
    + unfold update_contact_name. simpl. rewrite map_map. apply map_ext.
      intros x. destruct (Z.eqb _ _); reflexivity.
  - repeat split; auto.
    destruct (opt_truthy (Contact.contact_name c0)); [reflexivity|].
    rewrite andb_true_r in Hcond. now rewrite Hcond.
Qed.

Lemma filter_none {A} (P : A -> bool) (l : list A) :
  (forall x, In x l -> P x = false) -> filter P l = [].
Proof.
  intros H. induction l as [|a r IH]; simpl; [reflexivity|].
  rewrite H by now left. apply IH. intros x Hx. apply H. now right.
Qed.

Lemma simulate_return p user db r db' :
  simulate lower fault p user db = (Return r, db') ->
  exists l, simulate_body lower fault p user db = (Return l, db') /\ r = response_of l.
Proof.
  unfold simulate. intros H. apply bind_return in H as (l & d1 & Hb & H).
  unfold ret in H. inversion H; subst. eauto.
Qed.

(** X14.  The first message of an unknown identity, when no stored deal
    refers to a contact that does not exist: the request adds exactly one
    contact (with the phone set for whatsapp only), one open deal of that
    contact, at "qualified" when the text has "price" or "rate" and at "new"
    otherwise, and the two messages; every stored row stays as it was. *)
Theorem first_message_of_new_identity (p : SimulateIn) (user : User.t) (t : Z)
    (db : DB) (l : Locals) (db' : DB) :
  User.tenant_id user = Some t ->
  find_contact t p db = None ->
  deals_refer_to_contacts db ->
  simulate_body lower fault p user db = (Return l, db') ->
  let c := Contact.mk (next_id (map Contact.id (contacts db))) t (channel p)
             (channel_user_id p) (contact_name p)
             (if pystr_eqb (channel p) (py "whatsapp")
              then Some (channel_user_id p) else None) None in
  let d := Deal.mk (next_id (map Deal.id (deals db))) t (Contact.id c)
             (if mentions_price lower p then py "qualified" else py "new")
             (py "open") None None None in
  l_contact l = c /\ l_deal l = d /\
  contacts db' = contacts db ++ [c] /\
  deals db' = deals db ++ [d] /\
  messages db' = messages db ++
    [Message.mk (next_id (map Message.id (messages db))) t (Contact.id c)
                (channel p) (py "in") (text p);
     Message.mk (next_id (map Message.id (messages db)) + 1) t (Contact.id c)
                (channel p) (py "out") (l_reply l)].
Proof.
  intros Ht Hf Hfk H. cbv zeta. apply simulate_body_return in H
    as (t' & db1 & db2 & d & db3 & db4 & Ht' & Hc & -> & Hd & Hr & Hl & -> & ->).
  assert (t' = t) by congruence. subst t'.
  apply contact_block in Hc as (Hds & Hms & _ & _ & Hcase).
  destruct Hcase as [(_ & Hnew & ->)|[(c & Hs & _)|(c & Hs & _)]]; try congruence.
  rewrite <- Hnew.
  assert (Hnone : find_open_deal t (Contact.id (l_contact l))
                    (insert_message
                       (Message.mk (next_id (map Message.id (messages (insert_contact (l_contact l) db))))
                          t (Contact.id (l_contact l)) (channel p) (py "in") (text p))
                       (insert_contact (l_contact l) db)) = None).
  { unfold find_open_deal. simpl. rewrite filter_none; [reflexivity|].
    intros x Hx. destruct (deal_matches t (Contact.id (l_contact l)) x) eqn:E;
      [|reflexivity].
    exfalso. apply deal_matches_key in E as (_ & E & _).
    apply Hfk in Hx. rewrite E in Hx. apply next_id_fresh in Hx.
    rewrite Hnew in Hx. simpl in Hx. lia. }
  apply deal_block in Hd as (_ & _ & _ & _ & Hcase).
  destruct Hcase as [(Hs & _)|(_ & Hd & ->)]; [congruence|].
  simpl in Hd.
  assert (Hstage : staged lower p d =
            Deal.mk (next_id (map Deal.id (deals db))) t (Contact.id (l_contact l))
              (if mentions_price lower p then py "qualified" else py "new")
              (py "open") None None None).
  { rewrite Hd. unfold staged. simpl. destruct (mentions_price lower p); reflexivity. }
  split; [reflexivity|]. split; [congruence|]. split; [reflexivity|]. split.
  - simpl. rewrite map_app. simpl. rewrite Z.eqb_refl. f_equal.
    + apply map_fixed. intros x Hx.
      destruct (Z.eqb_spec (Deal.id x) (Deal.id d)) as [E|E]; [|reflexivity].
      exfalso. apply (in_map Deal.id) in Hx. apply next_id_fresh in Hx.
      rewrite Hd in E. simpl in E. lia.
    + f_equal. rewrite <- Hstage. unfold staged. reflexivity.
  - simpl. rewrite <- app_assoc. simpl. rewrite map_app. simpl.
    now rewrite next_id_snoc.
Qed.

(** X15.  The response reports what is stored: after a completed request
    the lookups of the handler find the contact and its open deal, whose
    stage is the stage of the response, and the last message of the ledger
    is the outbound one with the reply of the response. *)
Theorem response_reports_store (p : SimulateIn) (user : User.t) (db : DB)
    (r : Response) (db' : DB) :
  simulate lower fault p user db = (Return r, db') ->
  ok r = true /\
  exists t c d earlier m,
    User.tenant_id user = Some t /\
    find_contact t p db' = Some c /\
    find_open_deal t (Contact.id c) db' = Some d /\
    Deal.stage d = stage r /\
    messages db' = earlier ++ [m] /\
    Message.direction m = py "out" /\
    Message.text m = reply r /\
    Message.contact_id m = Contact.id c.
Proof.
  intros H. apply simulate_return in H as (l & H & ->). split; [reflexivity|].
  pose proof H as R. apply run_resolved in R as (t & Ht & _ & _ & Hfc & Hfd).
  apply simulate_body_return in H
    as (t' & db1 & db2 & d & db3 & db4 & Ht' & _ & _ & _ & _ & _ & _ & ->).
  assert (t' = t) by congruence. subst t'.
  exists t, (l_contact l), (l_deal l). eexists. eexists.
  split; [exact Ht|]. split; [exact Hfc|]. split; [exact Hfd|].
  split; [reflexivity|]. split; [reflexivity|]. auto.
Qed.

(** X16.  Rows other than the contact and the deal of the request are
    stored as they were. *)
Theorem other_rows_untouched (p : SimulateIn) (user : User.t) (db : DB)
    (l : Locals) (db' : DB) :
  simulate_body lower fault p user db = (Return l, db') ->
  (forall c, In c (contacts db) -> Contact.id c <> Contact.id (l_contact l) ->
             In c (contacts db')) /\
  (forall d, In d (deals db) -> Deal.id d <> Deal.id (l_deal l) ->
             In d (deals db')) /\
  (forall m, In m (messages db) -> In m (messages db')).
Proof.
  intros H. apply simulate_body_return in H
    as (t & db1 & db2 & d & db3 & db4 & Ht & Hc & -> & Hd & Hr & Hl & -> & ->).
  apply contact_block in Hc as (Hds & Hms & _ & _ & Hcase).
  apply deal_block in Hd as (Hcs & Hms3 & _ & _ & Hcase').
  simpl in *. split; [|split].
  - intros c Hin Hne. rewrite Hcs.
    destruct Hcase as [(_ & _ & ->)|[(c0 & _ & _ & ->)|(c0 & _ & _ & _ & Hl0 & ->)]].
    + simpl. apply in_or_app. now left.
    + exact Hin.
    + simpl. apply in_map_iff. exists c. split; [|exact Hin].
      rewrite Hl0 in Hne. simpl in Hne.
      destruct (Z.eqb_spec (Contact.id c) (Contact.id c0)); [contradiction|reflexivity].
  - intros x Hin Hne. apply in_map_iff. exists x.
    rewrite Hl in Hne. simpl in Hne. split.
    + destruct (Z.eqb_spec (Deal.id x) (Deal.id d)); [contradiction|reflexivity].
    + destruct Hcase' as [(_ & ->)|(_ & _ & ->)]; simpl.
      * now rewrite Hds in *.
      * apply in_or_app. left. now rewrite Hds in *.
  - intros m Hin. apply in_or_app. left. rewrite Hms3. apply in_or_app. left.
    now rewrite Hms.
Qed.

(** X17.  A message without "price" or "rate" for a known contact that
    has a name and an open deal with a stage writes to the ledger only:
    contacts and deals are stored exactly as before. *)
Theorem keyword_free_message_writes_ledger_only (p : SimulateIn) (user : User.t)
    (t : Z) (db : DB) (c0 : Contact.t) (d0 : Deal.t) (l : Locals) (db' : DB) :
  User.tenant_id user = Some t ->
  primary_keys db ->
  find_contact t p db = Some c0 ->
  opt_truthy (Contact.contact_name c0) = true ->
  find_open_deal t (Contact.id c0) db = Some d0 ->
  str_truthy (Deal.stage d0) = true ->
  mentions_price lower p = false ->
  simulate_body lower fault p user db = (Return l, db') ->
  l_contact l = c0 /\ l_deal l = d0 /\
  contacts db' = contacts db /\ deals db' = deals db /\
  l_reply l = reply_thanks.
Proof.
  intros Ht [_ Hpk] Hfc Hname Hfd Hst Hkw H. apply simulate_body_return in H
    as (t' & db1 & db2 & d & db3 & db4 & Ht' & Hc & -> & Hd & Hr & Hl & -> & ->).
  assert (t' = t) by congruence. subst t'.
  destruct (contact_block_known _ _ _ Hfc Hc) as [(Hcond & _)|(_ & Hc0 & ->)].
  { rewrite Hname, andb_false_r in Hcond. discriminate. }
  apply deal_block in Hd as (_ & _ & _ & _ & Hcase). rewrite Hc0 in Hcase.
  rewrite find_open_deal_same_deals with (db2 := db) in Hcase by reflexivity.
  destruct Hcase as [(Hs & ->)|(Hn & _)]; [|congruence].
  assert (d = d0) by congruence. subst d.
  assert (Hsame : staged lower p d0 = d0).
  { unfold staged. rewrite Hkw, Hst. now destruct d0. }
  rewrite Hsame in *. rewrite Hkw in Hr.
  repeat split; auto. simpl.
  apply map_fixed. intros x Hx.
  destruct (Z.eqb_spec (Deal.id x) (Deal.id d0)) as [E|E]; [|reflexivity].
  apply find_open_deal_found in Hfd as (_ & Hin & _).
  assert (x = d0) by (eapply NoDup_map_eq; eauto). subst x. now destruct d0.
Qed.

End HandlerMore.

Section AppendOnly.
Import Main Inv Frame.
Variable lower : pystr -> pystr.
Variable fault : commit_site -> bool.

Lemma contact_block_adds t p db c s1 :
  find_or_create_contact no_fault t p db = (Return c, s1) ->
  deals s1 = deals db /\ messages s1 = messages db /\
  exists cs, (List.length cs <= 1)%nat /\
             map unnamed (contacts s1) = map unnamed (contacts db) ++ cs.
Proof.
  intros H. apply contact_block in H as (Hd & Hm & _ & _ & Hcase).
  split; [exact Hd|]. split; [exact Hm|].
  destruct Hcase as [(_ & _ & ->)|[(c0 & _ & _ & ->)|(c0 & _ & _ & _ & _ & ->)]].
  - exists [unnamed c]. split; [simpl; lia|]. simpl. now rewrite map_app.
  - exists []. split; [simpl; lia|]. now rewrite app_nil_r.
  - exists []. split; [simpl; lia|]. rewrite app_nil_r. simpl.
    rewrite map_map. apply map_ext. intros x. destruct (Z.eqb _ _); reflexivity.
Qed.

Lemma deal_block_adds t c db d s3 :
  find_or_create_deal no_fault t c db = (Return d, s3) ->
  contacts s3 = contacts db /\ messages s3 = messages db /\
  exists ds, (List.length ds <= 1)%nat /\
             map unstaged (deals s3) = map unstaged (deals db) ++ ds.
Proof.
  intros H. apply deal_block in H as (Hc & Hm & _ & _ & Hcase).
  split; [exact Hc|]. split; [exact Hm|].
  destruct Hcase as [(_ & ->)|(_ & _ & ->)].
  - exists []. split; [simpl; lia|]. now rewrite app_nil_r.
  - exists [unstaged d]. split; [simpl; lia|]. simpl. now rewrite map_app.
Qed.

Lemma unstaged_update i s db :
  map unstaged (deals (update_deal_stage i s db)) = map unstaged (deals db).
Proof.
  simpl. rewrite map_map. apply map_ext. intros x.
  destruct (Z.eqb _ _); reflexivity.
Qed.

(** X18.  The handler only ever adds rows.  Whatever the outcome of a
    request, failed commits included, the store holds every row it held,
    changed at most in a contact's name or a deal's stage, followed by at
    most one new contact, one new deal and two new messages. *)
Theorem handler_only_adds_rows (p : SimulateIn) (user : User.t) (db : DB) :
  exists cs ds ms,
    (List.length cs <= 1)%nat /\ (List.length ds <= 1)%nat /\
    (List.length ms <= 2)%nat /\
    map unnamed (contacts (snd (simulate_body lower fault p user db)))
      = map unnamed (contacts db) ++ cs /\
    map unstaged (deals (snd (simulate_body lower fault p user db)))
      = map unstaged (deals db) ++ ds /\
    messages (snd (simulate_body lower fault p user db)) = messages db ++ ms.
Proof.
  destruct (User.tenant_id user) as [t|] eqn:Ht.
  2:{ exists [], [], []. unfold simulate_body. rewrite Ht. simpl.
      rewrite !app_nil_r. repeat split; auto. }
  destruct (simulate_body_cascade lower fault p user db Ht)
    as (c & s1 & s2 & d & s3 & s4 & s5 & Hc & E2 & Hd & E4 & E5 & ->).
  apply contact_block_adds in Hc as (D1 & M1 & cs & Lc & C1).
  apply deal_block_adds in Hd as (C3 & M3 & ds & Ld & D3).
  assert (C2 : contacts s2 = contacts s1) by (subst s2; reflexivity).
  assert (D2 : deals s2 = deals s1) by (subst s2; reflexivity).
  assert (M2 : messages s2 = messages db ++ [inbound_row t c p s1])
    by (subst s2; simpl; now rewrite M1).
  assert (C4 : contacts s4 = contacts s3) by (subst s4; reflexivity).
  assert (D4 : map unstaged (deals s4) = map unstaged (deals s3))
    by (subst s4; apply unstaged_update).
  assert (M4 : messages s4 = messages s3) by (subst s4; reflexivity).
  assert (C5 : contacts s5 = contacts s4) by (subst s5; reflexivity).
  assert (D5 : deals s5 = deals s4) by (subst s5; reflexivity).
  assert (M5 : messages s5 = messages db ++ [inbound_row t c p s1; outbound_row lower t c p s4]).
  { subst s5. simpl. rewrite M4, M3, M2, <- app_assoc. reflexivity. }
  destruct (contact_commits t p db && fault CommitContact).
  { exists [], [], []. simpl. rewrite !app_nil_r. repeat split; auto. }
  destruct (fault CommitInbound).
  { exists cs, [], []. simpl. rewrite D1, M1, !app_nil_r. repeat split; auto. }
  destruct (deal_commits t (Contact.id c) s2 && fault CommitDeal).
  { exists cs, [], [inbound_row t c p s1]. simpl.
    rewrite C2, D2, D1, M2, !app_nil_r. repeat split; auto. }
  destruct (fault CommitStage).
  { exists cs, ds, [inbound_row t c p s1]. simpl.
    rewrite C3, C2, D3, D2, D1, M3, M2. repeat split; auto. }
  destruct (fault CommitOutbound).
  { exists cs, ds, [inbound_row t c p s1]. simpl.
    rewrite C4, C3, C2, D4, D3, D2, D1, M4, M3, M2. repeat split; auto. }
  exists cs, ds, [inbound_row t c p s1; outbound_row lower t c p s4]. simpl.
  rewrite C5, C4, C3, C2, D5, D4, D3, D2, D1, M5. repeat split; auto.
Qed.

End AppendOnly.

(** ** The further properties on concrete requests *)

(** X12, witness. *)
Lemma routing_key_of_well_formed_witness :
  MetaRouter.extract_routing_key (MetaRouter.VDict Sample2.whatsapp_body)
  = Return (MetaRouter.VStr (py "106540352242922")).
Proof.
  eapply (proj1 (routing_key_of_well_formed Sample2.whatsapp_body));
    reflexivity.
Defined.

(** X13, witness: "ok" with a name, for the contact stored without one. *)
Lemma contact_name_backfilled_once_witness :
  exists l db',
    Main.simulate_body ascii_lower no_fault Sample2.named_ok Sample.shop_admin
      Sample.db_qualified = (Return l, db') /\
    Contact.contact_name (Main.l_contact l) = Some (py "Sana") /\
    map Frame.unnamed (contacts db') = map Frame.unnamed (contacts Sample.db_qualified).
Proof.
  eexists. eexists. split; [vm_compute; reflexivity|].
  edestruct (@contact_name_backfilled_once ascii_lower no_fault Sample2.named_ok
               Sample.shop_admin 1%Z Sample.db_qualified Sample2.the_contact)
    as (_ & Hn & _ & Hrest);
    [reflexivity|vm_compute; reflexivity|vm_compute; reflexivity|].
  split; [exact Hn|exact Hrest].
Defined.

(** X14, witness: the price question on the empty store. *)
Lemma first_message_of_new_identity_witness :
  exists l db',
    Main.simulate_body ascii_lower no_fault Sample.ask_price Sample.shop_admin
      Sample.empty_db = (Return l, db') /\
    contacts db' = [Sample2.the_contact] /\
    deals db' = [Sample2.the_deal].
Proof.
  eexists. eexists. split; [vm_compute; reflexivity|].
  edestruct (@first_message_of_new_identity ascii_lower no_fault Sample.ask_price
               Sample.shop_admin 1%Z Sample.empty_db)
    as (_ & _ & Hc & Hd & _);
    [reflexivity|reflexivity|intros d []|vm_compute; reflexivity|].
  split; [exact Hc|exact Hd].
Defined.

(** X15, witness. *)
Lemma response_reports_store_witness :
  exists r db',
    Main.simulate ascii_lower no_fault Sample.say_ok Sample.shop_admin
      Sample.db_qualified = (Return r, db') /\
    Main.ok r = true /\
    exists t c d earlier m,
      User.tenant_id Sample.shop_admin = Some t /\
      Main.find_contact t Sample.say_ok db' = Some c /\
      Main.find_open_deal t (Contact.id c) db' = Some d /\
      Deal.stage d = Main.stage r /\
      messages db' = earlier ++ [m] /\
      Message.direction m = py "out" /\
      Message.text m = Main.reply r /\
      Message.contact_id m = Contact.id c.
Proof.
  eexists. eexists. split; [vm_compute; reflexivity|].
  apply (@response_reports_store ascii_lower no_fault Sample.say_ok
           Sample.shop_admin Sample.db_qualified).
  vm_compute. reflexivity.
Defined.

(** X16, witness: a new identity writes to a store that has rows. *)
Lemma other_rows_untouched_witness :
  exists l db',
    Main.simulate_body ascii_lower no_fault Sample2.ask_rate Sample.shop_admin
      Sample.db_qualified = (Return l, db') /\
    In Sample2.the_contact (contacts db') /\
    In Sample2.the_deal (deals db').
Proof.
  eexists. eexists. split; [vm_compute; reflexivity|].
  edestruct (@other_rows_untouched ascii_lower no_fault Sample2.ask_rate
               Sample.shop_admin Sample.db_qualified)
    as (Hc & Hd & _); [vm_compute; reflexivity|].
  split.
  - apply Hc; [now left|discriminate].
  - apply Hd; [now left|discriminate].
Defined.

(** X17, witness: "ok" for the named contact with its deal at "qualified". *)
Lemma keyword_free_message_writes_ledger_only_witness :
  exists l db',
    Main.simulate_body ascii_lower no_fault Sample.say_ok Sample.shop_admin
      Sample2.db_named = (Return l, db') /\
    contacts db' = contacts Sample2.db_named /\
    deals db' = deals Sample2.db_named.
Proof.
  eexists. eexists. split; [vm_compute; reflexivity|].
  edestruct (@keyword_free_message_writes_ledger_only ascii_lower no_fault
               Sample.say_ok Sample.shop_admin 1%Z Sample2.db_named
               (Contact.with_contact_name (Some (py "Sana")) Sample2.the_contact)
               Sample2.the_deal)
    as (_ & _ & Hc & Hd & _);
    [reflexivity|split; repeat constructor; simpl; tauto
    |vm_compute; reflexivity|reflexivity|vm_compute; reflexivity
    |reflexivity|vm_compute; reflexivity|vm_compute; reflexivity|].
  split; [exact Hc|exact Hd].
Defined.

(** ** One-time codes as text *)

Section Codes.
Import Auth.

Lemma read_decimal_snoc s c :
  read_decimal (s ++ [c]) = 10 * read_decimal s + (c - DIGIT0).
Proof. unfold read_decimal. now rewrite fold_left_app. Qed.

Lemma read_decimal_zeros k s :
  read_decimal (repeat DIGIT0 k ++ s) = read_decimal s.
Proof.
  unfold read_decimal. rewrite fold_left_app. f_equal.
  induction k as [|k IH]; simpl; [reflexivity|]. exact IH.
Qed.

Lemma decimal_fuel_reads fuel n :
  n < 2 ^ N.of_nat fuel -> read_decimal (decimal_fuel fuel n) = n.
Proof.
  revert n. induction fuel as [|fuel IH]; intros n Hn.
  - simpl in Hn. assert (n = 0) by lia. subst. reflexivity.
  - cbn [decimal_fuel]. destruct (N.ltb_spec n 10) as [Hlt|Hge].
    + unfold read_decimal. cbn [fold_left]. unfold DIGIT0. lia.
    + rewrite read_decimal_snoc, IH.
      * unfold DIGIT0. rewrite (N.add_comm 48), N.add_sub.
        symmetry. apply N.div_mod'.
      * rewrite Nat2N.inj_succ, N.pow_succ_r' in Hn.
        apply N.Div0.div_lt_upper_bound; lia.
Qed.

Lemma decimal_reads n : read_decimal (decimal n) = n.
Proof.
  unfold decimal. apply decimal_fuel_reads.
  rewrite Nat2N.inj_succ, N2Nat.id, N.pow_succ_r'.
  pose proof (N.size_gt n). lia.
Qed.

Lemma decimal_fuel_length fuel k n :
  n < 10 ^ N.of_nat (S k) -> (List.length (decimal_fuel fuel n) <= S k)%nat.
Proof.
  revert k n. induction fuel as [|fuel IH]; intros k n Hn; [simpl; lia|].
  cbn [decimal_fuel]. destruct (N.ltb_spec n 10) as [Hlt|Hge]; [simpl; lia|].
  rewrite length_app. simpl.
  destruct k as [|k].
  - simpl in Hn. lia.
  - assert (List.length (decimal_fuel fuel (n / 10)) <= S k)%nat; [|lia].
    apply IH. rewrite Nat2N.inj_succ, N.pow_succ_r' in Hn.
    apply N.Div0.div_lt_upper_bound; lia.
Qed.

Lemma decimal_fuel_digits fuel n :
  Forall (fun c => 48 <= c <= 57) (decimal_fuel fuel n).
Proof.
  revert n. induction fuel as [|fuel IH]; intros n; [constructor|].
  cbn [decimal_fuel]. destruct (N.ltb_spec n 10) as [Hlt|Hge].
  - constructor; [unfold DIGIT0; lia|constructor].
  - apply Forall_app. split; [apply IH|].
    constructor; [|constructor]. unfold DIGIT0.
    assert (Hm : n mod 10 < 10) by (apply N.mod_lt; discriminate).
    set (m := n mod 10) in *. lia.
Qed.

(** X19.  A one-time code is always six decimal digits, and it reads back
    as the number it was drawn from: numbers from 0 to 999999 give
    different codes. *)
Theorem otp_code_is_six_digits (n : N) :
  n <= 999999 ->
  List.length (generate_otp_code n) = 6%nat /\
  Forall (fun c => 48 <= c <= 57) (generate_otp_code n) /\
  read_decimal (generate_otp_code n) = n.
Proof.
  intros Hn. unfold generate_otp_code, format_06d.
  assert (Hlen : (List.length (decimal n) <= 6)%nat).
  { unfold decimal. apply (@decimal_fuel_length _ 5%nat n).
    change (10 ^ N.of_nat 6) with 1000000. lia. }
  split; [|split].
  - rewrite length_app, repeat_length. lia.
  - apply Forall_app. split.
    + apply Forall_forall. intros c Hc. apply repeat_spec in Hc. subst.
      unfold DIGIT0. lia.
    + apply decimal_fuel_digits.
  - rewrite read_decimal_zeros. apply decimal_reads.
Qed.

(** X19, witness. *)
Lemma otp_code_is_six_digits_witness :
  List.length (generate_otp_code 42) = 6%nat /\
  Forall (fun c => 48 <= c <= 57) (generate_otp_code 42) /\
  read_decimal (generate_otp_code 42) = 42.
Proof. apply (@otp_code_is_six_digits 42). vm_compute. discriminate. Defined.

End Codes.

(** ** The account handlers *)

Section AccountFacts.
Import Auth AuthInv.
Variable settings : Settings.
Variable hashpw : pystr -> pystr -> res pystr.
Variable checkpw : pystr -> pystr -> res bool.
Variable jwt_encode : Claims -> pystr.

Lemma user_by_email_none email w :
  user_by_email email w = None -> email_free email w = true.
Proof.
  unfold user_by_email, email_free. intros H. apply negb_true_iff.
  destruct (existsb _ _) eqn:E; [|reflexivity].
  apply existsb_exists in E as (u & Hin & Hu).
  pose proof (find_none _ _ H _ Hin) as Hn. simpl in Hn. congruence.
Qed.

Lemma user_by_email_some email w u :
  user_by_email email w = Some u -> In u (users w) /\ Account.email u = email.
Proof.
  unfold user_by_email. intros H. apply find_some in H as [Hin He].
  split; [exact Hin|]. now apply pystr_eqb_eq.
Qed.

(** A [register] that goes through, step by step. *)
Lemma register_success now chance payload w h_pw h_e h_p :
  user_by_email (r_email payload) w = None ->
  tenant_name_free (company_name payload) w = true ->
  hashpw (r_password payload) (password_salt chance) = Return h_pw ->
  hashpw (generate_otp_code (email_number chance)) (email_salt chance) = Return h_e ->
  hashpw (generate_otp_code (phone_number chance)) (phone_salt chance) = Return h_p ->
  register settings hashpw now chance payload w
  = (Return (Build_RegisterOut true (next_id (map Tenant.id (tenants w)))
               (next_id (map Account.id (users w))) (py "pending")),
     registered settings now chance payload h_pw h_e h_p w).
Proof.
  intros Hnone Hname Hpw He Hp.
  pose proof (user_by_email_none _ _ Hnone) as Hfree.
  unfold register, wbind, wquery, wcommit, wlift, print, wret, hash_password.
  rewrite Hnone. cbn -[generate_otp_code next_id lit]. rewrite Hname, Hpw.
  unfold email_free in *. cbn -[generate_otp_code next_id lit].
  rewrite Hfree, He, Hp.
  unfold registered, mock_delivery, new_tenant, new_user, new_email_otp,
    new_phone_otp. cbn -[generate_otp_code next_id lit].
  destruct (r_phone payload) as [[|c ph]|]; cbn -[generate_otp_code next_id lit];
    rewrite <- ?app_assoc; reflexivity.
Qed.

(** Every outcome of [register]. *)
Lemma register_cases now chance payload w :
  register settings hashpw now chance payload w =
  match user_by_email (r_email payload) w with
  | Some _ => (Raise (HTTP 400 "Email already registered"), w)
  | None =>
      if tenant_name_free (company_name payload) w then
        let w1 := add_tenant (new_tenant payload w) w in
        match hashpw (r_password payload) (password_salt chance) with
        | Raise e => (Raise e, w1)
        | Return h_pw =>
            let w2 := add_user (new_user payload h_pw w) w1 in
            match hashpw (generate_otp_code (email_number chance)) (email_salt chance) with
            | Raise e => (Raise e, w2)
            | Return h_e =>
                match hashpw (generate_otp_code (phone_number chance)) (phone_salt chance) with
                | Raise e => (Raise e, w2)
                | Return h_p =>
                    (Return (Build_RegisterOut true (next_id (map Tenant.id (tenants w)))
                               (next_id (map Account.id (users w))) (py "pending")),
                     registered settings now chance payload h_pw h_e h_p w)
                end
            end
        end
      else (Raise PersistenceError, w)
  end.
Proof.
  destruct (user_by_email (r_email payload) w) as [u|] eqn:Hnone.
  { unfold register, wbind, wquery. now rewrite Hnone. }
  destruct (tenant_name_free (company_name payload) w) eqn:Hname.
  2:{ unfold register, wbind, wquery, wcommit. rewrite Hnone.
      cbn -[generate_otp_code next_id lit]. now rewrite Hname. }
  pose proof (user_by_email_none _ _ Hnone) as Hfree.
  destruct (hashpw (r_password payload) (password_salt chance)) as [h_pw|e] eqn:Hpw.
  2:{ unfold register, wbind, wquery, wcommit, wlift, hash_password. rewrite Hnone.
      cbn -[generate_otp_code next_id lit]. now rewrite Hname, Hpw. }
  destruct (hashpw (generate_otp_code (email_number chance)) (email_salt chance))
    as [h_e|e] eqn:He.
  2:{ unfold register, wbind, wquery, wcommit, wlift, hash_password. rewrite Hnone.
      cbn -[generate_otp_code next_id lit]. rewrite Hname, Hpw.
      unfold email_free in *. cbn -[generate_otp_code next_id lit].
      now rewrite Hfree, He. }
  destruct (hashpw (generate_otp_code (phone_number chance)) (phone_salt chance))
    as [h_p|e] eqn:Hp.
  2:{ unfold register, wbind, wquery, wcommit, wlift, hash_password. rewrite Hnone.
      cbn -[generate_otp_code next_id lit]. rewrite Hname, Hpw.
      unfold email_free in *. cbn -[generate_otp_code next_id lit].
      now rewrite Hfree, He, Hp. }
  now apply register_success.
Qed.

Lemma tenant_name_free_spec name w :
  tenant_name_free name w = true <-> ~ In name (map Tenant.name (tenants w)).
Proof.
  unfold tenant_name_free. rewrite negb_true_iff. split.
  - intros H Hin. apply in_map_iff in Hin as (t & Ht & Hin).
    assert (existsb (fun t => pystr_eqb (Tenant.name t) name) (tenants w) = true).
    { apply existsb_exists. exists t. split; [exact Hin|]. now apply pystr_eqb_eq. }
    congruence.
  - intros H. destruct (existsb _ _) eqn:E; [|reflexivity]. exfalso. apply H.
    apply existsb_exists in E as (t & Hin & Ht). apply pystr_eqb_eq in Ht.
    apply in_map_iff. eauto.
Qed.

Lemma email_free_spec email w :
  email_free email w = true <-> ~ In email (map Account.email (users w)).
Proof.
  unfold email_free. rewrite negb_true_iff. split.
  - intros H Hin. apply in_map_iff in Hin as (u & Hu & Hin).
    assert (existsb (fun u => pystr_eqb (Account.email u) email) (users w) = true).
    { apply existsb_exists. exists u. split; [exact Hin|]. now apply pystr_eqb_eq. }
    congruence.
  - intros H. destruct (existsb _ _) eqn:E; [|reflexivity]. exfalso. apply H.
    apply existsb_exists in E as (u & Hin & Hu). apply pystr_eqb_eq in Hu.
    apply in_map_iff. eauto.
Qed.

Lemma NoDup_snoc {A} (l : list A) (x : A) : NoDup l -> ~ In x l -> NoDup (l ++ [x]).
Proof.
  intros Hl Hx. apply NoDup_app; [exact Hl|repeat constructor; auto|].
  intros y Hy [<-|[]]. contradiction.
Qed.

Lemma NoDup_snoc_two ids : NoDup ids -> NoDup (ids ++ [next_id ids; (next_id ids + 1)%Z]).
Proof.
  intros H. apply NoDup_app; [exact H| |].
  - constructor; [intros [E|[]]; lia|repeat constructor; auto].
  - intros i Hi [<-|[<-|[]]]; apply next_id_fresh in Hi; lia.
Qed.

(** X20.  A [register] for a new email and a new company name, with the
    three hashes computed, stores one pending tenant, its unverified, active
    tenant_admin, and one unused code of each kind that expires
    OTP_TTL_SECONDS after [now]; it prints the codes and answers with the
    two new ids. *)
Theorem register_creates_account (now : Z) (chance : Chance) (payload : RegisterIn)
    (w : World) (h_pw h_e h_p : pystr) :
  user_by_email (r_email payload) w = None ->
  tenant_name_free (company_name payload) w = true ->
  hashpw (r_password payload) (password_salt chance) = Return h_pw ->
  hashpw (generate_otp_code (email_number chance)) (email_salt chance) = Return h_e ->
  hashpw (generate_otp_code (phone_number chance)) (phone_salt chance) = Return h_p ->
  register settings hashpw now chance payload w
  = (Return (Build_RegisterOut true (next_id (map Tenant.id (tenants w)))
               (next_id (map Account.id (users w))) (py "pending")),
     mkWorld
       (tenants w ++
        [Tenant.mk (next_id (map Tenant.id (tenants w))) (company_name payload)
                   (py "pending")])
       (users w ++
        [Account.mk (next_id (map Account.id (users w)))
                    (Some (next_id (map Tenant.id (tenants w))))
                    (r_email payload) (r_phone payload) h_pw (py "tenant_admin")
                    false false true])
       (otps w ++
        [OTP.mk (next_id (map OTP.id (otps w))) (next_id (map Account.id (users w)))
                (py "email") h_e (now + OTP_TTL_SECONDS settings * 1000000)%Z false;
         OTP.mk (next_id (map OTP.id (otps w)) + 1)
                (next_id (map Account.id (users w)))
                (py "phone") h_p (now + OTP_TTL_SECONDS settings * 1000000)%Z false])
       (stdout w ++ mock_delivery chance payload)).
Proof. intros. now apply register_success. Qed.

(** X21.  [register] keeps the keys of the store: whatever it does, and
    whatever the hashing does, ids, tenant names and emails stay unique. *)
Theorem register_keeps_keys (now : Z) (chance : Chance) (payload : RegisterIn)
    (w : World) :
  well_keyed w ->
  well_keyed (snd (register settings hashpw now chance payload w)).
Proof.
  intros (K1 & K2 & K3 & K4 & K5). rewrite register_cases.
  destruct (user_by_email (r_email payload) w) eqn:Hnone;
    [repeat split; assumption|].
  destruct (tenant_name_free (company_name payload) w) eqn:Hname;
    [|repeat split; assumption].
  apply tenant_name_free_spec in Hname.
  apply user_by_email_none, email_free_spec in Hnone.
  assert (T1 : NoDup (map Tenant.id (tenants w ++ [new_tenant payload w])))
    by (rewrite map_app; apply NoDup_snoc_fresh; assumption).
  assert (T2 : NoDup (map Tenant.name (tenants w ++ [new_tenant payload w])))
    by (rewrite map_app; apply NoDup_snoc; assumption).
  cbv zeta.
  destruct (hashpw (r_password payload) (password_salt chance)) as [h_pw|e];
    [|repeat split; assumption].
  assert (U1 : NoDup (map Account.id (users w ++ [new_user payload h_pw w])))
    by (rewrite map_app; apply NoDup_snoc_fresh; assumption).
  assert (U2 : NoDup (map Account.email (users w ++ [new_user payload h_pw w])))
    by (rewrite map_app; apply NoDup_snoc; assumption).
  destruct (hashpw (generate_otp_code (email_number chance)) (email_salt chance))
    as [h_e|e]; [|repeat split; assumption].
  destruct (hashpw (generate_otp_code (phone_number chance)) (phone_salt chance))
    as [h_p|e]; [|repeat split; assumption].
  repeat split; try assumption.
  simpl. rewrite map_app. simpl. now apply NoDup_snoc_two.
Qed.

(** X22.  [register] is not one unit of work.  When the hashing of the
    password raises, the request fails with the tenant already committed;
    the company name is then taken, and a later [register] under that name
    fails at the unique constraint with the store unchanged. *)
Theorem register_leaves_orphan_tenant (now : Z) (chance : Chance)
    (payload : RegisterIn) (w : World) (e : exn) :
  user_by_email (r_email payload) w = None ->
  tenant_name_free (company_name payload) w = true ->
  hashpw (r_password payload) (password_salt chance) = Raise e ->
  let w1 := mkWorld (tenants w ++ [new_tenant payload w]) (users w) (otps w) (stdout w) in
  register settings hashpw now chance payload w = (Raise e, w1) /\
  forall now' chance' payload',
    company_name payload' = company_name payload ->
    user_by_email (r_email payload') w = None ->
    register settings hashpw now' chance' payload' w1 = (Raise PersistenceError, w1).
Proof.
  intros Hnone Hname Hpw w1. split.
  - rewrite register_cases, Hnone, Hname. cbv zeta. now rewrite Hpw.
  - intros now' chance' payload' Hsame Hnone'. rewrite register_cases.
    replace (user_by_email (r_email payload') w1) with (@None Account.t)
      by (symmetry; exact Hnone').
    replace (tenant_name_free (company_name payload') w1) with false; [reflexivity|].
    symmetry. unfold tenant_name_free, w1. simpl. apply negb_false_iff.
    rewrite existsb_app. simpl. rewrite Hsame, pystr_eqb_refl.
    now rewrite orb_true_r.
Qed.

Lemma newest_none rows : newest rows = None -> rows = [].
Proof.
  destruct rows as [|o r]; simpl; [easy|].
  destruct (newest r) as [o'|]; [|discriminate].
  destruct (Z.ltb _ _); discriminate.
Qed.

Lemma newest_max rows o :
  newest rows = Some o ->
  In o rows /\ forall o', In o' rows -> (OTP.id o' <= OTP.id o)%Z.
Proof.
  revert o. induction rows as [|x r IH]; simpl; intros o; [discriminate|].
  destruct (newest r) as [o'|] eqn:E.
  - destruct (IH _ eq_refl) as [Hin Hmax].
    destruct (Z.ltb_spec (OTP.id x) (OTP.id o')) as [Hlt|Hge];
      intros Heq; inversion Heq; subst; clear Heq.
    + split; [now right|]. intros y [<-|Hy]; [lia|auto].
    + split; [now left|]. intros y [<-|Hy]; [lia|]. specialize (Hmax _ Hy). lia.
  - intros Heq. inversion Heq; subst. apply newest_none in E. subst r.
    split; [now left|]. intros y [<-|[]]. lia.
Qed.

Lemma newest_snoc rows o :
  (forall x, In x rows -> (OTP.id x < OTP.id o)%Z) ->
  newest (rows ++ [o]) = Some o.
Proof.
  induction rows as [|a r IH]; intros H; simpl; [reflexivity|].
  rewrite IH by (intros x Hx; apply H; now right).
  destruct (Z.ltb_spec (OTP.id a) (OTP.id o)); [reflexivity|].
  specialize (H a (or_introl eq_refl)). lia.
Qed.

Lemma user_by_id_new w u :
  Account.id u = next_id (map Account.id (users w)) ->
  user_by_id (Account.id u) (mkWorld (tenants w) (users w ++ [u]) (otps w) (stdout w))
  = Some u.
Proof.
  intros Hid. unfold user_by_id. simpl. rewrite find_app_none.
  - simpl. now rewrite Z.eqb_refl.
  - destruct (find _ (users w)) as [x|] eqn:E; [|reflexivity].
    apply find_some in E as [Hin Hx]. apply Z.eqb_eq in Hx.
    apply (in_map Account.id) in Hin. apply next_id_fresh in Hin. lia.
Qed.

Lemma verify_password_checks plain salt hashed :
  bcrypt_checks hashpw checkpw ->
  hashpw plain salt = Return hashed ->
  verify_password checkpw plain hashed = true.
Proof.
  intros Hb Hh. unfold verify_password. now rewrite (Hb _ _ _ Hh).
Qed.

(** The email code of a fresh registration is the newest candidate. *)
Lemma latest_after_register now chance payload w h_pw h_e h_p :
  user_by_email (r_email payload) w = None ->
  latest_unused_otp (fun u => pystr_eqb (Account.email u) (r_email payload))
    (py "email") (registered settings now chance payload h_pw h_e h_p w)
  = Some (new_email_otp settings now payload h_e w).
Proof.
  intros Hnone. unfold latest_unused_otp, registered. cbn [otps].
  rewrite filter_app. cbn [filter].
  assert (C1 : otp_candidate (fun u => pystr_eqb (Account.email u) (r_email payload))
                 (py "email")
                 (mkWorld (tenants w ++ [new_tenant payload w])
                    (users w ++ [new_user payload h_pw w])
                    (otps w ++ [new_email_otp settings now payload h_e w;
                                new_phone_otp settings now payload h_p w])
                    (stdout w ++ mock_delivery chance payload))
                 (new_email_otp settings now payload h_e w) = true).
  { unfold otp_candidate. cbn [users]. rewrite existsb_app. simpl.
    now rewrite Z.eqb_refl, pystr_eqb_refl, !orb_true_r. }
  rewrite C1.
  assert (C2 : otp_candidate (fun u => pystr_eqb (Account.email u) (r_email payload))
                 (py "email")
                 (mkWorld (tenants w ++ [new_tenant payload w])
                    (users w ++ [new_user payload h_pw w])
                    (otps w ++ [new_email_otp settings now payload h_e w;
                                new_phone_otp settings now payload h_p w])
                    (stdout w ++ mock_delivery chance payload))
                 (new_phone_otp settings now payload h_p w) = false).
  { unfold otp_candidate. simpl.
    change (pystr_eqb (py "phone") (py "email")) with false.
    now rewrite andb_false_r. }
  rewrite C2. apply newest_snoc. intros x Hx.
  apply filter_In in Hx as [Hx _]. apply (in_map OTP.id) in Hx.
  apply next_id_fresh in Hx. exact Hx.
Qed.

(** X23.  The email code that [register] issued verifies the new account
    up to and including its expiry, and only then: before, [verify_email]
    with that code marks the code used and the email verified and changes
    nothing else; after, it raises "OTP expired" and the store is as it
    was. *)
Theorem issued_code_verifies_until_expiry (now : Z) (chance : Chance)
    (payload : RegisterIn) (w : World) (h_pw h_e h_p : pystr) (later : Z) :
  bcrypt_checks hashpw checkpw ->
  user_by_email (r_email payload) w = None ->
  hashpw (generate_otp_code (email_number chance)) (email_salt chance) = Return h_e ->
  let w' := registered settings now chance payload h_pw h_e h_p w in
  let request :=
    Build_VerifyEmailIn (r_email payload) (generate_otp_code (email_number chance)) in
  let expiry := (now + OTP_TTL_SECONDS settings * 1000000)%Z in
  ((later <= expiry)%Z ->
   verify_email checkpw later request w'
   = (Return true,
      mkWorld (tenants w')
        (users w ++ [Account.with_email_verified true (new_user payload h_pw w)])
        (otps w ++ [OTP.with_used true (new_email_otp settings now payload h_e w);
                    new_phone_otp settings now payload h_p w])
        (stdout w'))) /\
  ((expiry < later)%Z ->
   verify_email checkpw later request w' = (Raise (HTTP 400 "OTP expired"), w')).
Proof.
  intros Hb Hnone He w' request expiry.
  pose proof (latest_after_register now chance payload w h_pw h_e h_p Hnone) as L.
  fold w' in L.
  unfold verify_email, verify, wbind, wquery. cbn [ve_email ve_code request].
  rewrite L. cbn [OTP.expires_at new_email_otp]. fold expiry. split.
  - intros Hle. destruct (Z.ltb_spec expiry later) as [Hlt|_]; [lia|].
    replace (OTP.code_hash (new_email_otp settings now payload h_e w)) with h_e
      by reflexivity.
    rewrite (verify_password_checks Hb He). cbn [negb].
    replace (OTP.user_id (new_email_otp settings now payload h_e w))
      with (Account.id (new_user payload h_pw w)) by reflexivity.
    assert (U : user_by_id (Account.id (new_user payload h_pw w)) w'
                = Some (new_user payload h_pw w)).
    { exact (@user_by_id_new
               (mkWorld (tenants w') (users w) (otps w') (stdout w'))
               (new_user payload h_pw w) eq_refl). }
    rewrite U. unfold wcommit, always, wret, mark_verified.
    f_equal. unfold w', registered.
    cbn [tenants users otps stdout OTP.id Account.id new_user new_email_otp].
    f_equal.
    + rewrite map_app. cbn [map Account.id]. rewrite Z.eqb_refl. f_equal.
      apply map_fixed. intros x Hx.
      destruct (Z.eqb_spec (Account.id x) (next_id (map Account.id (users w))));
        [|reflexivity].
      apply (in_map Account.id) in Hx. apply next_id_fresh in Hx. lia.
    + rewrite map_app. cbn [map OTP.id new_phone_otp]. rewrite Z.eqb_refl.
      destruct (Z.eqb_spec (next_id (map OTP.id (otps w)) + 1)
                  (next_id (map OTP.id (otps w)))); [lia|].
      f_equal. apply map_fixed. intros x Hx.
      destruct (Z.eqb_spec (OTP.id x) (next_id (map OTP.id (otps w))));
        [|reflexivity].
      apply (in_map OTP.id) in Hx. apply next_id_fresh in Hx. lia.
  - intros Hlt. destruct (Z.ltb_spec expiry later) as [_|Hge]; [reflexivity|lia].
Qed.

(** X24.  A verified code is spent: once the email code of a fresh
    registration has been used, [verify_email] for that email raises
    "Invalid OTP" whatever the code and the time, and changes nothing
    (every stored code belonging to a stored user). *)
Theorem issued_code_is_single_use (now : Z) (chance : Chance)
    (payload : RegisterIn) (w : World) (h_pw h_e h_p : pystr)
    (later : Z) (code : pystr) :
  user_by_email (r_email payload) w = None ->
  otps_refer_to_users w ->
  let w' := registered settings now chance payload h_pw h_e h_p w in
  let verified :=
    mkWorld (tenants w')
      (users w ++ [Account.with_email_verified true (new_user payload h_pw w)])
      (otps w ++ [OTP.with_used true (new_email_otp settings now payload h_e w);
                  new_phone_otp settings now payload h_p w])
      (stdout w') in
  verify_email checkpw later (Build_VerifyEmailIn (r_email payload) code) verified
  = (Raise (HTTP 400 "Invalid OTP"), verified).
Proof.
  intros Hnone Hfk w' verified.
  assert (L : latest_unused_otp
                (fun u => pystr_eqb (Account.email u) (r_email payload))
                (py "email") verified = None).
  { unfold latest_unused_otp. rewrite filter_none; [reflexivity|].
    intros o Ho. unfold verified in Ho. cbn [otps] in Ho.
    apply in_app_or in Ho as [Ho|[<-|[<-|[]]]].
    - unfold otp_candidate, verified. cbn [users].
      rewrite existsb_app. simpl.
      assert (E1 : existsb (fun u => Z.eqb (Account.id u) (OTP.user_id o)
                              && pystr_eqb (Account.email u) (r_email payload))
                     (users w) = false).
      { destruct (existsb _ (users w)) eqn:E; [|reflexivity].
        apply existsb_exists in E as (u & Hu & E).
        apply andb_true_iff in E as [_ E].
        pose proof (find_none _ _ Hnone _ Hu) as Hn. simpl in Hn. congruence. }
      rewrite E1. apply Hfk in Ho. apply next_id_fresh in Ho.
      destruct (Z.eqb_spec (next_id (map Account.id (users w))) (OTP.user_id o));
        [lia|reflexivity].
    - unfold otp_candidate. simpl. now rewrite andb_false_r.
    - unfold otp_candidate. simpl.
      change (pystr_eqb (py "phone") (py "email")) with false.
      now rewrite andb_false_r. }
  unfold verify_email, verify, wbind, wquery. cbn [ve_email ve_code].
  now rewrite L.
Qed.

(** X25.  The two verifications write nothing but flags.  Whatever their
    outcome, tenants and output are untouched, no row is added or removed,
    a code changes at most in [used] and a user at most in the two
    [verified] flags; and a verification that raises leaves the whole
    store as it was. *)
Theorem verification_writes_flags_only (later : Z) (w : World) :
  (forall request,
     let out := verify_email checkpw later request w in
     tenants (snd out) = tenants w /\ stdout (snd out) = stdout w /\
     map (OTP.with_used true) (otps (snd out)) = map (OTP.with_used true) (otps w) /\
     map flags_aside (users (snd out)) = map flags_aside (users w) /\
     (forall e, fst out = Raise e -> snd out = w)) /\
  (forall request,
     let out := verify_phone checkpw later request w in
     tenants (snd out) = tenants w /\ stdout (snd out) = stdout w /\
     map (OTP.with_used true) (otps (snd out)) = map (OTP.with_used true) (otps w) /\
     map flags_aside (users (snd out)) = map flags_aside (users w) /\
     (forall e, fst out = Raise e -> snd out = w)).
Proof.
  assert (G : forall owner kind set_flag code,
            (forall u, flags_aside (set_flag u) = flags_aside u) ->
            let out := verify checkpw owner kind set_flag later code w in
            tenants (snd out) = tenants w /\ stdout (snd out) = stdout w /\
            map (OTP.with_used true) (otps (snd out))
              = map (OTP.with_used true) (otps w) /\
            map flags_aside (users (snd out)) = map flags_aside (users w) /\
            (forall e, fst out = Raise e -> snd out = w)).
  { intros owner kind set_flag code Hflag. cbv zeta.
    unfold verify, wbind, wquery.
    destruct (latest_unused_otp owner kind w) as [o|]; [|simpl; auto].
    destruct (Z.ltb (OTP.expires_at o) later); [simpl; auto|].
    destruct (negb (verify_password checkpw code (OTP.code_hash o))); [simpl; auto|].
    destruct (user_by_id (OTP.user_id o) w) as [u|]; [|simpl; auto].
    unfold wcommit, always, wret, mark_verified. simpl.
    repeat split; auto.
    - rewrite map_map. apply map_ext. intros x.
      destruct (Z.eqb _ _); reflexivity.
    - rewrite map_map. apply map_ext. intros x.
      destruct (Z.eqb _ _); [apply Hflag|reflexivity].
    - discriminate. }
  split; intros request; apply G; intros u; reflexivity.
Qed.

Lemma user_by_email_new w u :
  user_by_email (Account.email u) w = None ->
  user_by_email (Account.email u)
    (mkWorld (tenants w) (users w ++ [u]) (otps w) (stdout w)) = Some u.
Proof.
  intros Hnone. unfold user_by_email in *. simpl.
  rewrite find_app_none by exact Hnone. simpl. now rewrite pystr_eqb_refl.
Qed.

(** X26.  Registration is enough to log in: right after [register], with
    the email unverified and the tenant pending, [login] with the
    registered password returns a bearer token for the new tenant_admin and
    writes nothing. *)
Theorem login_after_register (now : Z) (chance : Chance) (payload : RegisterIn)
    (w : World) (h_pw h_e h_p : pystr) (later : Z) :
  bcrypt_checks hashpw checkpw ->
  user_by_email (r_email payload) w = None ->
  hashpw (r_password payload) (password_salt chance) = Return h_pw ->
  let w' := registered settings now chance payload h_pw h_e h_p w in
  login settings checkpw jwt_encode later
        (Build_LoginIn (r_email payload) (r_password payload)) w'
  = (Return (Build_TokenOut true
               (create_token settings jwt_encode later (r_email payload)
                  (py "tenant_admin") (Some (next_id (map Tenant.id (tenants w)))))
               (py "bearer")),
     w').
Proof.
  intros Hb Hnone Hpw w'.
  assert (U : user_by_email (r_email payload) w' = Some (new_user payload h_pw w)).
  { exact (@user_by_email_new
             (mkWorld (tenants w') (users w) (otps w') (stdout w'))
             (new_user payload h_pw w) Hnone). }
  unfold login, wbind, wquery. cbn [l_email l_password]. rewrite U.
  cbn [Account.is_active new_user negb Account.password_hash].
  rewrite (verify_password_checks Hb Hpw). reflexivity.
Qed.

(** X27.  [login] never writes.  It refuses a disabled user with 403
    before it looks at the password, and it gives one and the same 401 for
    an unknown email and for a wrong password. *)
Theorem login_refusals (now : Z) (payload : LoginIn) (w : World) :
  snd (login settings checkpw jwt_encode now payload w) = w /\
  (forall u,
     user_by_email (l_email payload) w = Some u -> Account.is_active u = false ->
     fst (login settings checkpw jwt_encode now payload w)
     = Raise (HTTP 403 "User disabled")) /\
  (user_by_email (l_email payload) w = None ->
   fst (login settings checkpw jwt_encode now payload w)
   = Raise (HTTP 401 "Invalid credentials")) /\
  (forall u,
     user_by_email (l_email payload) w = Some u -> Account.is_active u = true ->
     verify_password checkpw (l_password payload) (Account.password_hash u) = false ->
     fst (login settings checkpw jwt_encode now payload w)
     = Raise (HTTP 401 "Invalid credentials")).
Proof.
  unfold login, wbind, wquery.
  destruct (user_by_email (l_email payload) w) as [u|].
  - destruct (Account.is_active u) eqn:Ea; simpl;
      destruct (verify_password checkpw (l_password payload) (Account.password_hash u))
        eqn:Ev; simpl; repeat split; try discriminate;
      intros u' Hu'; inversion Hu'; subst; congruence.
  - simpl. repeat split; discriminate.
Qed.

(** X28.  [verify_phone] goes by the phone number alone.  When it
    succeeds, the code it accepted is the one of the newest unused phone
    code among all users that have this number, not yet expired, and the
    user it marks verified is the owner of that code. *)
Theorem verify_phone_takes_newest_code (later : Z) (request : VerifyPhoneIn)
    (w : World) (b : bool) (w' : World) :
  verify_phone checkpw later request w = (Return b, w') ->
  exists o u owner,
    In o (otps w) /\ OTP.kind o = py "phone" /\ OTP.used o = false /\
    In owner (users w) /\ Account.id owner = OTP.user_id o /\
    Account.phone owner = Some (vp_phone request) /\
    (forall o', In o' (otps w) ->
       otp_candidate (phone_is (vp_phone request)) (py "phone") w o' = true ->
       (OTP.id o' <= OTP.id o)%Z) /\
    verify_password checkpw (vp_code request) (OTP.code_hash o) = true /\
    (later <= OTP.expires_at o)%Z /\
    user_by_id (OTP.user_id o) w = Some u /\
    w' = mark_verified (Account.with_phone_verified true) (OTP.id o) (Account.id u) w.
Proof.
  unfold verify_phone, verify, wbind, wquery.
  destruct (latest_unused_otp (phone_is (vp_phone request)) (py "phone") w)
    as [o|] eqn:L; [|discriminate].
  destruct (Z.ltb_spec (OTP.expires_at o) later) as [|Hle]; [discriminate|].
  destruct (verify_password checkpw (vp_code request) (OTP.code_hash o)) eqn:Ev;
    [|discriminate].
  cbn [negb]. destruct (user_by_id (OTP.user_id o) w) as [u|] eqn:U; [|discriminate].
  unfold wcommit, always, wret. intros H. inversion H; subst; clear H.
  unfold latest_unused_otp in L. apply newest_max in L as [Hin Hmax].
  apply filter_In in Hin as [Hin Hc].
  unfold otp_candidate in Hc.
  apply andb_true_iff in Hc as [Hc Hused]. apply andb_true_iff in Hc as [Hown Hkind].
  apply existsb_exists in Hown as (owner & Hoin & Hown).
  apply andb_true_iff in Hown as [Hid Hph]. apply Z.eqb_eq in Hid.
  unfold phone_is in Hph. destruct (Account.phone owner) as [ph|] eqn:Eph;
    [|discriminate].
  apply pystr_eqb_eq in Hph. subst ph.
  exists o, u, owner. repeat split; auto.
  - now apply pystr_eqb_eq.
  - now apply negb_true_iff.
  - intros o' Ho' Hc'. apply Hmax. apply filter_In. auto.
Qed.

(** X29.  The bootstrap runs once.  On a store without the superadmin
    email, [on_startup] adds the superadmin, verified and active and of no
    tenant; a second [on_startup] changes nothing; the superadmin passes
    [require_superadmin], and [/simulate] refuses it with 400 and writes
    nothing. *)
Theorem bootstrap_once (salt : pystr) (w : World) (h : pystr) :
  user_by_email (SUPERADMIN_EMAIL settings) w = None ->
  hashpw (SUPERADMIN_PASSWORD settings) salt = Return h ->
  let su := Account.mk (next_id (map Account.id (users w))) None
              (SUPERADMIN_EMAIL settings) None h (py "superadmin")
              true true true in
  let w1 := mkWorld (tenants w) (users w ++ [su]) (otps w)
              (stdout w ++ [py "[BOOTSTRAP] SuperAdmin created: "
                            ++ SUPERADMIN_EMAIL settings]) in
  on_startup settings hashpw salt w = (Return tt, w1) /\
  (forall salt', on_startup settings hashpw salt' w1 = (Return tt, w1)) /\
  require_superadmin su = Return su /\
  (forall lower fault p db,
     Main.simulate lower fault p (Account.to_user su) db
     = (Raise (HTTPException 400 (py "Superadmin cannot simulate without tenant")),
        db)).
Proof.
  intros Hnone Hh su w1.
  pose proof (user_by_email_none _ _ Hnone) as Hfree.
  assert (U : user_by_email (SUPERADMIN_EMAIL settings) w1 = Some su).
  { exact (@user_by_email_new
             (mkWorld (tenants w) (users w) (otps w) (stdout w1)) su Hnone). }
  split; [|split; [|split]].
  - unfold on_startup, wbind, wquery, wlift, wcommit, print, hash_password.
    rewrite Hnone, Hh. cbn [Account.email]. now rewrite Hfree.
  - intros salt'. unfold on_startup, wbind, wquery. now rewrite U.
  - reflexivity.
  - intros lower fault p db. reflexivity.
Qed.

End AccountFacts.

(** ** From [login] to [get_current_user] *)

Section TokenFacts.
Import Auth AuthInv.
Variable lower : pystr -> pystr.
Variable settings : Settings.
Variable checkpw : pystr -> pystr -> res bool.
Variable jwt_encode : Claims -> pystr.
Variable jwt_decode : Z -> pystr -> res Decoded.

Lemma split_bearer token :
  split_at_space (py "Bearer " ++ token) = Some (py "Bearer", token).
Proof. reflexivity. Qed.

Lemma login_return now payload w out w' :
  login settings checkpw jwt_encode now payload w = (Return out, w') ->
  w' = w /\
  exists u,
    user_by_email (l_email payload) w = Some u /\
    Account.is_active u = true /\
    access_token out
    = create_token settings jwt_encode now (Account.email u) (Account.role u)
        (Account.tenant_id u).
Proof.
  unfold login, wbind, wquery.
  destruct (user_by_email (l_email payload) w) as [u|] eqn:U; [|discriminate].
  destruct (Account.is_active u) eqn:Ea; [|discriminate]. cbn [negb].
  destruct (verify_password checkpw (l_password payload) (Account.password_hash u));
    [|discriminate].
  unfold wret. intros H. inversion H; subst; clear H. split; [reflexivity|].
  exists u. auto.
Qed.

(** X30.  A token that [login] issued authenticates its user: from the
    login until the second of the token's [exp] begins, [get_current_user]
    on the header "Bearer <token>" returns the stored user the login was
    for, and writes nothing.  The [exp] is the lifetime's end cut to whole
    seconds (security.py 33), so the token serves for less than the
    configured minutes by the fraction of a second at which it was issued.
    (The JWT library decodes a token it encoded while the clock is between
    its [iat] and its [exp]; the token is text without surrounding
    whitespace.) *)
Theorem token_of_login_authenticates (now later : Z) (payload : LoginIn)
    (w : World) (out : TokenOut) (w' : World) :
  login settings checkpw jwt_encode now payload w = (Return out, w') ->
  jwt_round_trip jwt_encode jwt_decode ->
  (0 <= now <= later)%Z ->
  (later < Z.quot (now + JWT_EXPIRES_MINUTES settings * 60 * 1000000) 1000000
           * 1000000)%Z ->
  starts_with (py "bearer ") (lower (py "Bearer " ++ access_token out)) = true ->
  Agent.strip (access_token out) = access_token out ->
  access_token out <> [] ->
  l_email payload <> [] ->
  exists u,
    get_current_user lower jwt_decode later (py "Bearer " ++ access_token out) w'
    = (Return u, w') /\
    user_by_email (l_email payload) w' = Some u /\
    Account.is_active u = true.
Proof.
  intros Hlogin Hjwt [Hnow Hlater] Hexp Hlower Hstrip Htok Hemail.
  apply login_return in Hlogin as (-> & u & U & Ea & Htoken).
  exists u. split; [|auto].
  pose proof (user_by_email_some _ _ U) as [_ Hue].
  unfold get_current_user. rewrite Hlower. cbn [negb].
  rewrite split_bearer, Hstrip.
  destruct (access_token out) as [|t0 tok] eqn:Et; [contradiction|].
  cbn [str_truthy negb]. rewrite Htoken. unfold create_token.
  match goal with |- context [jwt_encode ?c] =>
    destruct (Hjwt c later) as (d & Hd & Hsub) end.
  { cbn [iat]. apply Z.quot_pos; lia. }
  { cbn [iat]. rewrite Z.quot_div_nonneg by lia.
    pose proof (Z.mul_div_le now 1000000). lia. }
  { cbn [exp]. exact Hexp. }
  rewrite Hd, Hsub. cbn [sub]. rewrite Hue.
  destruct (l_email payload) as [|c email] eqn:Ee; [contradiction|].
  unfold wbind, wquery. rewrite U, Ea. reflexivity.
Qed.

End TokenFacts.

(** ** The account handlers on concrete requests *)

Lemma split_at_dot_digits a b :
  Forall (fun c => 48 <= c <= 57) a ->
  Toy2.split_at_dot (a ++ Toy2.DOT :: b) = Some (a, b).
Proof.
  induction 1 as [|c r Hc _ IH]; [reflexivity|].
  cbn [app Toy2.split_at_dot]. rewrite IH.
  destruct (N.eqb_spec c Toy2.DOT) as [E|_]; [|reflexivity].
  unfold Toy2.DOT in E. lia.
Qed.

(** The stand-in decoder reads the stand-in tokens while they are valid. *)
Lemma toy_jwt_round_trip : AuthInv.jwt_round_trip Toy2.jwt_encode Toy2.jwt_decode.
Proof.
  intros c now Hiat Hfrom Hto.
  assert (Hexp : (0 <= Auth.exp c)%Z) by lia.
  exists (Auth.Build_Decoded (Some (Auth.sub c))). split; [|reflexivity].
  unfold Toy2.jwt_decode, Toy2.jwt_encode. cbn [app].
  rewrite split_at_dot_digits by apply decimal_fuel_digits.
  rewrite split_at_dot_digits by apply decimal_fuel_digits.
  rewrite !decimal_reads, !Z2N.id by assumption.
  destruct (Z.leb_spec (Auth.iat c * 1000000) now); [|lia].
  destruct (Z.ltb_spec now (Auth.exp c * 1000000)); [reflexivity|lia].
Qed.

Lemma toy_bcrypt_checks : AuthInv.bcrypt_checks Toy.hashpw Toy.checkpw.
Proof.
  intros plain salt hashed. unfold Toy.hashpw, Toy.checkpw.
  destruct (Nat.ltb 72 (List.length plain)); [discriminate|].
  intros H. inversion H. now rewrite pystr_eqb_refl.
Qed.

(** X20, witness. *)
Lemma register_creates_account_witness :
  Auth.register Toy.settings Toy.hashpw 1000 Toy.chance Toy.signup Toy.nothing
  = (Return (Auth.Build_RegisterOut true 1 1 (py "pending")), Toy2.signed_up).
Proof.
  etransitivity;
    [apply (@register_creates_account Toy.settings Toy.hashpw 1000 Toy.chance
              Toy.signup Toy.nothing (py "s3cret!") (py "000042") (py "999999"));
     reflexivity|].
  reflexivity.
Defined.

(** X21, witness. *)
Lemma register_keeps_keys_witness :
  AuthInv.well_keyed
    (snd (Auth.register Toy.settings Toy.hashpw 1000 Toy.chance Toy.signup
            Toy.nothing)).
Proof.
  apply (@register_keeps_keys Toy.settings Toy.hashpw 1000 Toy.chance Toy.signup
           Toy.nothing).
  repeat split; constructor.
Defined.

(** X22, witness: a password of 73 code points. *)
Lemma register_leaves_orphan_tenant_witness :
  Auth.register Toy.settings Toy.hashpw 1000 Toy.chance Toy2.long_signup Toy.nothing
  = (Raise TypeError,
     mkWorld [Tenant.mk 1 (py "Long Pass Ltd") (py "pending")] [] [] []).
Proof.
  etransitivity;
    [apply (proj1 (@register_leaves_orphan_tenant Toy.settings Toy.hashpw 1000
                     Toy.chance Toy2.long_signup Toy.nothing TypeError
                     eq_refl eq_refl eq_refl))|].
  reflexivity.
Defined.

(** X23, witness: the code is used 4 ms after it was issued. *)
Lemma issued_code_verifies_until_expiry_witness :
  fst (Auth.verify_email Toy.checkpw 5000
         (Auth.Build_VerifyEmailIn (py "sana@shop.example") (py "000042"))
         Toy2.signed_up)
  = Return true.
Proof.
  pose proof (@issued_code_verifies_until_expiry Toy.settings Toy.hashpw Toy.checkpw
                1000 Toy.chance Toy.signup Toy.nothing
                (py "s3cret!") (py "000042") (py "999999") 5000
                toy_bcrypt_checks eq_refl eq_refl) as [H _].
  exact (f_equal fst (H ltac:(vm_compute; discriminate))).
Defined.

(** X24, witness: the same code a second time. *)
Lemma issued_code_is_single_use_witness :
  fst (Auth.verify_email Toy.checkpw 6000
         (Auth.Build_VerifyEmailIn (py "sana@shop.example") (py "000042"))
         (snd (Auth.verify_email Toy.checkpw 5000
                 (Auth.Build_VerifyEmailIn (py "sana@shop.example") (py "000042"))
                 Toy2.signed_up)))
  = Raise (Auth.HTTP 400 "Invalid OTP").
Proof.
  pose proof (@issued_code_is_single_use Toy.settings Toy.checkpw
                1000 Toy.chance Toy.signup Toy.nothing
                (py "s3cret!") (py "000042") (py "999999") 6000 (py "000042")
                eq_refl (fun o (H : In o []) => match H with end)) as H.
  exact (f_equal fst H).
Defined.

(** X26, witness. *)
Lemma login_after_register_witness :
  fst (Auth.login Toy.settings Toy.checkpw Toy.jwt_encode 5000
         (Auth.Build_LoginIn (py "sana@shop.example") (py "s3cret!"))
         Toy2.signed_up)
  = Return (Auth.Build_TokenOut true (py "sana@shop.example") (py "bearer")).
Proof.
  exact (f_equal fst
           (@login_after_register Toy.settings Toy.hashpw Toy.checkpw Toy.jwt_encode
              1000 Toy.chance Toy.signup Toy.nothing
              (py "s3cret!") (py "000042") (py "999999") 5000
              toy_bcrypt_checks eq_refl eq_refl)).
Defined.

(** X28, witness. *)
Lemma verify_phone_takes_newest_code_witness :
  exists o u,
    In o (otps Toy2.signed_up) /\ OTP.id o = 2%Z /\
    Auth.user_by_id (OTP.user_id o) Toy2.signed_up = Some u /\
    Account.id u = 1%Z.
Proof.
  destruct (@verify_phone_takes_newest_code Toy.checkpw 5000
              (Auth.Build_VerifyPhoneIn (py "923001234567") (py "999999"))
              Toy2.signed_up true
              (snd (Auth.verify_phone Toy.checkpw 5000
                      (Auth.Build_VerifyPhoneIn (py "923001234567") (py "999999"))
                      Toy2.signed_up)))
    as (o & u & owner & Hin & Hk & _ & _ & _ & _ & _ & _ & _ & Hu & _);
    [vm_compute; reflexivity|].
  exists o, u. split; [exact Hin|].
  destruct Hin as [<-|[<-|[]]]; [discriminate Hk|].
  split; [reflexivity|]. split; [exact Hu|].
  vm_compute in Hu. inversion Hu. reflexivity.
Defined.

(** X29, witness. *)
Lemma bootstrap_once_witness :
  Auth.on_startup Toy.settings Toy.hashpw (py "salt") Toy.nothing
  = (Return tt,
     mkWorld []
       [Account.mk 1 None (py "admin@example.com") None
                   (py "ChangeThisPassword123!") (py "superadmin") true true true]
       []
       [py "[BOOTSTRAP] SuperAdmin created: admin@example.com"]).
Proof.
  etransitivity;
    [apply (proj1 (@bootstrap_once Toy.settings Toy.hashpw (py "salt") Toy.nothing
                     (py "ChangeThisPassword123!") eq_refl eq_refl))|].
  reflexivity.
Defined.

(** X30, witness: a login 5 ms after 1970 with a lifetime of 10080
    minutes, and the token used in the last microsecond before the second
    604800 begins; one microsecond later the stand-in decoder refuses it. *)
Lemma token_of_login_authenticates_witness :
  fst (Auth.login Toy.settings Toy.checkpw Toy2.jwt_encode 5000
         (Auth.Build_LoginIn (py "sana@shop.example") (py "s3cret!"))
         Toy2.signed_up)
  = Return (Auth.Build_TokenOut true (py "0.604800.sana@shop.example")
              (py "bearer")) /\
  fst (Auth.get_current_user ascii_lower Toy2.jwt_decode 604800000000
         (py "Bearer 0.604800.sana@shop.example") Toy2.signed_up)
  = Raise (Auth.HTTP 401 "Invalid token") /\
  exists u,
    Auth.get_current_user ascii_lower Toy2.jwt_decode 604799999999
      (py "Bearer 0.604800.sana@shop.example") Toy2.signed_up
    = (Return u, Toy2.signed_up) /\
    Account.id u = 1%Z.
Proof.
  split; [vm_compute; reflexivity|].
  split; [vm_compute; reflexivity|].
  destruct (@token_of_login_authenticates ascii_lower Toy.settings Toy.checkpw
              Toy2.jwt_encode Toy2.jwt_decode 5000 604799999999
              (Auth.Build_LoginIn (py "sana@shop.example") (py "s3cret!"))
              Toy2.signed_up
              (Auth.Build_TokenOut true (py "0.604800.sana@shop.example")
                 (py "bearer"))
              Toy2.signed_up)
    as (u & Hg & Hu & _).
  - vm_compute. reflexivity.
  - exact toy_jwt_round_trip.
  - lia.
  - vm_compute. reflexivity.
  - vm_compute. reflexivity.
  - vm_compute. reflexivity.
  - discriminate.
  - discriminate.
  - exists u. split; [exact Hg|]. vm_compute in Hu. inversion Hu. reflexivity.
Defined.
